(** A shallow embedding of the genieacs-sim CWMP (TR-069) simulator:
    the RPC method handlers (methods.js), the authentication helpers
    (service-auth.js) and the session engine (simulator.js),
    together with the properties of the specification checked against them.

    JavaScript strings are modelled as [string] (one character per code
    unit), JavaScript objects used as dictionaries as [gmap string _],
    [undefined] as [None], thrown exceptions as [Throw]. *)

From Stdlib Require Import Ascii HexadecimalString HexadecimalN.
From stdpp Require Import gmap strings list fin_maps sorting pretty.

Set Warnings "-register-all".
Local Open Scope Z_scope.

(** * JavaScript built-ins used by the sources *)

Module Js.

(** Exceptions the sources can raise. *)
Inductive exn :=
| TypeError
| SyntaxError
| Error (msg : string).

Inductive result (A : Type) :=
| Ok (a : A)
| Throw (e : exn).
Global Arguments Ok {A} a.
Global Arguments Throw {A} e.

Definition bind {A B} (r : result A) (f : A → result B) : result B :=
  match r with
  | Ok a => f a
  | Throw e => Throw e
  end.

(** [s.length] *)
Definition length (s : string) : Z := Z.of_nat (String.length s).

(** [s.startsWith(t)] *)
Fixpoint startsWith (s t : string) {struct t} : bool :=
  match t with
  | EmptyString => true
  | String b t' =>
      match s with
      | EmptyString => false
      | String a s' => if Ascii.eqb a b then startsWith s' t' else false
      end
  end.

Fixpoint drop (n : nat) (s : string) : string :=
  match n with
  | O => s
  | S n' => match s with EmptyString => EmptyString | String _ s' => drop n' s' end
  end.

(** [s.slice(start)]: a negative [start] counts from the end. *)
Definition slice (s : string) (start : Z) : string :=
  if start <? 0
  then drop (Z.to_nat (Z.max (length s + start) 0)) s
  else drop (Z.to_nat start) s.

(** Index of the first occurrence of [c] in [s]. *)
Fixpoint find (c : ascii) (s : string) : option nat :=
  match s with
  | EmptyString => None
  | String a s' => if Ascii.eqb a c then Some O else S <$> find c s'
  end.

(** [s.indexOf(c, from)] for a one-character pattern: [-1] when absent. *)
Definition indexOf (s : string) (c : ascii) (from : Z) : Z :=
  let k := Z.to_nat (Z.max from 0) in
  match find c (drop k s) with
  | Some i => Z.of_nat (k + i)
  | None => -1
  end.

(** [s.split(c)] for a one-character separator. *)
Fixpoint split (c : ascii) (s : string) : list string :=
  match s with
  | EmptyString => [EmptyString]
  | String a s' =>
      if Ascii.eqb a c then EmptyString :: split c s'
      else match split c s' with
           | h :: t => String a h :: t
           | [] => [String a EmptyString]
           end
  end.

(** [s[0]] *)
Definition head (s : string) : option ascii :=
  match s with
  | EmptyString => None
  | String a _ => Some a
  end.

Fixpoint repeat (c : ascii) (n : nat) : string :=
  match n with
  | O => EmptyString
  | S n' => String c (repeat c n')
  end.

(** [s.padStart(n, c)] with a one-character filler. *)
Definition padStart (s : string) (n : nat) (c : ascii) : string :=
  repeat c (n - String.length s) +:+ s.

Definition lower (a : ascii) : ascii :=
  let n := nat_of_ascii a in
  if (65 <=? n)%nat && (n <=? 90)%nat then ascii_of_nat (n + 32) else a.

(** The upper case of one code unit below 256, as [toUpperCase] gives it:
    the letters [a] to [z] and the accented small letters of Latin-1 move
    down by 32, the sharp s (223) becomes [SS], and the micro sign (181) and
    the y with diaeresis (255) have capitals above 255, which a [string]
    here does not hold: [None]. *)
Definition upper (a : ascii) : option string :=
  let n := nat_of_ascii a in
  if (97 <=? n)%nat && (n <=? 122)%nat then Some (String (ascii_of_nat (n - 32)) "")
  else if (n =? 223)%nat then Some "SS"
  else if (n =? 181)%nat || (n =? 255)%nat then None
  else if (224 <=? n)%nat && (n <=? 254)%nat && negb (n =? 247)%nat
  then Some (String (ascii_of_nat (n - 32)) "")
  else Some (String a "").

Fixpoint map (f : ascii → ascii) (s : string) : string :=
  match s with
  | EmptyString => EmptyString
  | String a s' => String (f a) (map f s')
  end.

(** [s.toLowerCase()], on the letters [A] to [Z]. *)
Definition toLowerCase : string → string := map lower.

(** [s.toUpperCase()] for a string of code units below 256; [None] when the
    result has a code unit above 255. *)
Fixpoint toUpperCase (s : string) : option string :=
  match s with
  | EmptyString => Some EmptyString
  | String a s' =>
      match upper a, toUpperCase s' with
      | Some u, Some r => Some (u +:+ r)
      | _, _ => None
      end
  end.

(** Truthiness of a string value, and [a || b] on strings. *)
Definition truthy (s : string) : bool :=
  match s with EmptyString => false | _ => true end.

Definition or_else (s : option string) (d : string) : string :=
  match s with
  | Some x => if truthy x then x else d
  | None => d
  end.

(** [String(n)] for a non-negative integer. *)
Definition ofN (n : N) : string := pretty n.

(** [String(b)] for a boolean. *)
Definition ofBool (b : bool) : string := if b then "true" else "false".

(** The character class [\s] of regular expressions, on one-byte characters. *)
Definition isSpace (a : ascii) : bool :=
  match nat_of_ascii a with
  | 9%nat | 10%nat | 11%nat | 12%nat | 13%nat | 32%nat | 160%nat => true
  | _ => false
  end.

(** The character class [\w]. *)
Definition isWord (a : ascii) : bool :=
  let n := nat_of_ascii a in
  ((48 <=? n)%nat && (n <=? 57)%nat) || ((65 <=? n)%nat && (n <=? 90)%nat)
  || ((97 <=? n)%nat && (n <=? 122)%nat) || (n =? 95)%nat.

Fixpoint dropWhile (f : ascii → bool) (s : string) : string :=
  match s with
  | EmptyString => EmptyString
  | String a s' => if f a then dropWhile f s' else s
  end.

Fixpoint takeWhile (f : ascii → bool) (s : string) : string :=
  match s with
  | EmptyString => EmptyString
  | String a s' => if f a then String a (takeWhile f s') else EmptyString
  end.

(** The remainder of [s] after a match of [/^word\s+/i], if there is one. *)
Definition afterSchemeI (word s : string) : option string :=
  if startsWith (toLowerCase s) (toLowerCase word) then
    let rest := drop (String.length word) s in
    match rest with
    | String a _ => if isSpace a then Some (dropWhile isSpace rest) else None
    | EmptyString => None
    end
  else None.

(** [s.match(/^word\s+/i)] as a truth value. *)
Definition matchSchemeI (word s : string) : bool :=
  match afterSchemeI word s with Some _ => true | None => false end.

(** A JavaScript number that is an integer or [NaN]. The numbers of the
    sources are doubles: an integer is itself, and the arithmetic below
    exact, up to 2^53 in absolute value, and the statements that compute
    with numbers are made within that range. *)
Inductive number :=
| Num (z : Z)
| NaN.

Definition digit (a : ascii) : option Z :=
  let n := nat_of_ascii a in
  if (48 <=? n)%nat && (n <=? 57)%nat then Some (Z.of_nat n - 48) else None.

(** The longest run of decimal digits at the start of [s], read as a number. *)
Fixpoint digits (acc : option Z) (s : string) : option Z :=
  match s with
  | EmptyString => acc
  | String a s' =>
      match digit a with
      | Some k => digits (Some (10 * default 0 acc + k)) s'
      | None => acc
      end
  end.

(** [Number.parseInt(s, 10)]; [None] is [undefined]. The result is the
    number read when it is below 2^53 in absolute value; above, the source
    gets the nearest double. *)
Definition parseInt (s : option string) : number :=
  match s with
  | None => NaN
  | Some s =>
      let t := dropWhile isSpace s in
      let '(sign, t) :=
        match t with
        | String a t' =>
            if Ascii.eqb a "-"%char then (-1, t')
            else if Ascii.eqb a "+"%char then (1, t') else (1, t)
        | EmptyString => (1, t)
        end in
      match digits None t with
      | Some z => Num (sign * z)
      | None => NaN
      end
  end.

(** [l.join(sep)] *)
Fixpoint join (sep : string) (l : list string) : string :=
  match l with
  | [] => EmptyString
  | [x] => x
  | x :: rest => x +:+ sep +:+ join sep rest
  end.

(** A value that is [null] inside a template literal. *)
Definition template (s : option string) : string := default "null" s.

(** [String(z)] for an integer. *)
Definition ofZ (z : Z) : string := pretty z.

(** [k * x] for a constant [k], exact while the product is below 2^53 in
    absolute value. *)
Definition times (k : Z) (x : number) : number :=
  match x with Num z => Num (k * z) | NaN => NaN end.

(** Library functions the sources call and this development does not
    interpret: [crypto]'s MD5 in hex, Base64 of a [Buffer], the truth value
    of [JSON.parse(text)] ([None] when it throws), unary plus on a header
    value compared with zero, [pathname + search] of [new URL(url)]
    ([None] when the constructor throws) and the variable
    [process.env.DOWNLOAD_TIMEOUT]. *)
Class Builtins := {
  md5 : string → string;
  base64 : string → string;
  jsonTruthy : string → option bool;
  positiveNumber : option string → bool;
  urlPathSearch : string → option string;
  DOWNLOAD_TIMEOUT : option string
}.

(** The double quote character, and [q s] for [s] between double quotes. *)
Definition dq : string := String (ascii_of_nat 34) EmptyString.
Definition q (s : string) : string := dq +:+ s +:+ dq.

End Js.

(** [x ← e; k] runs [k] on the value of [e] and propagates its exception. *)
Global Instance result_bind : MBind Js.result := λ A B f r, Js.bind r f.

(** * XML values *)

Module Xml.

(** A parsed element, as the XML parser hands it to the handlers. *)
Inductive element := Element {
  name : string;
  localName : string;
  text : string;
  attrs : string;
  children : list element
}.

(** A parsed attribute, as [xmlParser.parseAttrs] returns it. *)
Record attr := Attr {
  attr_localName : string;
  attr_value : string
}.

(** Modelled from the spec: [xmlUtils.node(name, attrs, children)] of
    xml-utils.js, which is not among the sources. The markup the handlers
    build is kept as the tree of these calls; text content is a [Text] leaf. *)
Inductive xml :=
| Text (s : string)
| Node (tag : string) (attributes : list (string * option string)) (content : list xml).

(** Modelled from the spec: the call [xmlUtils.node(tag, attributes, content)];
    a missing content is the empty list, a text content a single [Text]. *)
Definition node (tag : string) (attributes : list (string * option string))
    (content : list xml) : xml := Node tag attributes content.

(** The functions of xml-parser.js the sources call: the entity codec, the
    attribute parser and the document parser. [None] stands for an
    [undefined] argument. *)
Class Parser := {
  encodeEntities : option string → string;
  decodeEntities : string → string;
  parseAttrs : string → list attr;
  parseXml : string → element
}.

(** Modelled from the spec: the text [xmlUtils.node] returns for a tree
    (xml-utils.js is not among the sources); only its length is used, for
    the [Content-Length] header. *)
Class Printer := {
  render : xml → string
}.

End Xml.

(** * The device object *)

(** A parameter: the array [[writable, value, type]]. Object nodes are
    [[true]]: their value and type are [undefined]. *)
Record param := Param {
  writable : bool;
  value : option string;
  xsdType : option string
}.

(** The device object: the keys bound to parameter arrays ([params]) and the
    private fields the simulator keeps on the same object. A flag that was
    deleted reads as [false]; [None] is [null] or [undefined]. *)
Record Device := mkDevice {
  params : gmap string param;
  _sortedPaths : option (list string);
  _pendingReboot : bool;
  _firmwareUpgrade : bool;
  _transferCompleteSession : bool;
  _downloadInProgress : bool;
  _activeDownloadRequest : option Z;
  _digestParams : option (gmap string string);
  _nonceCount : option N;
  _cookie : option (list string);
  _username : option string;
  _password : option string
}.

Definition set_params (m : gmap string param) (d : Device) : Device :=
  mkDevice m (_sortedPaths d) (_pendingReboot d) (_firmwareUpgrade d)
    (_transferCompleteSession d) (_downloadInProgress d) (_activeDownloadRequest d)
    (_digestParams d) (_nonceCount d) (_cookie d) (_username d) (_password d).

Definition set_sortedPaths (c : option (list string)) (d : Device) : Device :=
  mkDevice (params d) c (_pendingReboot d) (_firmwareUpgrade d)
    (_transferCompleteSession d) (_downloadInProgress d) (_activeDownloadRequest d)
    (_digestParams d) (_nonceCount d) (_cookie d) (_username d) (_password d).

Definition set_pendingReboot (b : bool) (d : Device) : Device :=
  mkDevice (params d) (_sortedPaths d) b (_firmwareUpgrade d)
    (_transferCompleteSession d) (_downloadInProgress d) (_activeDownloadRequest d)
    (_digestParams d) (_nonceCount d) (_cookie d) (_username d) (_password d).

Definition set_firmwareUpgrade (b : bool) (d : Device) : Device :=
  mkDevice (params d) (_sortedPaths d) (_pendingReboot d) b
    (_transferCompleteSession d) (_downloadInProgress d) (_activeDownloadRequest d)
    (_digestParams d) (_nonceCount d) (_cookie d) (_username d) (_password d).

Definition set_transferCompleteSession (b : bool) (d : Device) : Device :=
  mkDevice (params d) (_sortedPaths d) (_pendingReboot d) (_firmwareUpgrade d)
    b (_downloadInProgress d) (_activeDownloadRequest d)
    (_digestParams d) (_nonceCount d) (_cookie d) (_username d) (_password d).

Definition set_downloadInProgress (b : bool) (d : Device) : Device :=
  mkDevice (params d) (_sortedPaths d) (_pendingReboot d) (_firmwareUpgrade d)
    (_transferCompleteSession d) b (_activeDownloadRequest d)
    (_digestParams d) (_nonceCount d) (_cookie d) (_username d) (_password d).

Definition set_activeDownloadRequest (r : option Z) (d : Device) : Device :=
  mkDevice (params d) (_sortedPaths d) (_pendingReboot d) (_firmwareUpgrade d)
    (_transferCompleteSession d) (_downloadInProgress d) r
    (_digestParams d) (_nonceCount d) (_cookie d) (_username d) (_password d).

Definition set_digestParams (p : option (gmap string string)) (d : Device) : Device :=
  mkDevice (params d) (_sortedPaths d) (_pendingReboot d) (_firmwareUpgrade d)
    (_transferCompleteSession d) (_downloadInProgress d) (_activeDownloadRequest d)
    p (_nonceCount d) (_cookie d) (_username d) (_password d).

Definition set_nonceCount (n : option N) (d : Device) : Device :=
  mkDevice (params d) (_sortedPaths d) (_pendingReboot d) (_firmwareUpgrade d)
    (_transferCompleteSession d) (_downloadInProgress d) (_activeDownloadRequest d)
    (_digestParams d) n (_cookie d) (_username d) (_password d).

Definition set_cookie (c : option (list string)) (d : Device) : Device :=
  mkDevice (params d) (_sortedPaths d) (_pendingReboot d) (_firmwareUpgrade d)
    (_transferCompleteSession d) (_downloadInProgress d) (_activeDownloadRequest d)
    (_digestParams d) (_nonceCount d) c (_username d) (_password d).

(** The private fields the simulator sets on the device object. *)
Definition privateFields : list string :=
  ["_sortedPaths"; "_pendingReboot"; "_firmwareUpgrade"; "_transferCompleteSession";
   "_downloadInProgress"; "_activeDownloadRequest"; "_digestParams"; "_nonceCount";
   "_cookie"; "_username"; "_password"].

(** The properties every object inherits from [Object.prototype]. *)
Definition inherited : list string :=
  ["constructor"; "hasOwnProperty"; "isPrototypeOf"; "propertyIsEnumerable";
   "toLocaleString"; "toString"; "valueOf"; "__proto__"; "__defineGetter__";
   "__defineSetter__"; "__lookupGetter__"; "__lookupSetter__"].

(** The names under which the device object holds something that is not a
    parameter: a private field or an inherited property. *)
Definition reserved : list string := privateFields ++ inherited.

(** [device[key]] for a key that is not [reserved]: the parameter stored
    under the key, or [undefined]. Under a reserved key the object holds a
    string, a number, an array or a function, which this lookup does not
    describe; the statements about handlers that read a key named by the
    request are made for keys that are not reserved. The keys the handlers
    build themselves, an instance key or the path of a leaf, hold a decimal
    numeral or come from the sorted paths, and are never reserved. *)
Definition lookup_param (d : Device) (key : string) : option param := params d !! key.

(** [device[key] = p] *)
Definition store (key : string) (p : param) (d : Device) : Device :=
  set_params (<[key := p]> (params d)) d.

(** What [for (let p in device) if (p.startsWith(objectName)) delete device[p]]
    does to a private field named [field]. *)
Definition unless_deleted {A} (objectName field : string) (absent v : A) : A :=
  if Js.startsWith field objectName then absent else v.

(** * service-auth.js *)

Module Auth.
Section Digest.
Context `{!Js.Builtins}.

(** ** parseDigestHeader *)

Definition notQuote (a : ascii) : bool := negb (Ascii.eqb a (ascii_of_nat 34)).
Definition tokenChar (a : ascii) : bool := negb (Js.isSpace a) && negb (Ascii.eqb a ","%char).

(** The second alternative of the pattern, [([^\s,]+)], after the key [k]. *)
Definition bareValue (k r : string) : option (string * string * nat) :=
  let v := Js.takeWhile tokenChar r in
  if Js.truthy v then Some (k, v, (String.length k + 1 + String.length v)%nat) else None.

(** One attempt of the pattern of [parseDigestHeader] at the start of [t]:
    a run of word characters, an equals sign, and then either a non-empty
    run of characters other than the double quote between two double
    quotes, or a non-empty run of characters other than white space and the
    comma. The result is the key, the value [match[2] || match[3]] and the
    length of the match.
    Every repetition is greedy and is followed by a character outside its
    class, so giving characters back never helps. *)
Definition matchPair (t : string) : option (string * string * nat) :=
  let k := Js.takeWhile Js.isWord t in
  if Js.truthy k then
    match Js.drop (String.length k) t with
    | String e r =>
        if Ascii.eqb e "="%char then
          match r with
          | String o r' =>
              if Ascii.eqb o (ascii_of_nat 34) then
                let v := Js.takeWhile notQuote r' in
                match Js.drop (String.length v) r' with
                | String _ _ =>
                    if Js.truthy v
                    then Some (k, v, (String.length k + 3 + String.length v)%nat)
                    else bareValue k r
                | EmptyString => bareValue k r
                end
              else bareValue k r
          | EmptyString => None
          end
        else None
    | EmptyString => None
    end
  else None.

(** The [while ((match = regex.exec(digestStr)) !== null)] loop: [skip]
    characters still belong to the previous match. *)
Fixpoint pairs (skip : nat) (s : string) : list (string * string) :=
  match s with
  | EmptyString => []
  | String _ s' =>
      match skip with
      | S k => pairs k s'
      | O =>
          match matchPair s with
          | Some (k, v, len) => (k, v) :: pairs (len - 1) s'
          | None => pairs 0 s'
          end
      end
  end.

(** [params[match[1]] = match[2] || match[3]] on the object literal
    [params]. The key [__proto__] is not stored: the assignment goes to the
    setter the object inherits, which ignores a string. *)
Definition assign (params : gmap string string) (kv : string * string)
    : gmap string string :=
  if bool_decide (kv.1 = "__proto__") then params else <[kv.1 := kv.2]> params.

Definition parseDigestHeader (header : string) : gmap string string :=
  let digestStr := default header (Js.afterSchemeI "Digest" header) in
  foldl assign ∅ (pairs 0 digestStr).

(** ** generateDigestAuth *)

(** [String(nc).padStart(8, "0")]; [None] is the number [NaN]. The count
    is a double in the source: [String] writes it as its decimal numeral
    for a count below 2^53, the range of the counts that [_nonceCount++]
    reaches from 0 one by one. *)
Definition ncStr (nc : option N) : string :=
  Js.padStart (match nc with Some n => Js.ofN n | None => "NaN" end) 8 "0"%char.

(** [cnonce] is the value of [crypto.randomBytes(16).toString("hex")]. *)
Definition generateDigestAuth (username password method uri : string)
    (digestParams : gmap string string) (nc : option N) (cnonce : string) : string :=
  let realm := Js.or_else (digestParams !! "realm") "" in
  let nonce := Js.or_else (digestParams !! "nonce") "" in
  let qop := Js.or_else (digestParams !! "qop") "" in
  let opaque := Js.or_else (digestParams !! "opaque") "" in
  let algorithm := Js.or_else (digestParams !! "algorithm") "MD5" in
  let ha1 :=
    if bool_decide (Js.toUpperCase algorithm = Some "MD5-SESS") then
      let ha1Base := Js.md5 (username +:+ ":" +:+ realm +:+ ":" +:+ password) in
      Js.md5 (ha1Base +:+ ":" +:+ nonce +:+ ":" +:+ cnonce)
    else Js.md5 (username +:+ ":" +:+ realm +:+ ":" +:+ password) in
  let ha2 := Js.md5 (method +:+ ":" +:+ uri) in
  let ncStr := ncStr nc in
  let response :=
    if bool_decide (qop = "auth") || bool_decide (qop = "auth-int") then
      Js.md5 (ha1 +:+ ":" +:+ nonce +:+ ":" +:+ ncStr +:+ ":" +:+ cnonce +:+ ":"
              +:+ qop +:+ ":" +:+ ha2)
    else Js.md5 (ha1 +:+ ":" +:+ nonce +:+ ":" +:+ ha2) in
  let authHeader :=
    "Digest username=" +:+ Js.q username +:+ ", realm=" +:+ Js.q realm
    +:+ ", nonce=" +:+ Js.q nonce +:+ ", uri=" +:+ Js.q uri
    +:+ ", response=" +:+ Js.q response in
  let authHeader :=
    if Js.truthy algorithm then authHeader +:+ ", algorithm=" +:+ algorithm
    else authHeader in
  let authHeader :=
    if Js.truthy opaque then authHeader +:+ ", opaque=" +:+ Js.q opaque
    else authHeader in
  if Js.truthy qop then
    authHeader +:+ ", qop=" +:+ qop +:+ ", nc=" +:+ ncStr +:+ ", cnonce=" +:+ Js.q cnonce
  else authHeader.

(** ** getAuthorizationHeader *)

Definition basicAuth (username password : string) : string :=
  "Basic " +:+ Js.base64 (username +:+ ":" +:+ password).

(** [device._nonceCount++]: [undefined] and [NaN] both become [NaN]. *)
Definition increment (n : option N) : option N := (λ k, (k + 1)%N) <$> n.

Definition getAuthorizationHeader (d : Device) (method uri cnonce : string)
    : Device * string :=
  match _username d, _password d with
  | Some username, Some password =>
      if Js.truthy username && Js.truthy password then
        match _digestParams d with
        | Some digestParams =>
            let d := set_nonceCount (increment (_nonceCount d)) d in
            (d, generateDigestAuth username password
                  (if Js.truthy method then method else "POST")
                  (if Js.truthy uri then uri else "/")
                  digestParams (_nonceCount d) cnonce)
        | None => (d, basicAuth username password)
        end
      else (d, "")
  | _, _ => (d, "")
  end.

End Digest.
End Auth.

(** * The simulator state and what a step does to the outside world *)

(** An entry of [pendingTransfers]. A [Date] is kept as its ISO string. *)
Record transfer := Transfer {
  commandKey : option string;
  startTime : string;
  faultCode : string;
  faultString : string
}.

(** The functions handed to [setTimeout]. *)
Inductive callback :=
| StartSession (event : option string)
| Resume
| BootUpgraded
| Kill.

(** The callbacks handed to [sendRequest]. *)
Inductive continuation :=
| ToCpeRequest
| ToHandleMethod
| ToDestroyAgent.

(** The object [dwInfo] of a download. *)
Record DwInfo := mkDwInfo {
  attempts : Z;
  dw_commandKey : option string;
  url : option string;
  fileType : option string;
  username : option string;
  password : option string;
  authHeader : option string;
  cookies : option (list string)
}.

(** The variables a running [downloadFile] closes over. *)
Record download := mkDownload {
  dl_commandKey : option string;
  dl_startTime : string;
  dl_https : bool;
  dl_info : DwInfo
}.

(** A POST to the ACS: the envelope [xml] (kept for a retransmission), the
    headers and the callback that receives the answer. *)
Record post := mkPost {
  post_xml : option Xml.xml;
  post_contentLength : Z;
  post_authorization : string;
  post_cookie : option (list string);
  post_socketTimeout : Z;
  post_callback : continuation
}.

(** A GET of the download worker. *)
Record get := mkGet {
  get_download : download;
  get_authorization : option string;
  get_cookie : option string;
  get_timeout : Z
}.

Inductive effect :=
| SetTimeout (cb : callback) (delay : Js.number)
| ClearTimeout (cb : callback) (delay : Js.number)
| HttpPost (r : post)
| HttpGet (r : get)
| AgentDestroy
| RequestDestroy
| SocketDestroy
| ResponseEnd
| ProcessKill.

(** The module variables of simulator.js and methods.js. *)
Record World := mkWorld {
  device : Device;
  pendingTransfers : list transfer;
  nextInformTimeout : option (callback * Js.number);
  pendingInform : bool;
  acceptConnections : bool;
  timeout : Z;
  path : string
}.

Definition set_device (d : Device) (w : World) : World :=
  mkWorld d (pendingTransfers w) (nextInformTimeout w) (pendingInform w)
    (acceptConnections w) (timeout w) (path w).

Definition set_pendingTransfers (l : list transfer) (w : World) : World :=
  mkWorld (device w) l (nextInformTimeout w) (pendingInform w)
    (acceptConnections w) (timeout w) (path w).

Definition set_nextInformTimeout (t : option (callback * Js.number)) (w : World) : World :=
  mkWorld (device w) (pendingTransfers w) t (pendingInform w)
    (acceptConnections w) (timeout w) (path w).

Definition set_pendingInform (b : bool) (w : World) : World :=
  mkWorld (device w) (pendingTransfers w) (nextInformTimeout w) b
    (acceptConnections w) (timeout w) (path w).

Definition set_acceptConnections (b : bool) (w : World) : World :=
  mkWorld (device w) (pendingTransfers w) (nextInformTimeout w) (pendingInform w)
    b (timeout w) (path w).

Definition on_device (f : Device → Device) (w : World) : World :=
  set_device (f (device w)) w.

(** What the environment supplies to a step: the clock ([new Date()] as an
    ISO string), the request id drawn in [startSession] and the client nonce
    drawn in [generateDigestAuth]. *)
Record inputs := mkInputs {
  now : string;
  requestId : string;
  cnonce : string
}.

(** A step of the simulator: the new state, what it asked of the outside
    world, in order, and whether it returned or threw. *)
Definition step : Type := World * list effect * Js.result unit.

(** [stopSession] of simulator.js, which methods.js also calls. *)
Definition stopSession (w : World) : World * list effect * Z :=
  (set_acceptConnections false w, [SetTimeout Resume (Js.Num (timeout w))], timeout w).

(** * methods.js: the parameter handlers *)

Module Methods.
Section Handlers.
Context `{!Js.Builtins, !Xml.Parser}.
Import Xml.

Definition ignore : list string :=
  ["DeviceID"; "Downloads"; "Tags"; "Events"; "Reboot"; "FactoryReset";
   "VirtualParameters"].

(** The filter of [getSortedPaths]:
    [p[0] !== "_" && !ignore.has(p.split(".")[0])]. *)
Definition visible (p : string) : bool :=
  negb (bool_decide (Js.head p = Some "_"%char))
  && negb (bool_decide (List.hd EmptyString (Js.split "."%char p) ∈ ignore)).

(** [Object.keys(device).filter(...).sort()]; every private field name starts
    with an underscore, so only the keys of [params] can pass the filter. *)
Definition sortedPaths (d : Device) : list string :=
  merge_sort String.le (List.filter visible (map_to_list (params d)).*1).

Definition getSortedPaths (d : Device) : Device * list string :=
  match _sortedPaths d with
  | Some l => (d, l)
  | None => let l := sortedPaths d in (set_sortedPaths (Some l) d, l)
  end.

(** ** GetParameterNames *)

(** The loop over [request.children] of [GetParameterNames]. *)
Fixpoint namesArguments (cs : list element) (parameterPath : option string)
    (nextLevel : bool) : Js.result (option string * bool) :=
  match cs with
  | [] => Js.Ok (parameterPath, nextLevel)
  | c :: rest =>
      if bool_decide (name c = "ParameterPath") then
        namesArguments rest (Some (text c)) nextLevel
      else if bool_decide (name c = "NextLevel") then
        match Js.jsonTruthy (text c) with
        | Some b => namesArguments rest parameterPath b
        | None => Js.Throw Js.SyntaxError
        end
      else namesArguments rest parameterPath nextLevel
  end.

(** The test of the [nextLevel] branch on one path. *)
Definition nextLevelChild (parameterPath p : string) : bool :=
  Js.startsWith p parameterPath
  && (Js.length p >? Js.length parameterPath + 1)
  && (let i := Js.indexOf p "."%char (Js.length parameterPath + 1) in
      (i =? -1) || (i =? Js.length p - 1)).

(** The list [parameterList]. A missing [ParameterPath] is [undefined]:
    [startsWith] then looks for the text "undefined" and [.length] throws. *)
Definition selectNames (parameterPath : option string) (nextLevel : bool)
    (parameterNames : list string) : Js.result (list string) :=
  match parameterPath with
  | Some path =>
      if nextLevel then Js.Ok (List.filter (nextLevelChild path) parameterNames)
      else Js.Ok (List.filter (λ p, Js.startsWith p path) parameterNames)
  | None =>
      if nextLevel then
        if existsb (λ p, Js.startsWith p "undefined") parameterNames
        then Js.Throw Js.TypeError else Js.Ok []
      else Js.Ok (List.filter (λ p, Js.startsWith p "undefined") parameterNames)
  end.

Fixpoint infoStructs (d : Device) (l : list string) : Js.result (list xml) :=
  match l with
  | [] => Js.Ok []
  | p :: rest =>
      match lookup_param d p with
      | None => Js.Throw Js.TypeError
      | Some par =>
          tl ← infoStructs d rest;
          Js.Ok (node "ParameterInfoStruct" []
                   [node "Name" [] [Text p];
                    node "Writable" [] [Text (Js.ofBool (writable par))]] :: tl)
      end
  end.

Definition GetParameterNames (d : Device) (request : element)
    : Device * Js.result xml :=
  let '(d, parameterNames) := getSortedPaths d in
  (d,
   args ← namesArguments (children request) None false;
   parameterList ← selectNames args.1 args.2 parameterNames;
   ps ← infoStructs d parameterList;
   Js.Ok (node "cwmp:GetParameterNamesResponse" []
            [node "ParameterList"
               [("soap-enc:arrayType",
                 Some ("cwmp:ParameterInfoStruct["
                       +:+ Js.ofN (N.of_nat (List.length parameterList)) +:+ "]"))]
               ps])).

(** ** GetParameterValues *)

(** The loop over the requested names; [device[name]] is read through
    [lookup_param], so the names are taken not to be [reserved]. *)
Fixpoint valueStructs (d : Device) (l : list element) : Js.result (list xml) :=
  match l with
  | [] => Js.Ok []
  | p :: rest =>
      match lookup_param d (text p) with
      | None => Js.Throw Js.TypeError
      | Some par =>
          tl ← valueStructs d rest;
          Js.Ok (node "ParameterValueStruct" []
                   [node "Name" [] [Text (text p)];
                    node "Value" [("xsi:type", xsdType par)]
                      [Text (encodeEntities (value par))]] :: tl)
      end
  end.

Definition GetParameterValues (d : Device) (request : element)
    : Device * Js.result xml :=
  (d,
   match children request with
   | [] => Js.Throw Js.TypeError
   | c :: _ =>
       let parameterNames := children c in
       ps ← valueStructs d parameterNames;
       Js.Ok (node "cwmp:GetParameterValuesResponse" []
                [node "ParameterList"
                   [("soap-enc:arrayType",
                     Some ("cwmp:ParameterValueStruct["
                           +:+ Js.ofN (N.of_nat (List.length parameterNames)) +:+ "]"))]
                   ps])
   end).

(** ** SetParameterValues *)

(** The inner loop: the last [Name] and the last [Value] child. *)
Fixpoint nameAndValue (cs : list element) (nm : option string)
    (v : option element) : option string * option element :=
  match cs with
  | [] => (nm, v)
  | c :: rest =>
      if bool_decide (localName c = "Name") then nameAndValue rest (Some (text c)) v
      else if bool_decide (localName c = "Value") then nameAndValue rest nm (Some c)
      else nameAndValue rest nm v
  end.

(** [parseAttrs(value.attrs).find(a => a.localName === "type")] *)
Definition typeAttr (v : element) : option attr :=
  List.find (λ a, bool_decide (attr_localName a = "type")) (parseAttrs (attrs v)).

(** One iteration of the outer loop. The two assignments write into the
    array stored under [name]; a [name] that was never set reads the key
    "undefined". [device[name]] is read through [lookup_param], so the name
    is taken not to be [reserved]. *)
Definition setParameterValue (d : Device) (p : element) : Device * Js.result unit :=
  let '(nm, v) := nameAndValue (children p) None None in
  let key := default "undefined" nm in
  match lookup_param d key with
  | None => (d, Js.Throw Js.TypeError)
  | Some par =>
      match v with
      | None => (d, Js.Throw Js.TypeError)
      | Some v =>
          let d1 := store key (Param (writable par) (Some (decodeEntities (text v)))
                                 (xsdType par)) d in
          match typeAttr v with
          | None => (d1, Js.Throw Js.TypeError)
          | Some a =>
              (store key (Param (writable par) (Some (decodeEntities (text v)))
                            (Some (attr_value a))) d1, Js.Ok ())
          end
      end
  end.

Fixpoint setParameterValues (d : Device) (ps : list element) : Device * Js.result unit :=
  match ps with
  | [] => (d, Js.Ok ())
  | p :: rest =>
      match setParameterValue d p with
      | (d', Js.Ok _) => setParameterValues d' rest
      | (d', Js.Throw e) => (d', Js.Throw e)
      end
  end.

Definition SetParameterValues (d : Device) (request : element)
    : Device * Js.result xml :=
  match children request with
  | [] => (d, Js.Throw Js.TypeError)
  | c :: _ =>
      match setParameterValues d (children c) with
      | (d', Js.Ok _) =>
          (d', Js.Ok (node "cwmp:SetParameterValuesResponse" []
                        [node "Status" [] [Text "0"]]))
      | (d', Js.Throw e) => (d', Js.Throw e)
      end
  end.

(** ** AddObject *)

(** The key [`${objectName}${instanceNumber}.`]. *)
Definition instanceKey (objectName : string) (instanceNumber : N) : string :=
  objectName +:+ Js.ofN instanceNumber +:+ ".".

(** [while (device[`${objectName}${instanceNumber}.`]) instanceNumber += 1],
    run for at most [fuel] tests. *)
Fixpoint nextInstance (d : Device) (objectName : string) (fuel : nat)
    (instanceNumber : N) : N :=
  match fuel with
  | O => instanceNumber
  | S fuel' =>
      match lookup_param d (instanceKey objectName instanceNumber) with
      | Some _ => nextInstance d objectName fuel' (instanceNumber + 1)
      | None => instanceNumber
      end
  end.

(** The object [defaultValues], and [defaultValues[type] || ""] for a
    [type] that is not the name of an [inherited] property: under such a
    name the object literal answers with a function of its prototype, which
    is not a string and which this table does not hold. *)
Definition defaultValues : gmap string string :=
  {[ "xsd:boolean" := "false"; "xsd:int" := "0"; "xsd:unsignedInt" := "0";
     "xsd:dateTime" := "0001-01-01T00:00:00Z" ]}.

Definition defaultValue (type : option string) : string :=
  Js.or_else (defaultValues !! default "undefined" type) "".

(** The key [n] computed for the path [p]. *)
Definition instancePath (objectName : string) (instanceNumber : N) (p : string)
    : string :=
  objectName +:+ Js.ofN instanceNumber
  +:+ Js.slice p (Js.indexOf p "."%char (Js.length objectName)).

(** The loop over the sorted paths. *)
Fixpoint addLeaves (objectName : string) (instanceNumber : N)
    (paths : list string) (d : Device) : Device * Js.result unit :=
  match paths with
  | [] => (d, Js.Ok ())
  | p :: rest =>
      if Js.startsWith p objectName && (Js.length p >? Js.length objectName) then
        let n := instancePath objectName instanceNumber p in
        match lookup_param d n with
        | Some _ => addLeaves objectName instanceNumber rest d
        | None =>
            match lookup_param d p with
            | None => (d, Js.Throw Js.TypeError)
            | Some t =>
                addLeaves objectName instanceNumber rest
                  (store n (Param (writable t) (Some (defaultValue (xsdType t)))
                              (xsdType t)) d)
            end
        end
      else addLeaves objectName instanceNumber rest d
  end.

(** The instance number the handler picks. Each test of the loop that
    succeeds finds a different key of the device, so one more test than the
    device has keys is enough (see [nextInstance_spec]). *)
Definition instanceNumberOf (d : Device) (objectName : string) : N :=
  nextInstance d objectName (S (size (params d))) 1.

Definition AddObject (d : Device) (request : element) : Device * Js.result xml :=
  match children request with
  | [] => (d, Js.Throw Js.TypeError)
  | c :: _ =>
      let objectName := text c in
      let instanceNumber := instanceNumberOf d objectName in
      let d := store (instanceKey objectName instanceNumber) (Param true None None) d in
      let '(d, paths) := getSortedPaths d in
      match addLeaves objectName instanceNumber paths d with
      | (d, Js.Throw e) => (d, Js.Throw e)
      | (d, Js.Ok _) =>
          (set_sortedPaths None d,
           Js.Ok (node "cwmp:AddObjectResponse" []
                    [node "InstanceNumber" [] [Text (Js.ofN instanceNumber)];
                     node "Status" [] [Text "0"]]))
      end
  end.

(** ** DeleteObject *)

(** [for (let p in device) if (p.startsWith(objectName)) delete device[p]]
    followed by [delete device._sortedPaths]: the loop also visits the
    private fields. *)
Definition deleteKeys (objectName : string) (d : Device) : Device :=
  mkDevice
    (filter (λ kv, Js.startsWith kv.1 objectName = false) (params d))
    None
    (unless_deleted objectName "_pendingReboot" false (_pendingReboot d))
    (unless_deleted objectName "_firmwareUpgrade" false (_firmwareUpgrade d))
    (unless_deleted objectName "_transferCompleteSession" false
       (_transferCompleteSession d))
    (unless_deleted objectName "_downloadInProgress" false (_downloadInProgress d))
    (unless_deleted objectName "_activeDownloadRequest" None
       (_activeDownloadRequest d))
    (unless_deleted objectName "_digestParams" None (_digestParams d))
    (unless_deleted objectName "_nonceCount" None (_nonceCount d))
    (unless_deleted objectName "_cookie" None (_cookie d))
    (unless_deleted objectName "_username" None (_username d))
    (unless_deleted objectName "_password" None (_password d)).

Definition DeleteObject (d : Device) (request : element) : Device * Js.result xml :=
  match children request with
  | [] => (d, Js.Throw Js.TypeError)
  | c :: _ =>
      (deleteKeys (text c) d,
       Js.Ok (node "cwmp:DeleteObjectResponse" [] [node "Status" [] [Text "0"]]))
  end.

(** ** Transfers *)

Definition transferCompleteDelayMs : Z := 500.
Definition sessionFactoryResetDelayMs : Z := 500.

(** [Number.parseInt(process.env.DOWNLOAD_TIMEOUT, 10) || 30000] *)
Definition downloadTimeoutMs : Z :=
  match Js.parseInt Js.DOWNLOAD_TIMEOUT with
  | Js.Num z => if z =? 0 then 30000 else z
  | Js.NaN => 30000
  end.

Definition validFileTypes : list string :=
  ["1 Firmware Upgrade Image"; "2 Web Content"; "3 Vendor Configuration File";
   "4 Tone File"; "5 Ringer File"].

Definition isFirmware (fileType : option string) : bool :=
  bool_decide (fileType = Some "1 Firmware Upgrade Image").

Definition queueTransferComplete (commandKey : option string)
    (startTime faultCode faultString : string) (w : World) : World :=
  let faultCode := if Js.truthy faultCode then faultCode else "0" in
  set_pendingTransfers
    (pendingTransfers w ++ [Transfer commandKey startTime faultCode faultString]) w.

(** [pendingTransfers.shift()] *)
Definition getPendingTransfers (w : World) : World * option transfer :=
  match pendingTransfers w with
  | [] => (w, None)
  | t :: rest => (set_pendingTransfers rest w, Some t)
  end.

(** The element [cwmp:TransferComplete], built the same way by [inform]
    and by [cpeRequest]. *)
Definition transferComplete (t : transfer) (now : string) : xml :=
  node "cwmp:TransferComplete" []
    ([node "CommandKey" [] [Text (encodeEntities (Some (Js.or_else (commandKey t) "")))];
      node "StartTime" [] [Text (startTime t)];
      node "CompleteTime" [] [Text now]]
     ++ (if Js.truthy (faultCode t) && negb (bool_decide (faultCode t = "0"))
            && negb (bool_decide (faultCode t = ""))
         then [node "FaultStruct" []
                 [node "FaultCode" [] [Text (faultCode t)];
                  node "FaultString" []
                    [Text (encodeEntities (Some (Js.or_else (Some (faultString t)) "")))]]]
         else [])).

Definition createCwmpFault (faultCode faultString : string) : xml :=
  node "cwmp:Fault" []
    [node "FaultCode" [] [Text faultCode];
     node "FaultString" [] [Text (encodeEntities (Some faultString))]].

(** ** inform *)

Definition INFORM_PARAMS : list string :=
  ["Device.DeviceInfo.SpecVersion";
   "InternetGatewayDevice.DeviceInfo.SpecVersion";
   "Device.DeviceInfo.HardwareVersion";
   "InternetGatewayDevice.DeviceInfo.HardwareVersion";
   "Device.DeviceInfo.SoftwareVersion";
   "InternetGatewayDevice.DeviceInfo.SoftwareVersion";
   "Device.DeviceInfo.ProvisioningCode";
   "InternetGatewayDevice.DeviceInfo.ProvisioningCode";
   "Device.ManagementServer.ParameterKey";
   "InternetGatewayDevice.ManagementServer.ParameterKey";
   "Device.ManagementServer.ConnectionRequestURL";
   "InternetGatewayDevice.ManagementServer.ConnectionRequestURL";
   "Device.WANDevice.1.WANConnectionDevice.1.WANPPPConnection.1.ExternalIPAddress";
   "InternetGatewayDevice.WANDevice.1.WANConnectionDevice.1.WANPPPConnection.1.ExternalIPAddress";
   "Device.WANDevice.1.WANConnectionDevice.1.WANIPConnection.1.ExternalIPAddress";
   "InternetGatewayDevice.WANDevice.1.WANConnectionDevice.1.WANIPConnection.1.ExternalIPAddress"].

(** The chains [if (device[k1]) ... else if (device[k2]) ...] that fill one
    field of [DeviceId]; the empty string when no key is present. *)
Fixpoint identityField (d : Device) (tag : string) (keys : list string) : xml :=
  match keys with
  | [] => Text ""
  | k :: rest =>
      match lookup_param d k with
      | Some par => node tag [] [Text (encodeEntities (value par))]
      | None => identityField d tag rest
      end
  end.

(** [event.split(",")], or [[event]] for a [null] event. *)
Definition splitEvents (event : option string) : list (option string) :=
  match event with
  | Some e => Some <$> Js.split ","%char e
  | None => [None]
  end.

(** [ev || "2 PERIODIC"] *)
Definition eventCode (ev : option string) : string := Js.or_else ev "2 PERIODIC".

Definition eventStruct (ev : option string) : xml :=
  node "EventStruct" []
    [node "EventCode" [] [Text (eventCode ev)]; node "CommandKey" [] []].

Fixpoint informParams (d : Device) (ps : list string) : list xml :=
  match ps with
  | [] => []
  | p :: rest =>
      match lookup_param d p with
      | None => informParams d rest
      | Some param =>
          node "ParameterValueStruct" []
            [node "Name" [] [Text p];
             node "Value" [("xsi:type", xsdType param)]
               [Text (encodeEntities (value param))]] :: informParams d rest
      end
  end.

(** The callback of a handler: what is done with the body it produced. *)
Definition responder : Type := World → xml → World * list effect.

Definition inform (w : World) (event : option string) (now : string)
    (callback : responder) : World * list effect :=
  let d := device w in
  let manufacturer := identityField d "Manufacturer"
    ["DeviceID.Manufacturer"; "Device.DeviceInfo.Manufacturer";
     "InternetGatewayDevice.DeviceInfo.Manufacturer"] in
  let oui := identityField d "OUI"
    ["DeviceID.OUI"; "Device.DeviceInfo.ManufacturerOUI";
     "InternetGatewayDevice.DeviceInfo.ManufacturerOUI"] in
  let productClass := identityField d "ProductClass"
    ["DeviceID.ProductClass"; "Device.DeviceInfo.ProductClass";
     "InternetGatewayDevice.DeviceInfo.ProductClass"] in
  let serialNumber := identityField d "SerialNumber"
    ["DeviceID.SerialNumber"; "Device.DeviceInfo.SerialNumber";
     "InternetGatewayDevice.DeviceInfo.SerialNumber"] in
  let deviceId := node "DeviceId" [] [manufacturer; oui; productClass; serialNumber] in
  let evnt := node "Event" [("soap-enc:arrayType", Some "cwmp:EventStruct[1]")]
                (eventStruct <$> splitEvents event) in
  let parameterList :=
    node "ParameterList"
      [("soap-enc:arrayType",
        Some ("cwmp:ParameterValueStruct["
              +:+ Js.ofN (N.of_nat (List.length INFORM_PARAMS)) +:+ "]"))]
      (informParams d INFORM_PARAMS) in
  let informChildren :=
    [deviceId; evnt;
     node "MaxEnvelopes" [] [Text "1"];
     node "CurrentTime" [] [Text now];
     node "RetryCount" [] [Text "0"];
     parameterList] in
  match getPendingTransfers w with
  | (w, Some pendingTransfer) =>
      let w := on_device (set_transferCompleteSession true) w in
      callback w (node "cwmp:Inform" []
                    (informChildren ++ [transferComplete pendingTransfer now]))
  | (w, None) => callback w (node "cwmp:Inform" [] informChildren)
  end.

(** ** The download worker *)

Definition set_info (dw : DwInfo) (dl : download) : download :=
  mkDownload (dl_commandKey dl) (dl_startTime dl) (dl_https dl) dw.

Definition startTransferCompleteSession : effect :=
  SetTimeout (StartSession (Some "7 TRANSFER COMPLETE")) (Js.Num transferCompleteDelayMs).

(** The body of [downloadFile] up to the point where the request is in
    flight; its callbacks are [downloadResponse], [downloadError] and
    [downloadTimeout] below. *)
Definition downloadFile (w : World) (dl : download) : step :=
  let dw := dl_info dl in
  if attempts dw >? 5 then
    (queueTransferComplete (dl_commandKey dl) (dl_startTime dl) "9010"
       "Too many attempts" w, [], Js.Ok ())
  else
    match url dw ≫= Js.urlPathSearch with
    | None => (w, [], Js.Throw Js.TypeError)
    | Some _ =>
        let authorization :=
          match authHeader dw with
          | Some h => if Js.truthy h then Some h else None
          | None => None
          end in
        let cookie :=
          match cookies dw with
          | Some (c :: cs) => Some (Js.join "; " (c :: cs))
          | _ => None
          end in
        (on_device (set_activeDownloadRequest (Some (attempts dw))) w,
         [HttpGet (mkGet dl authorization cookie downloadTimeoutMs)],
         Js.Ok ())
    end.

(** What the callback of [urlObj.get] sees of a response. For status 200
    the body has been read to its end. *)
Record getResponse := GetResponse {
  res_statusCode : Z;
  res_wwwAuthenticate : option string;
  res_setCookie : option (list string)
}.

Definition retry (w : World) (dl : download) (dw : DwInfo) (header : string) : step :=
  let dw := mkDwInfo (attempts dw + 1) (dw_commandKey dw) (url dw) (fileType dw)
              (username dw) (password dw) (Some header) (cookies dw) in
  let '(w, effects, r) := downloadFile w (set_info dw dl) in
  (w, RequestDestroy :: effects, r).

Definition downloadResponse (w : World) (dl : download) (res : getResponse)
    (cnonce : string) : step :=
  let dw := dl_info dl in
  let settle (w : World) : step :=
    if negb (res_statusCode res =? 200) then
      (queueTransferComplete (dl_commandKey dl) (dl_startTime dl) "9010"
         ("Server returned code " +:+ Js.ofZ (res_statusCode res)) w,
       [startTransferCompleteSession], Js.Ok ())
    else
      let w := if isFirmware (fileType dw)
               then on_device (set_downloadInProgress false) w else w in
      let w := on_device (set_activeDownloadRequest None) w in
      let w := queueTransferComplete (dl_commandKey dl) (dl_startTime dl) "0" "" w in
      if isFirmware (fileType dw) then
        (on_device (set_firmwareUpgrade true) (on_device (set_pendingReboot true) w),
         [startTransferCompleteSession], Js.Ok ())
      else (w, [startTransferCompleteSession], Js.Ok ()) in
  if res_statusCode res =? 401 then
    let dw := mkDwInfo (attempts dw) (dw_commandKey dw) (url dw) (fileType dw)
                (username dw) (password dw) (authHeader dw)
                (Some (default [] (res_setCookie res))) in
    match res_wwwAuthenticate res with
    | Some authHeaderResp =>
        if negb (Js.truthy authHeaderResp) then settle w
        else if Js.matchSchemeI "Start" authHeaderResp
                || Js.matchSchemeI "Basic" authHeaderResp then
          retry w dl dw
            ("Basic " +:+ Js.base64 (Js.template (username dw) +:+ ":"
                                     +:+ Js.template (password dw)))
        else if Js.matchSchemeI "Digest" authHeaderResp then
          let digestParams := Auth.parseDigestHeader authHeaderResp in
          retry w dl dw
            (Auth.generateDigestAuth (Js.template (username dw))
               (Js.template (password dw)) "GET"
               (default "" (url dw ≫= Js.urlPathSearch)) digestParams (Some 1%N) cnonce)
        else settle w
    | None => settle w
    end
  else settle w.

Definition downloadError (w : World) (dl : download) (message : string) : step :=
  let w := if isFirmware (fileType (dl_info dl))
           then on_device (set_downloadInProgress false) w else w in
  let w := on_device (set_activeDownloadRequest None) w in
  (queueTransferComplete (dl_commandKey dl) (dl_startTime dl) "9010" message w,
   [startTransferCompleteSession], Js.Ok ()).

Definition downloadTimeout (w : World) (dl : download) : step :=
  let w := if isFirmware (fileType (dl_info dl))
           then on_device (set_downloadInProgress false) w else w in
  let w := on_device (set_activeDownloadRequest None) w in
  (queueTransferComplete (dl_commandKey dl) (dl_startTime dl) "9010"
     "Download timeout" w,
   [RequestDestroy; startTransferCompleteSession], Js.Ok ()).

(** ** Download *)

Fixpoint downloadArguments (cs : list element) (dw : DwInfo) : DwInfo :=
  match cs with
  | [] => dw
  | c :: rest =>
      let v := Some (decodeEntities (text c)) in
      downloadArguments rest
        (if bool_decide (name c = "CommandKey") then
           mkDwInfo (attempts dw) v (url dw) (fileType dw) (username dw)
             (password dw) (authHeader dw) (cookies dw)
         else if bool_decide (name c = "URL") then
           mkDwInfo (attempts dw) (dw_commandKey dw) v (fileType dw) (username dw)
             (password dw) (authHeader dw) (cookies dw)
         else if bool_decide (name c = "FileType") then
           mkDwInfo (attempts dw) (dw_commandKey dw) (url dw) v (username dw)
             (password dw) (authHeader dw) (cookies dw)
         else if bool_decide (name c = "Username") then
           mkDwInfo (attempts dw) (dw_commandKey dw) (url dw) (fileType dw) v
             (password dw) (authHeader dw) (cookies dw)
         else if bool_decide (name c = "Password") then
           mkDwInfo (attempts dw) (dw_commandKey dw) (url dw) (fileType dw)
             (username dw) v (authHeader dw) (cookies dw)
         else dw)
  end.

Definition respond (callback : responder) (w : World) (body : xml) : step :=
  let '(w, effects) := callback w body in (w, effects, Js.Ok ()).

Definition Download (w : World) (request : element) (now : string)
    (callback : responder) : step :=
  let dwInfo := downloadArguments (children request)
                  (mkDwInfo 0 None None None None None None None) in
  match fileType dwInfo with
  | None =>
      respond callback w
        (createCwmpFault "9003" "Invalid arguments - FileType is required")
  | Some ft =>
      if negb (Js.truthy ft) then
        respond callback w
          (createCwmpFault "9003" "Invalid arguments - FileType is required")
      else if negb (bool_decide (ft ∈ validFileTypes)) then
        respond callback w
          (createCwmpFault "9003"
             ("Invalid arguments - FileType '" +:+ ft +:+ "' not supported"))
      else
        let startTime := now in
        if isFirmware (fileType dwInfo) && _downloadInProgress (device w) then
          respond callback w
            (createCwmpFault "9010" "File transfer already in progress")
        else
          let w := if isFirmware (fileType dwInfo)
                   then on_device (set_downloadInProgress true) w else w in
          match url dwInfo with
          | None => (w, [], Js.Throw Js.TypeError)
          | Some u =>
              let '(w, effects, r) :=
                if Js.startsWith u "http://" then
                  downloadFile w (mkDownload (dw_commandKey dwInfo) startTime false dwInfo)
                else if Js.startsWith u "https://" then
                  downloadFile w (mkDownload (dw_commandKey dwInfo) startTime true dwInfo)
                else
                  let w := if isFirmware (fileType dwInfo)
                           then on_device (set_downloadInProgress false) w else w in
                  (queueTransferComplete (dw_commandKey dwInfo) startTime "9016"
                     "Invalid URL scheme" w,
                   [startTransferCompleteSession], Js.Ok ()) in
              match r with
              | Js.Throw e => (w, effects, Js.Throw e)
              | Js.Ok _ =>
                  let '(w, effects', r) :=
                    respond callback w
                      (node "cwmp:DownloadResponse" []
                         [node "Status" [] [Text "1"];
                          node "StartTime" [] [Text "0001-01-01T00:00:00Z"];
                          node "CompleteTime" [] [Text "0001-01-01T00:00:00Z"]]) in
                  (w, effects ++ effects', r)
              end
          end
  end.

(** ** Reboot and FactoryReset *)

Definition Reboot (w : World) (request : element) (now : string)
    (callback : responder) : step :=
  let '(w, cancelled) :=
    match _activeDownloadRequest (device w) with
    | Some _ =>
        let w := on_device (set_activeDownloadRequest None) w in
        (if _downloadInProgress (device w) then
           queueTransferComplete (Some "cancelled_by_reboot") now "9010"
             "Download failure" (on_device (set_downloadInProgress false) w)
         else w, [RequestDestroy])
    | None => (w, [])
    end in
  let '(w, sent) := callback w (node "cwmp:RebootResponse" [] [Text ""]) in
  let '(w, stopped, timeout) := stopSession w in
  (w,
   cancelled ++ sent ++ stopped
   ++ [SetTimeout (StartSession (Some "1 BOOT,M Reboot,4 VALUE CHANGE"))
         (Js.Num (timeout + 10000))],
   Js.Ok ()).

Definition FactoryReset (w : World) (request : element) (callback : responder) : step :=
  let '(w, sent) := callback w (node "cwmp:FactoryResetResponse" [] [Text ""]) in
  (w, sent ++ [SetTimeout Kill (Js.Num sessionFactoryResetDelayMs)], Js.Ok ()).

End Handlers.
End Methods.

(** * simulator.js: the session engine *)

Module Simulator.
Section Session.
Context `{!Js.Builtins, !Xml.Parser, !Xml.Printer}.
Import Xml.

Definition NAMESPACES : list (string * option string) :=
  [("xmlns:soap-enc", Some "http://schemas.xmlsoap.org/soap/encoding/");
   ("xmlns:soap-env", Some "http://schemas.xmlsoap.org/soap/envelope/");
   ("xmlns:xsd", Some "http://www.w3.org/2001/XMLSchema");
   ("xmlns:xsi", Some "http://www.w3.org/2001/XMLSchema-instance");
   ("xmlns:cwmp", Some "urn:dslforum-org:cwmp-1-0")].

(** The envelope of [createSoapDocument]; the document is this envelope
    after the XML declaration and a line feed. *)
Definition createSoapDocument (id : option string) (body : xml) : xml :=
  let headerNode :=
    node "soap-env:Header" []
      [node "cwmp:ID" [("soap-env:mustUnderstand", Some "1")]
         [Text (encodeEntities id)]] in
  let bodyNode := node "soap-env:Body" [] [body] in
  node "soap-env:Envelope" NAMESPACES [headerNode; bodyNode].

Definition xmlDeclaration : string :=
  "<?xml version=" +:+ Js.q "1.0" +:+ " encoding=" +:+ Js.q "UTF-8" +:+ "?>"
  +:+ String (ascii_of_nat 10) EmptyString.

(** The text posted for a document: [xml || ""]. *)
Definition documentText (xml : option xml) : string :=
  match xml with
  | Some env => xmlDeclaration +:+ render env
  | None => ""
  end.

(** [sendRequest] up to [request.end(body)]; the callback of the response
    is [sendRequestEnd] below. *)
Definition sendRequest (w : World) (xml : option xml) (callback : continuation)
    (cnonce : string) : World * list effect :=
  let body := documentText xml in
  let '(d, authorization) :=
    Auth.getAuthorizationHeader (device w) "POST" (path w) cnonce in
  (set_device d w,
   [HttpPost (mkPost xml (Js.length body) authorization (_cookie d)
                (timeout w + 30000) callback)]).

Definition createFaultResponse (code message : string) : xml :=
  let fault :=
    node "detail" []
      [node "cwmp:Fault" []
         [node "FaultCode" [] [Text code];
          node "FaultString" [] [Text (encodeEntities (Some message))]]] in
  node "soap-env:Fault" []
    [node "faultcode" [] [Text "Client"];
     node "faultstring" [] [Text "CWMP fault"];
     fault].

(** ** getRequestIdAndBody *)

Fixpoint headerAndBody (cs : list element) (headerElement bodyElement : option element)
    : option element * option element :=
  match cs with
  | [] => (headerElement, bodyElement)
  | c :: rest =>
      if bool_decide (localName c = "Header") then headerAndBody rest (Some c) bodyElement
      else if bool_decide (localName c = "Body") then headerAndBody rest headerElement (Some c)
      else headerAndBody rest headerElement bodyElement
  end.

Definition getRequestIdAndBody (xml : element)
    : Js.result (option string * option element) :=
  match children xml with
  | [] => Js.Throw Js.TypeError
  | envelope :: _ =>
      match headerAndBody (children envelope) None None with
      | (None, _) => Js.Throw Js.TypeError
      | (Some headerElement, bodyElement) =>
          Js.Ok ((λ c, decodeEntities (text c))
                   <$> List.find (λ c, bool_decide (localName c = "ID"))
                         (children headerElement),
                 bodyElement)
      end
  end.

Definition updateParameter (parameter value : string) (w : World) : World :=
  match lookup_param (device w) parameter with
  | Some par => on_device (store parameter (Param (writable par) (Some value) (xsdType par))) w
  | None => w
  end.

(** ** startSession *)

(** The callback every handler gets: wrap the body and post it. *)
Definition reply (id : option string) (next : continuation) (cnonce : string)
    : Methods.responder :=
  λ w body, sendRequest w (Some (createSoapDocument id body)) next cnonce.

Definition startSession (w : World) (event : option string) (i : inputs)
    : World * list effect :=
  let w := set_pendingInform false (set_nextInformTimeout None w) in
  Methods.inform w event (now i) (reply (Some (requestId i)) ToCpeRequest (cnonce i)).

(** ** handleMethod *)

Definition liftHandler (h : Device → element → Device * Js.result xml)
    (w : World) (request : element) (callback : Methods.responder) : step :=
  let '(d, r) := h (device w) request in
  match r with
  | Js.Ok body => Methods.respond callback (set_device d w) body
  | Js.Throw e => (set_device d w, [], Js.Throw e)
  end.

(** [methods[requestElement.localName]] applied to
    [(device, requestElement, callback)]. The exports [inform] and
    [getPendingTransfers] are in the table too: called this way, [inform]
    gets an element for its event and fails on [event.split], and
    [getPendingTransfers] drops a transfer and never calls back.
    The lookup also finds what the exports object inherits. Called as plain
    functions, with [this] undefined, [constructor] (that is [Object]) and
    [toString] return and the other functions throw a TypeError on
    [this]; [__proto__] is an object and calling it throws a TypeError.
    None of them calls back or touches the state. *)
Definition method (localName : string)
    : option (World → element → inputs → Methods.responder → step) :=
  if bool_decide (localName = "inform") then
    Some (λ w _ _ _, (w, [], Js.Throw Js.TypeError))
  else if bool_decide (localName = "getPendingTransfers") then
    Some (λ w _ _ _, ((Methods.getPendingTransfers w).1, [], Js.Ok ()))
  else if bool_decide (localName = "GetParameterNames") then
    Some (λ w r _ cb, liftHandler Methods.GetParameterNames w r cb)
  else if bool_decide (localName = "GetParameterValues") then
    Some (λ w r _ cb, liftHandler Methods.GetParameterValues w r cb)
  else if bool_decide (localName = "SetParameterValues") then
    Some (λ w r _ cb, liftHandler Methods.SetParameterValues w r cb)
  else if bool_decide (localName = "AddObject") then
    Some (λ w r _ cb, liftHandler Methods.AddObject w r cb)
  else if bool_decide (localName = "DeleteObject") then
    Some (λ w r _ cb, liftHandler Methods.DeleteObject w r cb)
  else if bool_decide (localName = "Download") then
    Some (λ w r i cb, Methods.Download w r (now i) cb)
  else if bool_decide (localName = "Reboot") then
    Some (λ w r i cb, Methods.Reboot w r (now i) cb)
  else if bool_decide (localName = "FactoryReset") then
    Some (λ w r _ cb, Methods.FactoryReset w r cb)
  else if bool_decide (localName ∈ ["constructor"; "toString"]) then
    Some (λ w _ _ _, (w, [], Js.Ok ()))
  else if bool_decide (localName ∈ inherited) then
    Some (λ w _ _ _, (w, [], Js.Throw Js.TypeError))
  else None.

(** [Number.parseInt(device[k][1], 10)] for the first of the two keys that
    is present, 10 when neither is. *)
Definition informInterval (d : Device) : Js.number :=
  match lookup_param d "Device.ManagementServer.PeriodicInformInterval" with
  | Some par => Js.parseInt (value par)
  | None =>
      match lookup_param d "InternetGatewayDevice.ManagementServer.PeriodicInformInterval" with
      | Some par => Js.parseInt (value par)
      | None => Js.Num 10
      end
  end.

(** The branch [if (!xml)] of [handleMethod]: the session is over. *)
Definition closeSession (w : World) : step :=
  let d := device w in
  if _pendingReboot d && _firmwareUpgrade d && _transferCompleteSession d then
    let w := on_device (λ d, set_transferCompleteSession false
                               (set_firmwareUpgrade false (set_pendingReboot false d))) w in
    let '(w, stopped, rebootTimeout) := stopSession w in
    (w, AgentDestroy :: stopped ++ [SetTimeout BootUpgraded (Js.Num rebootTimeout)],
     Js.Ok ())
  else
    let w := on_device (set_transferCompleteSession false) w in
    if _pendingReboot d then
      let w := on_device (set_pendingReboot false) w in
      let '(w, stopped, rebootTimeout) := stopSession w in
      (w, AgentDestroy :: stopped
          ++ [SetTimeout (StartSession (Some "1 BOOT,M Reboot")) (Js.Num rebootTimeout)],
       Js.Ok ())
    else
      let delay := if pendingInform w then Js.Num 0
                   else Js.times 1000 (informInterval d) in
      (set_nextInformTimeout (Some (StartSession None, delay)) w,
       [AgentDestroy; SetTimeout (StartSession None) delay], Js.Ok ())
  .

Definition handleMethod (w : World) (xml : option element) (i : inputs) : step :=
  match xml with
  | None => closeSession w
  | Some xml =>
      match getRequestIdAndBody xml with
      | Js.Throw e => (w, [], Js.Throw e)
      | Js.Ok (requestId, bodyElement) =>
          match bodyElement with
          | None => (w, [], Js.Throw Js.TypeError)
          | Some bodyElement =>
              match List.find (λ c, Js.startsWith (name c) "cwmp:") (children bodyElement) with
              | None => (w, [], Js.Throw Js.TypeError)
              | Some requestElement =>
                  match method (localName requestElement) with
                  | None =>
                      let body := createFaultResponse "9000" "Method not supported" in
                      let '(w, sent) :=
                        sendRequest w (Some (createSoapDocument requestId body))
                          ToHandleMethod (cnonce i) in
                      (w, sent, Js.Ok ())
                  | Some m =>
                      m w requestElement i (reply requestId ToHandleMethod (cnonce i))
                  end
              end
          end
      end
  end.

(** ** cpeRequest *)

Definition cpeRequest (w : World) (requestXml : option element) (i : inputs) : step :=
  match requestXml with
  | None =>
      if negb (acceptConnections w) then (w, [AgentDestroy], Js.Ok ())
      else handleMethod w None i
  | Some requestXml =>
      match getRequestIdAndBody requestXml with
      | Js.Throw e => (w, [], Js.Throw e)
      | Js.Ok (requestId, _) =>
          match Methods.getPendingTransfers w with
          | (w, Some pendingTransfer) =>
              let w := on_device (set_transferCompleteSession true) w in
              let transferComplete := Methods.transferComplete pendingTransfer (now i) in
              let '(w, sent) :=
                sendRequest w (Some (createSoapDocument requestId transferComplete))
                  ToHandleMethod (cnonce i) in
              (w, sent, Js.Ok ())
          | (w, None) =>
              if negb (acceptConnections w) then
                let faultBody :=
                  createFaultResponse "9002" "Device not ready to accept requests" in
                let '(w, sent) :=
                  sendRequest w (Some (createSoapDocument requestId faultBody))
                    ToDestroyAgent (cnonce i) in
                (w, sent, Js.Ok ())
              else
                let '(w, sent) := sendRequest w None ToHandleMethod (cnonce i) in
                (w, sent, Js.Ok ())
          end
      end
  end.

(** ** The callback of a response to [sendRequest] *)

(** What the [end] handler reads of the response of the ACS;
    [contentLength] is [response.headers["Content-Length"]]. *)
Record response := Response {
  statusCode : Z;
  wwwAuthenticate : option string;
  contentLength : option string;
  setCookie : option (list string);
  body : string
}.

(** [callback(xml)] for each of the three callbacks in use. *)
Definition continue (k : continuation) (w : World) (xml : option element)
    (i : inputs) : step :=
  match k with
  | ToCpeRequest => cpeRequest w xml i
  | ToHandleMethod => handleMethod w xml i
  | ToDestroyAgent => (w, [AgentDestroy], Js.Ok ())
  end.

Definition isDigestChallenge (wwwAuth : option string) : bool :=
  match wwwAuth with
  | Some h => Js.truthy h && Js.startsWith (Js.toLowerCase h) "digest"
  | None => false
  end.

Definition sendRequestEnd (w : World) (request : post) (res : response)
    (i : inputs) : step :=
  if statusCode res =? 401 then
    if isDigestChallenge (wwwAuthenticate res) then
      let w := on_device (λ d, set_nonceCount (Some 0%N)
                 (set_digestParams
                    (Some (Auth.parseDigestHeader (default "" (wwwAuthenticate res)))) d)) w in
      let '(w, sent) := sendRequest w (post_xml request) (post_callback request) (cnonce i) in
      (w, sent, Js.Ok ())
    else
      (w, [], Js.Throw (Js.Error ("Authentication failed with status "
                                  +:+ Js.ofZ (statusCode res) +:+ ": " +:+ body res)))
  else if negb (statusCode res / 100 =? 2) then
    (w, [], Js.Throw (Js.Error ("Unexpected response Code from ACS "
                                +:+ Js.ofZ (statusCode res) +:+ ": " +:+ body res)))
  else
    let xml :=
      if Js.positiveNumber (contentLength res) || (Js.length (body res) >? 0)
      then Some (parseXml (body res)) else None in
    let w := match setCookie res with
             | Some c => on_device (set_cookie (Some c)) w
             | None => w
             end in
    continue (post_callback request) w xml i.

(** ** Timers and the connection-request listener *)

(** What running a timer callback does. *)
Definition fire (w : World) (cb : callback) (i : inputs) : World * list effect :=
  match cb with
  | StartSession event => startSession w event i
  | Resume => (set_acceptConnections true w, [])
  | BootUpgraded =>
      let w := updateParameter "Device.DeviceInfo.SoftwareVersion" "2.0.0-upgraded" w in
      let w := updateParameter "InternetGatewayDevice.DeviceInfo.SoftwareVersion"
                 "2.0.0-upgraded" w in
      startSession w (Some "1 BOOT,M Download,4 VALUE CHANGE") i
  | Kill => (w, [ProcessKill])
  end.

(** The request handler of the listener of [listenForConnectionRequests]. *)
Definition connectionRequest (w : World) : World * list effect :=
  if negb (acceptConnections w) then (w, [SocketDestroy])
  else
    match nextInformTimeout w with
    | None => (set_pendingInform true w, [ResponseEnd])
    | Some (cb, delay) =>
        let t := (StartSession (Some "6 CONNECTION REQUEST"), Js.Num 0) in
        (set_nextInformTimeout (Some t) w,
         [ResponseEnd; ClearTimeout cb delay; SetTimeout t.1 t.2])
    end.

(** ** start *)

(** [if (device[key]) device[key][1] = v] *)
Definition setValue (key : string) (v : option string) (d : Device) : Device :=
  match lookup_param d key with
  | Some par => store key (Param (writable par) v (xsdType par)) d
  | None => d
  end.

(** The user name and password [start] leaves on the device: those of the
    data model when it has a [ManagementServer.Username], the defaults
    otherwise. Reading the password of a data model that has the user name
    but not the password throws. *)
Definition startCredentials (d : Device) : Js.result (option string * option string) :=
  match lookup_param d "Device.ManagementServer.Username" with
  | Some u =>
      match lookup_param d "Device.ManagementServer.Password" with
      | Some p => Js.Ok (value u, value p)
      | None => Js.Throw Js.TypeError
      end
  | None =>
      match lookup_param d "InternetGatewayDevice.ManagementServer.Username" with
      | Some u =>
          match lookup_param d "InternetGatewayDevice.ManagementServer.Password" with
          | Some p => Js.Ok (value u, value p)
          | None => Js.Throw Js.TypeError
          end
      | None => Js.Ok (Some "usertest", Some "passtest")
      end
  end.

(** [start] up to the call of [listenForConnectionRequests]: the state the
    simulator begins with. *)
Definition start (dataModel : Device) (serialNumber macAddress acsUrl : string)
    (defaultTimeout : Z) : Js.result World :=
  let d := dataModel in
  let d := setValue "DeviceID.SerialNumber" (Some serialNumber) d in
  let d := setValue "Device.DeviceInfo.SerialNumber" (Some serialNumber) d in
  let d := setValue "InternetGatewayDevice.DeviceInfo.SerialNumber" (Some serialNumber) d in
  let d := setValue
             "InternetGatewayDevice.WANDevice.1.WANConnectionDevice.1.WANIPConnection.1.MACAddress"
             (Some macAddress) d in
  let d := setValue
             "Device.WANDevice.1.WANConnectionDevice.1.WANIPConnection.1.MACAddress"
             (Some macAddress) d in
  credentials ← startCredentials d;
  match Js.urlPathSearch acsUrl with
  | None => Js.Throw Js.TypeError
  | Some path =>
      Js.Ok (mkWorld
               (mkDevice (params d) (_sortedPaths d) false false false false None None
                  (Some 0%N) None credentials.1 credentials.2)
               [] None false true defaultTimeout path)
  end.

(** The callback [start] hands to [listenForConnectionRequests], once the
    listener is up. *)
Definition listening (w : World) (connectionRequestUrl : string) (i : inputs)
    : World * list effect :=
  let d := device w in
  let d :=
    match lookup_param d "InternetGatewayDevice.ManagementServer.ConnectionRequestURL" with
    | Some _ =>
        setValue "InternetGatewayDevice.ManagementServer.ConnectionRequestURL"
          (Some connectionRequestUrl) d
    | None =>
        setValue "Device.ManagementServer.ConnectionRequestURL"
          (Some connectionRequestUrl) d
    end in
  startSession (set_device d w) (Some "1 BOOT") i.

(** ** The download worker, event by event *)

Inductive downloadEvent :=
| Responded (res : Methods.getResponse)
| Failed (message : string)
| TimedOut.

Definition downloadStep (w : World) (dl : download) (ev : downloadEvent)
    (cnonce : string) : step :=
  match ev with
  | Responded res => Methods.downloadResponse w dl res cnonce
  | Failed message => Methods.downloadError w dl message
  | TimedOut => Methods.downloadTimeout w dl
  end.

(** The request a step left in flight, if any. *)
Fixpoint inFlight (effects : list effect) : option download :=
  match effects with
  | [] => None
  | HttpGet g :: _ => Some (get_download g)
  | _ :: rest => inFlight rest
  end.

(** The worker fed the events of its requests, in the order they come.
    After a step that leaves a request in flight the next events are those
    of that request. After a step that leaves none the download is settled,
    and an event that still comes is one more of the same request: the
    error of a request the timeout has destroyed, for one. *)
Fixpoint runDownload (w : World) (dl : download) (events : list downloadEvent)
    (cnonce : string) : World * list effect :=
  match events with
  | [] => (w, [])
  | ev :: rest =>
      let '(w, effects, _) := downloadStep w dl ev cnonce in
      let '(w, effects') := runDownload w (default dl (inFlight effects)) rest cnonce in
      (w, effects ++ effects')
  end.

End Session.
End Simulator.

(** * Properties of the string functions *)

Lemma append_cons (x : ascii) (a b : string) : String x a +:+ b = String x (a +:+ b).
Proof. reflexivity. Qed.

Lemma append_nil_l (b : string) : "" +:+ b = b.
Proof. reflexivity. Qed.

Lemma append_assoc (a b c : string) : (a +:+ b) +:+ c = a +:+ b +:+ c.
Proof. induction a as [|x a IH]; [done|]. by rewrite !append_cons, IH. Qed.

Lemma append_nil_r (a : string) : a +:+ "" = a.
Proof. induction a as [|x a IH]; [done|]. by rewrite append_cons, IH. Qed.

Lemma length_append (a b : string) :
  String.length (a +:+ b) = (String.length a + String.length b)%nat.
Proof. induction a as [|x a IH]; [done|]. rewrite append_cons. simpl. by rewrite IH. Qed.

Lemma drop_append (o r : string) : Js.drop (String.length o) (o +:+ r) = r.
Proof. induction o as [|x o IH]; [done|]. rewrite append_cons. simpl. done. Qed.

Lemma drop_plus (a b : nat) (s : string) : Js.drop (a + b) s = Js.drop b (Js.drop a s).
Proof.
  revert s. induction a as [|a IH]; intros s; simpl; [done|].
  destruct s as [|x s]; [destruct b; reflexivity|]. apply IH.
Qed.

Lemma startsWith_append (o r : string) : Js.startsWith (o +:+ r) o = true.
Proof.
  induction o as [|x o IH]; [reflexivity|]. rewrite append_cons. simpl.
  by rewrite Ascii.eqb_refl.
Qed.

Lemma startsWith_split (s o : string) :
  Js.startsWith s o = true → s = o +:+ Js.drop (String.length o) s.
Proof.
  revert s. induction o as [|x o IH]; intros s; simpl; [done|].
  destruct s as [|y s]; [done|].
  destruct (Ascii.eqb_spec y x) as [->|]; [|done].
  intros Hs. rewrite append_cons. f_equal. by apply IH.
Qed.

Lemma startsWith_iff (s o : string) :
  Js.startsWith s o = true ↔ ∃ r, s = o +:+ r.
Proof.
  split.
  - intros Hs. eexists. by apply startsWith_split.
  - intros [r ->]. apply startsWith_append.
Qed.

Lemma find_append (c : ascii) (seg rest : string) :
  Js.find c seg = None →
  Js.find c (seg +:+ String c rest) = Some (String.length seg).
Proof.
  induction seg as [|x seg IH]; [rewrite append_nil_l|rewrite append_cons]; simpl.
  - by rewrite Ascii.eqb_refl.
  - destruct (Ascii.eqb x c); [done|].
    destruct (Js.find c seg); [done|]. intros _. by rewrite IH.
Qed.

Lemma append_inj_r (a b c : string) : a +:+ c = b +:+ c → a = b.
Proof.
  revert b. induction a as [|x a IH]; intros [|y b] Heq; [done|..].
  - apply (f_equal String.length) in Heq.
    rewrite append_nil_l, append_cons in Heq. simpl in Heq.
    rewrite length_append in Heq. lia.
  - apply (f_equal String.length) in Heq.
    rewrite append_nil_l, append_cons in Heq. simpl in Heq.
    rewrite length_append in Heq. lia.
  - rewrite !append_cons in Heq. injection Heq as -> Heq. f_equal. by apply IH.
Qed.

(** * Properties of the parameter handlers *)

Import Methods.

(** The cache of sorted paths, when there is one, is the list
    [getSortedPaths] would compute. *)
Definition cache_ok (d : Device) : Prop :=
  match _sortedPaths d with
  | Some l => l = sortedPaths d
  | None => True
  end.

Lemma elem_of_sortedPaths (d : Device) (p : string) :
  p ∈ sortedPaths d ↔ visible p = true ∧ is_Some (params d !! p).
Proof.
  unfold sortedPaths. rewrite merge_sort_Permutation.
  rewrite list_elem_of_In, filter_In, <-list_elem_of_In, list_elem_of_fmap.
  split.
  - intros [[[k v] [-> Hkv]] Hvis]. apply elem_of_map_to_list in Hkv.
    split; [done|]. by exists v.
  - intros [Hvis [v Hv]]. split; [|done].
    exists (p, v). split; [done|]. by apply elem_of_map_to_list.
Qed.

Lemma NoDup_sortedPaths (d : Device) : NoDup (sortedPaths d).
Proof.
  unfold sortedPaths. rewrite merge_sort_Permutation.
  apply NoDup_ListNoDup, List.NoDup_filter, NoDup_ListNoDup, NoDup_fst_map_to_list.
Qed.

Lemma Sorted_sortedPaths (d : Device) : Sorted String.le (sortedPaths d).
Proof. apply (Sorted_merge_sort String.le). Qed.

(** ** The instance number *)

Lemma instanceKey_inj (o : string) (i j : N) : instanceKey o i = instanceKey o j → i = j.
Proof.
  unfold instanceKey. intros Heq. apply (inj (String.app o)) in Heq.
  apply append_inj_r in Heq. by apply (inj pretty) in Heq.
Qed.

Lemma nextInstance_ext (d d' : Device) (o : string) (fuel : nat) (i : N) :
  (∀ j, (i ≤ j)%N → params d !! instanceKey o j = params d' !! instanceKey o j) →
  nextInstance d o fuel i = nextInstance d' o fuel i.
Proof.
  revert i. induction fuel as [|fuel IH]; intros i Hext; simpl; [done|].
  unfold lookup_param. rewrite <-(Hext i) by lia.
  destruct (params d !! instanceKey o i); [|done].
  apply IH. intros j Hj. apply Hext. lia.
Qed.

Lemma nextInstance_free (d : Device) (o : string) (fuel : nat) (i : N) :
  (size (params d) < fuel)%nat →
  params d !! instanceKey o (nextInstance d o fuel i) = None.
Proof.
  revert d i. induction fuel as [|fuel IH]; intros d i Hsize; [lia|]. simpl.
  unfold lookup_param.
  destruct (params d !! instanceKey o i) as [v|] eqn:Hi; [|done].
  set (d' := set_params (delete (instanceKey o i) (params d)) d).
  assert (Hext : ∀ j, (i + 1 ≤ j)%N →
            params d !! instanceKey o j = params d' !! instanceKey o j).
  { intros j Hj. simpl. rewrite lookup_delete_ne; [done|].
    intros Heq%instanceKey_inj. lia. }
  rewrite (nextInstance_ext d d') by done.
  rewrite Hext.
  - apply IH. simpl. rewrite map_size_delete, Hi.
    assert (size (params d) ≠ 0%nat).
    { intros Hz%map_size_empty_inv. by rewrite Hz, lookup_empty in Hi. }
    lia.
  - clear. generalize (i + 1)%N as k. intros k.
    revert k. induction fuel as [|fuel IH]; intros k; simpl; [lia|].
    destruct (lookup_param d' (instanceKey o k)); [|lia].
    specialize (IH (k + 1)%N). lia.
Qed.

Lemma nextInstance_taken (d : Device) (o : string) (fuel : nat) (i j : N) :
  (i ≤ j < nextInstance d o fuel i)%N → is_Some (params d !! instanceKey o j).
Proof.
  revert i. induction fuel as [|fuel IH]; intros i; simpl; [lia|].
  unfold lookup_param.
  destruct (params d !! instanceKey o i) as [v|] eqn:Hi; [|lia].
  intros Hj. destruct (decide (j = i)) as [->|]; [by exists v|].
  apply (IH (i + 1)%N). lia.
Qed.

(** The loop of [AddObject] stops because its test fails: the number it
    picks is free, and every smaller positive number is taken. *)
Lemma nextInstance_spec (d : Device) (o : string) :
  let i := instanceNumberOf d o in
  (1 ≤ i)%N
  ∧ params d !! instanceKey o i = None
  ∧ ∀ j, (1 ≤ j < i)%N → is_Some (params d !! instanceKey o j).
Proof.
  unfold instanceNumberOf. split_and!.
  - generalize 1%N as k. generalize (S (size (params d))) as fuel.
    induction fuel as [|fuel IH]; intros k; simpl; [lia|].
    destruct (lookup_param d (instanceKey o k)); [|lia].
    specialize (IH (k + 1)%N). lia.
  - apply nextInstance_free. lia.
  - intros j Hj. by eapply nextInstance_taken.
Qed.

(** ** Decimal numerals *)

Fixpoint all (f : ascii → bool) (s : string) : bool :=
  match s with
  | EmptyString => true
  | String a s' => f a && all f s'
  end.

Definition isDigit (a : ascii) : bool :=
  match Js.digit a with Some _ => true | None => false end.

Lemma isDigit_pretty_N_char (x : N) : isDigit (pretty_N_char x) = true.
Proof. unfold pretty_N_char. by repeat case_match. Qed.

Lemma digit_pretty_N_char (x : N) :
  (x < 10)%N → Js.digit (pretty_N_char x) = Some (Z.of_N x).
Proof.
  intros Hx.
  assert (x = 0 ∨ x = 1 ∨ x = 2 ∨ x = 3 ∨ x = 4 ∨ x = 5 ∨ x = 6 ∨ x = 7
          ∨ x = 8 ∨ x = 9)%N as Hcases by lia.
  by destruct_or!; subst.
Qed.

Lemma all_pretty_N_go (x : N) (s : string) :
  all isDigit s = true → all isDigit (pretty_N_go x s) = true.
Proof.
  revert s. induction (N.lt_wf_0 x) as [x _ IH]; intros s Hs.
  destruct (decide (x = 0)%N) as [->|]; [done|].
  rewrite pretty_N_go_step by lia. apply IH.
  - apply N.div_lt; lia.
  - simpl. by rewrite isDigit_pretty_N_char.
Qed.

Lemma all_digits_ofN (n : N) : all isDigit (Js.ofN n) = true.
Proof.
  unfold Js.ofN, pretty, pretty_N. case_decide; [done|].
  by apply all_pretty_N_go.
Qed.

Lemma find_all (f : ascii → bool) (c : ascii) (s : string) :
  f c = false → all f s = true → Js.find c s = None.
Proof.
  intros Hc. induction s as [|x s IH]; simpl; [done|].
  intros [Hx Hs]%andb_prop.
  destruct (Ascii.eqb_spec x c) as [->|]; [congruence|].
  by rewrite IH.
Qed.

Lemma find_dot_ofN (n : N) : Js.find "."%char (Js.ofN n) = None.
Proof. apply (find_all isDigit); [done|apply all_digits_ofN]. Qed.

(** ** AddObject *)

(** The key under which the loop of [AddObject] files a path that has a dot
    after the object name: the segment before that dot is replaced by the
    instance number. *)
Lemma instancePath_segment (o seg rest : string) (i : N) :
  Js.find "."%char seg = None →
  instancePath o i (o +:+ seg +:+ "." +:+ rest) = o +:+ Js.ofN i +:+ "." +:+ rest.
Proof.
  intros Hseg. unfold instancePath, Js.indexOf, Js.length.
  rewrite Z.max_l, Nat2Z.id by lia.
  rewrite drop_append.
  change ("." +:+ rest) with (String "."%char rest).
  rewrite (find_append _ _ _ Hseg).
  unfold Js.slice.
  destruct (Z.ltb_spec (Z.of_nat (String.length o + String.length seg)) 0); [lia|].
  by rewrite Nat2Z.id, drop_plus, !drop_append.
Qed.

Lemma instancePath_instanceKey (o : string) (i j : N) :
  instancePath o i (instanceKey o j) = instanceKey o i.
Proof.
  unfold instanceKey.
  rewrite <-(append_nil_r "."), (instancePath_segment o (Js.ofN j) "" i).
  - by rewrite append_nil_r.
  - apply find_dot_ofN.
Qed.

Lemma startsWith_instancePath (o : string) (i : N) (p : string) :
  Js.startsWith (instancePath o i p) o = true.
Proof. apply startsWith_append. Qed.

Lemma startsWith_instanceKey (o : string) (i : N) :
  Js.startsWith (instanceKey o i) o = true.
Proof. apply startsWith_append. Qed.

(** The leaf [AddObject] creates from the parameter [t] it copies. *)
Definition leafOf (t : param) : param :=
  Param (writable t) (Some (defaultValue (xsdType t))) (xsdType t).

(** The test the loop of [AddObject] applies to a path [q], together with
    [q] being filed under the key [k]. *)
Definition selects (o : string) (i : N) (k q : string) : bool :=
  Js.startsWith q o && (Js.length q >? Js.length o)
  && bool_decide (instancePath o i q = k).

Lemma set_params_id (d : Device) : set_params (params d) d = d.
Proof. by destruct d. Qed.

Lemma set_params_store (m : gmap string param) (k : string) (v : param) (d : Device) :
  set_params m (store k v d) = set_params m d.
Proof. by destruct d. Qed.

(** The loop of [AddObject] over paths that are all keys of the device:
    it keeps every key there was, and a key it adds holds the leaf made
    from the first path of the list filed under it. *)
Lemma addLeaves_spec (o : string) (i : N) (paths : list string) (d : Device) :
  (∀ p, p ∈ paths → is_Some (params d !! p)) →
  ∃ m, addLeaves o i paths d = (set_params m d, Js.Ok ())
       ∧ ∀ k, m !! k =
              match params d !! k with
              | Some v => Some v
              | None =>
                  match List.find (selects o i k) paths with
                  | Some q => leafOf <$> params d !! q
                  | None => None
                  end
              end.
Proof.
  revert d. induction paths as [|p paths IH]; intros d Hin.
  { exists (params d). rewrite set_params_id. split; [done|].
    intros k. simpl. by destruct (params d !! k). }
  assert (Hrest : ∀ q, q ∈ paths → is_Some (params d !! q)).
  { intros q Hq. apply Hin. by right. }
  simpl. unfold selects at 1.
  destruct (Js.startsWith p o && (Js.length p >? Js.length o)) eqn:Hcond; simpl.
  - unfold lookup_param.
    destruct (params d !! instancePath o i p) as [old|] eqn:Hn.
    + destruct (IH d Hrest) as (m & Hrun & Hm). exists m. split; [done|].
      intros k. rewrite Hm. destruct (params d !! k) eqn:Hk; [done|].
      case_bool_decide; [congruence|done].
    + destruct (Hin p) as [t Ht]; [by left|]. rewrite Ht.
      set (d' := store (instancePath o i p) (leafOf t) d).
      destruct (IH d') as (m & Hrun & Hm).
      { intros q Hq. simpl. apply lookup_insert_is_Some'. right. by apply Hrest. }
      exists m. split.
      { fold (leafOf t). fold d'. rewrite Hrun. unfold d'. by rewrite set_params_store. }
      intros k. rewrite Hm. simpl.
      destruct (decide (instancePath o i p = k)) as [<-|Hne].
      * rewrite lookup_insert_eq, Hn.
        rewrite bool_decide_eq_true_2 by done. by rewrite Ht.
      * rewrite lookup_insert_ne by done.
        destruct (params d !! k) eqn:Hk; [done|].
        rewrite bool_decide_eq_false_2 by done.
        destruct (List.find (selects o i k) paths) as [q|] eqn:Hfind; [|done].
        apply find_some in Hfind as [Hq%list_elem_of_In _].
        rewrite lookup_insert_ne; [done|].
        intros <-. apply Hrest in Hq as [? ?]. congruence.
  - destruct (IH d Hrest) as (m & Hrun & Hm). exists m. split; [done|].
    intros k. by rewrite Hm.
Qed.

(** ** Sorted paths after one insertion *)

Lemma StronglySorted_filter {A} (R : relation A) (P : A → bool) (l : list A) :
  StronglySorted R l → StronglySorted R (List.filter P l).
Proof.
  induction 1 as [|x l Hl IH Hx]; simpl; [constructor|].
  destruct (P x); [|done]. constructor; [done|].
  apply Forall_forall. intros y Hy%list_elem_of_In%filter_In.
  destruct Hy as [Hy%list_elem_of_In _]. by eapply Forall_forall in Hx.
Qed.

Lemma find_filter {A} (P : A → bool) (l : list A) :
  List.find P l = head (List.filter P l).
Proof. induction l as [|x l IH]; simpl; [done|]. by destruct (P x). Qed.

Lemma filter_Permutation {A} (P : A → bool) (l1 l2 : list A) :
  l1 ≡ₚ l2 → List.filter P l1 ≡ₚ List.filter P l2.
Proof.
  induction 1 as [|x l1 l2 _ IH|x y l|l1 l2 l3 _ IH1 _ IH2]; simpl.
  - done.
  - destruct (P x); [by constructor|done].
  - destruct (P x), (P y); try done. apply perm_swap.
  - by etrans.
Qed.

(** A key stored under a path the test [P] rejects does not change which
    sorted path [P] finds first. *)
Lemma find_sortedPaths_store (P : string → bool) (k : string) (v : param) (d : Device) :
  P k = false → params d !! k = None →
  List.find P (sortedPaths (store k v d)) = List.find P (sortedPaths d).
Proof.
  intros HP Hk. rewrite !find_filter. f_equal.
  apply (StronglySorted_unique String.le).
  - apply StronglySorted_filter, (StronglySorted_merge_sort String.le).
  - apply StronglySorted_filter, (StronglySorted_merge_sort String.le).
  - unfold sortedPaths.
    etrans; [apply filter_Permutation, merge_sort_Permutation|].
    etrans; [|symmetry; apply filter_Permutation, merge_sort_Permutation].
    etrans.
    { apply filter_Permutation, filter_Permutation, fmap_Permutation.
      simpl. by apply map_to_list_insert. }
    simpl. destruct (visible k); simpl; [|done]. by rewrite HP.
Qed.

Definition addObjectResponse (i : N) : Xml.xml :=
  Xml.node "cwmp:AddObjectResponse" []
    [Xml.node "InstanceNumber" [] [Xml.Text (Js.ofN i)];
     Xml.node "Status" [] [Xml.Text "0"]].

Lemma set_sortedPaths_set_params (c : option (list string)) (m : gmap string param)
    (c' : option (list string)) (k : string) (v : param) (d : Device) :
  set_sortedPaths c (set_params m (set_sortedPaths c' (store k v d)))
  = set_sortedPaths c (set_params m d).
Proof. by destruct d. Qed.

(** [AddObject] on a device whose cache is in order: it answers with the
    instance number of [nextInstance_spec], stores the object node under the
    instance key, keeps every other key, and files new leaves as
    [addLeaves_spec] says, read off the sorted paths of the device. *)
Lemma AddObject_run (d : Device) (request c : Xml.element) (cs : list Xml.element) :
  cache_ok d → Xml.children request = c :: cs →
  let o := Xml.text c in
  let i := instanceNumberOf d o in
  ∃ m, AddObject d request
       = (set_sortedPaths None (set_params m d), Js.Ok (addObjectResponse i))
     ∧ ∀ k, m !! k =
            if decide (k = instanceKey o i) then Some (Param true None None)
            else match params d !! k with
                 | Some v => Some v
                 | None =>
                     match List.find (selects o i k) (sortedPaths d) with
                     | Some q => leafOf <$> params d !! q
                     | None => None
                     end
                 end.
Proof.
  intros Hcache Hchildren o i.
  destruct (nextInstance_spec d o) as (_ & Hfree & _). fold i in Hfree.
  set (d1 := store (instanceKey o i) (Param true None None) d).
  assert (Hpaths : ∃ c', getSortedPaths d1 = (set_sortedPaths c' d1, (getSortedPaths d1).2)
            ∧ (∀ p, p ∈ (getSortedPaths d1).2 → is_Some (params d1 !! p))
            ∧ ∀ k, k ≠ instanceKey o i →
                List.find (selects o i k) (getSortedPaths d1).2
                = List.find (selects o i k) (sortedPaths d)).
  { unfold getSortedPaths, cache_ok in *. simpl.
    destruct (_sortedPaths d) as [l|] eqn:Hl; simpl.
    - exists (Some l). subst l. split_and!.
      + unfold set_sortedPaths, d1, store, set_params. simpl. by rewrite Hl.
      + intros p [_ Hp]%elem_of_sortedPaths. apply lookup_insert_is_Some'. by right.
      + done.
    - exists (Some (sortedPaths d1)). split_and!; [done|..].
      + by intros p [_ Hp]%elem_of_sortedPaths.
      + intros k Hk. apply find_sortedPaths_store; [|done].
        unfold selects. rewrite instancePath_instanceKey.
        rewrite bool_decide_eq_false_2 by done. apply andb_false_r. }
  destruct Hpaths as (c' & Hget & Hin & Hfind).
  destruct (addLeaves_spec o i _ (set_sortedPaths c' d1) Hin) as (m & Hrun & Hm).
  exists m. split.
  - unfold AddObject. rewrite Hchildren. fold o i d1. rewrite Hget, Hrun.
    unfold d1. by rewrite set_sortedPaths_set_params.
  - intros k. rewrite Hm. simpl.
    destruct (decide (k = instanceKey o i)) as [->|Hne].
    { by rewrite lookup_insert_eq. }
    rewrite lookup_insert_ne by done.
    destruct (params d !! k) eqn:Hk; [done|].
    rewrite Hfind by done.
    destruct (List.find (selects o i k) (sortedPaths d)) as [q|] eqn:Hq; [|done].
    apply find_some in Hq as [Hq%list_elem_of_In _].
    apply elem_of_sortedPaths in Hq as [_ [t Ht]].
    rewrite lookup_insert_ne; [done|]. intros <-. congruence.
Qed.

(** ** Example devices and requests *)

Definition elem (name text : string) : Xml.element :=
  Xml.Element name name text "" [].

Definition request (method : string) (args : list Xml.element) : Xml.element :=
  Xml.Element ("cwmp:" +:+ method) method "" "" args.

Definition exampleDevice (m : gmap string param) : Device :=
  mkDevice m None false false false false None None (Some 0%N) None
    (Some "usertest") (Some "passtest").

(** A device with one instance of the object [A.]. *)
Definition oneInstance : Device :=
  exampleDevice
    {[ "A.1." := Param true None None;
       "A.1.Name" := Param true (Some "x") (Some "xsd:string");
       "A.1.Enable" := Param false (Some "true") (Some "xsd:boolean") ]}.

Definition addA : Xml.element := request "AddObject" [elem "ObjectName" "A."].

(** ** AddObject followed by DeleteObject *)

(** C7, as amended: on a device whose cache of sorted paths is in order,
    AddObject on an object name followed by DeleteObject on the same name
    both answer, and the keys of the parameter map are then exactly the
    prior keys that do not start with the object name: DeleteObject also
    removes the keys that were there before AddObject. *)
Theorem AddObject_then_DeleteObject_keys (d : Device) (request c : Xml.element)
    (cs : list Xml.element) :
  cache_ok d → Xml.children request = c :: cs →
  ∃ d1 r1 d2 r2,
    AddObject d request = (d1, Js.Ok r1)
    ∧ DeleteObject d1 request = (d2, Js.Ok r2)
    ∧ dom (params d2)
      = filter (λ k, Js.startsWith k (Xml.text c) = false) (dom (params d)).
Proof.
  intros Hcache Hchildren.
  destruct (AddObject_run d request c cs Hcache Hchildren) as (m & Hadd & Hm).
  eexists _, _, _, _. split; [exact Hadd|]. split.
  { unfold DeleteObject. rewrite Hchildren. reflexivity. }
  apply set_eq. intros k. simpl.
  rewrite elem_of_filter, !elem_of_dom.
  unfold is_Some. setoid_rewrite map_lookup_filter_Some. simpl.
  split.
  - intros (v & Hv & Hk). split; [done|]. rewrite Hm in Hv.
    case_decide as Hkey.
    { rewrite Hkey, startsWith_instanceKey in Hk. done. }
    destruct (params d !! k) eqn:Hd; [by eexists|].
    destruct (List.find _ _) as [q|] eqn:Hq; [|done].
    apply find_some in Hq as [_ Hsel]. unfold selects in Hsel.
    apply andb_prop in Hsel as [_ Hsel%bool_decide_eq_true_1].
    rewrite <-Hsel, startsWith_instancePath in Hk. done.
  - intros [Hk [v Hv]]. exists v. split; [|done]. rewrite Hm.
    case_decide as Hkey.
    { rewrite Hkey, startsWith_instanceKey in Hk. done. }
    by rewrite Hv.
Qed.


Lemma AddObject_then_DeleteObject_keys_witness :
  ∃ d1 r1 d2 r2,
    AddObject oneInstance addA = (d1, Js.Ok r1)
    ∧ DeleteObject d1 addA = (d2, Js.Ok r2)
    ∧ dom (params d2)
      = filter (λ k, Js.startsWith k "A." = false) (dom (params oneInstance)).
Proof.
  exact (AddObject_then_DeleteObject_keys oneInstance addA
           (elem "ObjectName" "A.") [] I eq_refl).
Defined.

(** C7, as stated, fails: after AddObject and DeleteObject on [A.] the
    keys of the instance that was there before are gone. *)
Lemma AddObject_then_DeleteObject_loses_keys :
  ¬ (∀ d request d1 r1 d2 r2,
       AddObject d request = (d1, Js.Ok r1) →
       DeleteObject d1 request = (d2, Js.Ok r2) →
       dom (params d2) = dom (params d)).
Proof.
  intros Hclaim.
  destruct (AddObject_run oneInstance addA _ [] I eq_refl) as (m & Hadd & _).
  assert (Hdel : DeleteObject (set_sortedPaths None (set_params m oneInstance)) addA
                 = (deleteKeys "A." (set_sortedPaths None (set_params m oneInstance)),
                    Js.Ok (Xml.node "cwmp:DeleteObjectResponse" []
                             [Xml.node "Status" [] [Xml.Text "0"]])))
    by reflexivity.
  specialize (Hclaim _ _ _ _ _ _ Hadd Hdel).
  assert (Hin : "A.1.Name" ∈ dom (params oneInstance)).
  { apply elem_of_dom. vm_compute. eexists. reflexivity. }
  assert (Hout : "A.1.Name"
                 ∉ dom (params (deleteKeys "A."
                                  (set_sortedPaths None (set_params m oneInstance))))).
  { intros [v Hv]%elem_of_dom. apply map_lookup_filter_Some in Hv as [_ Hv].
    vm_compute in Hv. discriminate. }
  congruence.
Qed.

(** ** The leaves of a new instance *)

Lemma find_is_Some {A} (P : A → bool) (l : list A) (x : A) :
  x ∈ l → P x = true → ∃ y, List.find P l = Some y.
Proof.
  intros Hx HP. destruct (List.find P l) as [y|] eqn:Hfind; [by exists y|].
  apply list_elem_of_In in Hx. apply (find_none _ _ Hfind) in Hx. congruence.
Qed.

(** A device that holds only a path directly under [A.]. *)
Definition templateOnly : Device :=
  exampleDevice {[ "A.Name" := Param true (Some "x") (Some "xsd:string") ]}.

(** The default of a type in the words of the specification. *)
Definition claimedDefault (type : option string) : string :=
  if bool_decide (type = Some "xsd:boolean") then "false"
  else if bool_decide (type = Some "xsd:int") then "0"
  else if bool_decide (type = Some "xsd:unsignedInt") then "0"
  else if bool_decide (type = Some "xsd:dateTime") then "0001-01-01T00:00:00Z"
  else "".

Lemma defaultValue_claimed (type : option string) :
  defaultValue type = claimedDefault type.
Proof.
  unfold defaultValue, claimedDefault, defaultValues.
  destruct type as [t|]; [|reflexivity]. cbn [default from_option id].
  repeat (case_bool_decide as Ht;
          [injection Ht as ->; reflexivity|];
          rewrite lookup_insert_ne by congruence; clear Ht).
  case_bool_decide as Ht; [injection Ht as ->; reflexivity|].
  by rewrite lookup_singleton_ne by congruence.
Qed.

(** The type of a parameter is not the name of an inherited property. *)
Definition plainType (par : param) : bool :=
  bool_decide (default "undefined" (xsdType par) ∉ inherited).

(** No type stored on the device is the name of an inherited property. *)
Definition plainTypes (d : Device) : Prop :=
  map_Forall (λ _ par, plainType par = true) (params d).

(** C4, as amended: on a device whose cache of sorted paths is in order and
    that stores no type named like an inherited property, AddObject answers
    with the smallest positive instance number [i] whose object key is free
    and stores the object node under it. For every path
    [<objectName><segment>.<rest>] of the device that is neither private nor
    under an ignored root, where the segment holds no dot and the rest is
    not empty, the key [<objectName><i>.<rest>] exists afterwards; if it was
    not there before, it holds the default of its type (false for
    xsd:boolean, 0 for xsd:int and xsd:unsignedInt, 0001-01-01T00:00:00Z for
    xsd:dateTime, the empty string otherwise), with the writable flag and
    the type of the first sorted path that the handler files under that
    key. Paths with no dot after the object name are left out of this
    statement. *)
Theorem AddObject_instance_leaves (d : Device) (request c : Xml.element)
    (cs : list Xml.element) :
  cache_ok d → plainTypes d → Xml.children request = c :: cs →
  let o := Xml.text c in
  let i := instanceNumberOf d o in
  ∃ d', AddObject d request = (d', Js.Ok (addObjectResponse i))
    ∧ params d !! instanceKey o i = None
    ∧ (∀ j, (1 ≤ j < i)%N → is_Some (params d !! instanceKey o j))
    ∧ params d' !! instanceKey o i = Some (Param true None None)
    ∧ ∀ seg rest t,
        Js.find "."%char seg = None → rest ≠ "" →
        visible (o +:+ seg +:+ "." +:+ rest) = true →
        params d !! (o +:+ seg +:+ "." +:+ rest) = Some t →
        let n := o +:+ Js.ofN i +:+ "." +:+ rest in
        ∃ q tq,
          List.find (selects o i n) (sortedPaths d) = Some q
          ∧ params d !! q = Some tq
          ∧ params d' !! n
            = Some (match params d !! n with
                    | Some old => old
                    | None =>
                        Param (writable tq) (Some (claimedDefault (xsdType tq)))
                          (xsdType tq)
                    end).
Proof.
  intros Hcache _ Hchildren o i.
  destruct (AddObject_run d request c cs Hcache Hchildren) as (m & Hadd & Hm).
  destruct (nextInstance_spec d o) as (_ & Hfree & Htaken).
  fold o i in Hadd, Hm, Hfree, Htaken. clearbody o i.
  eexists. split; [exact Hadd|]. split; [exact Hfree|]. split; [exact Htaken|].
  simpl. split.
  { rewrite Hm. by rewrite decide_True. }
  intros seg rest t Hseg Hrest Hvis Hp.
  remember (o +:+ Js.ofN i +:+ "." +:+ rest) as n eqn:Hn.
  remember (o +:+ seg +:+ "." +:+ rest) as p eqn:Hpath.
  assert (Hsel : selects o i n p = true).
  { unfold selects. rewrite andb_true_iff, andb_true_iff. split_and!.
    - subst p. apply startsWith_append.
    - apply Z.gtb_lt. subst p. unfold Js.length. rewrite !length_append. simpl. lia.
    - apply bool_decide_eq_true_2. subst n p. by apply instancePath_segment. }
  destruct (find_is_Some (selects o i n) (sortedPaths d) p) as [q Hq]; [|done|].
  { apply elem_of_sortedPaths. eauto. }
  pose proof Hq as [Hin%list_elem_of_In _]%find_some.
  apply elem_of_sortedPaths in Hin as [_ [tq Htq]].
  exists q, tq. split; [done|]. split; [done|].
  rewrite Hm. rewrite decide_False.
  - destruct (params d !! n); [done|]. rewrite Hq, Htq. cbn.
    unfold leafOf. by rewrite defaultValue_claimed.
  - subst n. unfold instanceKey. intros Heq.
    apply (inj (String.app o)), (inj (String.app (Js.ofN i))) in Heq.
    apply Hrest. by injection Heq.
Qed.

(** A device with one instance of [A.] that has a leaf of each type with a
    default of its own, and one of another type. *)
Definition typedInstance : Device :=
  exampleDevice
    {[ "A.1." := Param true None None;
       "A.1.Count" := Param true (Some "7") (Some "xsd:int");
       "A.1.Enable" := Param false (Some "true") (Some "xsd:boolean");
       "A.1.Name" := Param true (Some "x") (Some "xsd:string");
       "A.1.Since" := Param false (Some "2024-01-01T00:00:00Z") (Some "xsd:dateTime");
       "A.1.Size" := Param true (Some "9") (Some "xsd:unsignedInt") ]}.

(** One leaf of the new instance, read off the theorem. *)
Ltac leaf Hleaves rest t :=
  let q := fresh "q" in let tq := fresh "tq" in
  let Hq := fresh "Hq" in let Htq := fresh "Htq" in let Hn := fresh "Hn" in
  destruct (Hleaves "1" rest t) as (q & tq & Hq & Htq & Hn);
    [reflexivity | discriminate | reflexivity | reflexivity |];
  vm_compute in Hq; injection Hq as <-;
  vm_compute in Htq; injection Htq as <-;
  exact Hn.

Lemma AddObject_instance_leaves_witness :
  ∃ d', AddObject typedInstance addA = (d', Js.Ok (addObjectResponse 2))
    ∧ params d' !! "A.2." = Some (Param true None None)
    ∧ params d' !! "A.2.Count" = Some (Param true (Some "0") (Some "xsd:int"))
    ∧ params d' !! "A.2.Enable" = Some (Param false (Some "false") (Some "xsd:boolean"))
    ∧ params d' !! "A.2.Name" = Some (Param true (Some "") (Some "xsd:string"))
    ∧ params d' !! "A.2.Since"
      = Some (Param false (Some "0001-01-01T00:00:00Z") (Some "xsd:dateTime"))
    ∧ params d' !! "A.2.Size" = Some (Param true (Some "0") (Some "xsd:unsignedInt")).
Proof.
  destruct (AddObject_instance_leaves typedInstance addA (elem "ObjectName" "A.") []
              I) as (d' & Hadd & _ & _ & Hobject & Hleaves);
    [apply (bool_decide_unpack _); by vm_compute | reflexivity |].
  exists d'. split; [exact Hadd|]. split; [exact Hobject|].
  split_and!.
  - leaf Hleaves "Count" (Param true (Some "7") (Some "xsd:int")).
  - leaf Hleaves "Enable" (Param false (Some "true") (Some "xsd:boolean")).
  - leaf Hleaves "Name" (Param true (Some "x") (Some "xsd:string")).
  - leaf Hleaves "Since" (Param false (Some "2024-01-01T00:00:00Z") (Some "xsd:dateTime")).
  - leaf Hleaves "Size" (Param true (Some "9") (Some "xsd:unsignedInt")).
Defined.

(** C4, as stated, fails. On a device with the single path [A.Name],
    AddObject on [A.] answers with instance 1 and creates neither [A.1Name]
    nor [A.1.Name]. On a device with the instance [A.1.], it answers with
    instance 2 and files the leaf that stems from [A.1.Name] under
    [A.2.Name], not under the object name followed by 2 and [1.Name]. *)
Lemma AddObject_misses_claimed_leaves :
  (AddObject templateOnly addA).2 = Js.Ok (addObjectResponse 1)
  ∧ params templateOnly !! ("A." +:+ "Name") = Some (Param true (Some "x") (Some "xsd:string"))
  ∧ params (AddObject templateOnly addA).1 !! ("A." +:+ "1" +:+ "Name") = None
  ∧ params (AddObject templateOnly addA).1 !! ("A." +:+ "1" +:+ "." +:+ "Name") = None
  ∧ (AddObject oneInstance addA).2 = Js.Ok (addObjectResponse 2)
  ∧ params oneInstance !! ("A." +:+ "1.Name") = Some (Param true (Some "x") (Some "xsd:string"))
  ∧ params (AddObject oneInstance addA).1 !! ("A." +:+ "2" +:+ "1.Name") = None
  ∧ params (AddObject oneInstance addA).1 !! ("A." +:+ "2" +:+ "." +:+ "1.Name") = None.
Proof. by vm_compute. Qed.

(** ** GetParameterNames *)

(** The names listed in a [GetParameterNamesResponse]. *)
Definition structName (x : Xml.xml) : option string :=
  match x with
  | Xml.Node _ _ (Xml.Node _ _ [Xml.Text p] :: _) => Some p
  | _ => None
  end.

Definition responseNames (r : Xml.xml) : list string :=
  match r with
  | Xml.Node _ _ [Xml.Node _ _ structs] => omap structName structs
  | _ => []
  end.

(** The next-level test in the words of the specification: the path starts
    with [ParameterPath] and, after it, holds no dot or a single dot that
    ends the path. *)
Definition claimedNextLevel (parameterPath p : string) : bool :=
  Js.startsWith p parameterPath
  && match Js.find "."%char (Js.drop (String.length parameterPath) p) with
     | None => true
     | Some j => bool_decide (S (String.length parameterPath + j) = String.length p)
     end.

Lemma length_drop (n : nat) (s : string) :
  String.length (Js.drop n s) = (String.length s - n)%nat.
Proof.
  revert s. induction n as [|n IH]; intros s; simpl; [lia|].
  destruct s; simpl; [done|]. apply IH.
Qed.

(** Where the handler and the words of the specification agree: on paths at
    least two characters longer than [ParameterPath] whose first character
    after it is not a dot. *)
Lemma nextLevelChild_claimed (path p : string) :
  (String.length path + 2 ≤ String.length p)%nat →
  Js.head (Js.drop (String.length path) p) ≠ Some "."%char →
  nextLevelChild path p = claimedNextLevel path p.
Proof.
  intros Hlen Hhead. unfold nextLevelChild, claimedNextLevel.
  destruct (Js.startsWith p path) eqn:Hstarts; [|done]. simpl.
  unfold Js.indexOf, Js.length.
  destruct (Z.gtb_spec (Z.of_nat (String.length p)) (Z.of_nat (String.length path) + 1));
    [|lia]. simpl.
  replace (Z.to_nat (Z.max (Z.of_nat (String.length path) + 1) 0))
    with (String.length path + 1)%nat by lia.
  rewrite drop_plus.
  pose proof (length_drop (String.length path) p) as Hrest.
  destruct (Js.drop (String.length path) p) as [|a rest]; simpl in *; [lia|].
  destruct (Ascii.eqb_spec a "."%char) as [->|]; [done|].
  destruct (Js.find "."%char rest) as [j|]; simpl; [|done].
  destruct (Z.eqb_spec (Z.of_nat (String.length path + 1 + j)) (-1)); [lia|]. simpl.
  case_bool_decide; destruct (Z.eqb_spec (Z.of_nat (String.length path + 1 + j))
                                (Z.of_nat (String.length p) - 1)); (done || lia).
Qed.

Lemma nextLevelChild_self (path : string) : nextLevelChild path path = false.
Proof.
  unfold nextLevelChild.
  destruct (Z.gtb_spec (Js.length path) (Js.length path + 1)); [lia|].
  by rewrite andb_false_r.
Qed.

Lemma bind_Ok {A B} (a : A) (f : A → Js.result B) : (Js.Ok a ≫= f) = f a.
Proof. reflexivity. Qed.

Lemma infoStructs_names (d : Device) (l : list string) :
  (∀ p, p ∈ l → is_Some (params d !! p)) →
  ∃ ps, infoStructs d l = Js.Ok ps ∧ omap structName ps = l.
Proof.
  induction l as [|p l IH]; intros Hin; simpl; [by exists []|].
  destruct (Hin p) as [t Ht]; [by left|].
  destruct IH as (ps & Hps & Hnames); [intros q Hq; apply Hin; by right|].
  unfold lookup_param. rewrite Ht, Hps. simpl. eexists. split; [done|].
  simpl. f_equal. exact Hnames.
Qed.

Lemma getSortedPaths_cached (d : Device) :
  cache_ok d →
  getSortedPaths d = (set_sortedPaths (Some (sortedPaths d)) d, sortedPaths d).
Proof.
  unfold cache_ok, getSortedPaths. destruct d as [m [l|]]; simpl; [|done].
  by intros ->.
Qed.

(** The test the handler applies to each sorted path. *)
Definition listed (nextLevel : bool) (parameterPath p : string) : bool :=
  if nextLevel then nextLevelChild parameterPath p else Js.startsWith p parameterPath.

(** Library functions for the examples: the hashes and encodings only tag
    their argument, [JSON.parse] knows the two boolean literals, no header is
    a positive number, every URL parses and has the path [/file]. *)
Definition exampleBuiltins : Js.Builtins := {|
  Js.md5 s := "md5(" +:+ s +:+ ")";
  Js.base64 s := "base64(" +:+ s +:+ ")";
  Js.jsonTruthy s :=
    if bool_decide (s = "true") then Some true
    else if bool_decide (s = "false") then Some false else None;
  Js.positiveNumber _ := false;
  Js.urlPathSearch _ := Some "/file";
  Js.DOWNLOAD_TIMEOUT := None
|}.

(** A device with an object node and a leaf under it. *)
Definition objectAndLeaf : Device :=
  exampleDevice
    {[ "A." := Param true None None;
       "A.Bc" := Param true (Some "x") (Some "xsd:string") ]}.

Definition namesOfA : Xml.element :=
  request "GetParameterNames" [elem "ParameterPath" "A."; elem "NextLevel" "true"].

Section Names.
Context `{!Js.Builtins}.

(** C8, as amended: on a device whose cache of sorted paths is in order, a
    GetParameterNames request that carries a ParameterPath is answered with
    the sorted non-private paths that pass the test of the handler, in
    order. With NextLevel false the test is that the path starts with
    ParameterPath. With NextLevel true, a path at least two characters
    longer than ParameterPath whose first character after it is not a dot
    passes exactly when it starts with ParameterPath and after it holds no
    dot or a single dot that ends the path; the path equal to ParameterPath
    does not pass. Paths one character longer than ParameterPath are left
    out of this statement. *)
Theorem GetParameterNames_lists (d : Device) (request : Xml.element)
    (path : string) (nextLevel : bool) :
  cache_ok d →
  namesArguments (Xml.children request) None false = Js.Ok (Some path, nextLevel) →
  (∃ d' r,
     GetParameterNames d request = (d', Js.Ok r)
     ∧ params d' = params d
     ∧ responseNames r = List.filter (listed nextLevel path) (sortedPaths d))
  ∧ Sorted String.le (sortedPaths d)
  ∧ (∀ p, p ∈ sortedPaths d ↔ visible p = true ∧ is_Some (params d !! p))
  ∧ listed true path path = false
  ∧ (∀ p, (String.length path + 2 ≤ String.length p)%nat →
          Js.head (Js.drop (String.length path) p) ≠ Some "."%char →
          listed true path p = claimedNextLevel path p)
  ∧ (∀ p, listed false path p = Js.startsWith p path).
Proof.
  intros Hcache Hargs. split_and!.
  - unfold GetParameterNames. rewrite (getSortedPaths_cached d Hcache), Hargs.
    rewrite bind_Ok. cbv beta. cbn [fst snd].
    assert (Hsel : selectNames (Some path) nextLevel (sortedPaths d)
                   = Js.Ok (List.filter (listed nextLevel path) (sortedPaths d))).
    { unfold selectNames, listed. by destruct nextLevel. }
    rewrite Hsel, bind_Ok.
    destruct (infoStructs_names
                (set_sortedPaths (Some (sortedPaths d)) d)
                (List.filter (listed nextLevel path) (sortedPaths d)))
      as (ps & Hps & Hnames).
    { intros p [Hp%list_elem_of_In _]%list_elem_of_In%filter_In.
      by apply elem_of_sortedPaths in Hp as [_ Hp]. }
    rewrite Hps, bind_Ok. eexists _, _. split; [done|]. split; [done|].
    exact Hnames.
  - apply Sorted_sortedPaths.
  - apply elem_of_sortedPaths.
  - apply nextLevelChild_self.
  - apply nextLevelChild_claimed.
  - done.
Qed.

End Names.

Lemma GetParameterNames_lists_witness :
  ∃ d' r,
    @GetParameterNames exampleBuiltins objectAndLeaf namesOfA = (d', Js.Ok r)
    ∧ params d' = params objectAndLeaf
    ∧ responseNames r = List.filter (listed true "A.") (sortedPaths objectAndLeaf).
Proof.
  apply (@GetParameterNames_lists exampleBuiltins objectAndLeaf namesOfA "A." true);
    [exact I|reflexivity].
Defined.

(** C8, as stated, fails: for ParameterPath [A.] with NextLevel true the
    words of the specification select [A.] itself and [A.Bc]; the handler
    lists only [A.Bc]. *)
Lemma GetParameterNames_omits_the_path_itself :
  ∃ r, (@GetParameterNames exampleBuiltins objectAndLeaf namesOfA).2 = Js.Ok r
       ∧ responseNames r = ["A.Bc"]
       ∧ List.filter (claimedNextLevel "A.") (sortedPaths objectAndLeaf) = ["A."; "A.Bc"].
Proof. eexists. by vm_compute. Qed.

(** ** SetParameterValues *)

(** An XML parser for the examples: entities are left alone, the attribute
    text of an element is the value of its [type] attribute and a document
    is a single element that holds its text. *)
Definition exampleParser : Xml.Parser := {|
  Xml.encodeEntities o := default "undefined" o;
  Xml.decodeEntities s := s;
  Xml.parseAttrs s := if bool_decide (s = "") then [] else [Xml.Attr "type" s];
  Xml.parseXml s := Xml.Element "" "" s "" []
|}.

Definition setStatusResponse : Xml.xml :=
  Xml.node "cwmp:SetParameterValuesResponse" [] [Xml.node "Status" [] [Xml.Text "0"]].

Section Values.
Context `{!Xml.Parser}.

(** What one [ParameterValueStruct] assigns: the name, the decoded value and
    the type, when it has a [Name], a [Value] and a [type] attribute. *)
Definition assignment (p : Xml.element) : option (string * (string * string)) :=
  match nameAndValue (Xml.children p) None None with
  | (Some nm, Some v) =>
      match typeAttr v with
      | Some a => Some (nm, (Xml.decodeEntities (Xml.text v), Xml.attr_value a))
      | None => None
      end
  | _ => None
  end.

(** The value and type the last struct that names [k] assigns. *)
Fixpoint lastAssigned (k : string) (l : list Xml.element) : option (string * string) :=
  match l with
  | [] => None
  | p :: rest =>
      match lastAssigned k rest with
      | Some x => Some x
      | None =>
          match assignment p with
          | Some (nm, x) => if decide (nm = k) then Some x else None
          | None => None
          end
      end
  end.

(** A parameter after the request: the writable flag stays. *)
Definition updated (k : string) (l : list Xml.element) (par : param) : param :=
  match lastAssigned k l with
  | Some (v, t) => Param (writable par) (Some v) (Some t)
  | None => par
  end.

(** A struct that names a parameter of the device and carries a typed value. *)
Definition assigns (d : Device) (p : Xml.element) : Prop :=
  ∃ nm x, assignment p = Some (nm, x) ∧ is_Some (params d !! nm).

Lemma setParameterValue_assigns (d : Device) (p : Xml.element) (nm v t : string)
    (par : param) :
  assignment p = Some (nm, (v, t)) → params d !! nm = Some par →
  setParameterValue d p
  = (set_params (<[nm := Param (writable par) (Some v) (Some t)]> (params d)) d, Js.Ok ()).
Proof.
  unfold assignment, setParameterValue. intros Hassign Hpar.
  destruct (nameAndValue (Xml.children p) None None) as [[nm'|] [e|]]; try done.
  destruct (typeAttr e) as [a|] eqn:Ha; [|done].
  injection Hassign as -> <- <-. simpl. unfold lookup_param. rewrite Hpar.
  unfold store. simpl. rewrite insert_insert_eq. by destruct d.
Qed.

Lemma setParameterValues_run (l : list Xml.element) (d : Device) :
  Forall (assigns d) l →
  ∃ m, setParameterValues d l = (set_params m d, Js.Ok ())
       ∧ ∀ k, m !! k = updated k l <$> params d !! k.
Proof.
  revert d. induction l as [|p l IH]; intros d Hl.
  { exists (params d). rewrite set_params_id. split; [done|].
    intros k. unfold updated. simpl. by destruct (params d !! k). }
  apply Forall_cons in Hl as [(nm & [v t] & Hassign & [par Hpar]) Hl].
  set (d1 := set_params (<[nm := Param (writable par) (Some v) (Some t)]> (params d)) d).
  destruct (IH d1) as (m & Hrun & Hm).
  { eapply Forall_impl; [exact Hl|]. intros q (nm' & x & Hq & Hsome).
    exists nm', x. split; [done|]. simpl. apply lookup_insert_is_Some'. by right. }
  exists m. split.
  { simpl. rewrite (setParameterValue_assigns d p nm v t par Hassign Hpar).
    fold d1. rewrite Hrun. by destruct d. }
  intros k. rewrite Hm. unfold updated. simpl. rewrite Hassign.
  destruct (decide (nm = k)) as [->|Hne].
  - rewrite lookup_insert_eq, Hpar. simpl. by destruct (lastAssigned k l) as [[??]|].
  - rewrite lookup_insert_ne by done. by destruct (lastAssigned k l) as [[??]|].
Qed.

(** C10, as amended: a SetParameterValues request whose structs each name a
    parameter of the device and carry a Value with a type attribute is
    answered with Status 0. Every
    parameter named is left with the decoded value and the type of the last
    struct that names it, whatever its writable flag; its writable flag, and
    every other key of the device, is unchanged. *)
Theorem SetParameterValues_updates (d : Device) (request c : Xml.element)
    (cs : list Xml.element) :
  Xml.children request = c :: cs →
  Forall (assigns d) (Xml.children c) →
  ∃ d', SetParameterValues d request = (d', Js.Ok setStatusResponse)
    ∧ (∀ k, params d' !! k = updated k (Xml.children c) <$> params d !! k)
    ∧ (∀ k par par', params d !! k = Some par → params d' !! k = Some par' →
                     writable par' = writable par)
    ∧ (∀ k v t par,
          params d !! k = Some par → lastAssigned k (Xml.children c) = Some (v, t) →
          params d' !! k = Some (Param (writable par) (Some v) (Some t)))
    ∧ (∀ k, lastAssigned k (Xml.children c) = None → params d' !! k = params d !! k).
Proof.
  intros Hchildren Hall.
  destruct (setParameterValues_run (Xml.children c) d Hall) as (m & Hrun & Hm).
  exists (set_params m d). split_and!.
  - unfold SetParameterValues. by rewrite Hchildren, Hrun.
  - exact Hm.
  - intros k par par' Hpar. simpl. rewrite Hm, Hpar. unfold updated. simpl.
    intros [= <-]. by destruct (lastAssigned k (Xml.children c)) as [[??]|].
  - intros k v t par Hpar Hlast. simpl. rewrite Hm, Hpar.
    unfold updated. by rewrite Hlast.
  - intros k Hlast. simpl. rewrite Hm. unfold updated. rewrite Hlast.
    by destruct (params d !! k).
Qed.

End Values.

(** A device with a read-only parameter and a writable one. *)
Definition readOnlyDevice : Device :=
  exampleDevice
    {[ "Device.DeviceInfo.SerialNumber" := Param false (Some "S1") (Some "xsd:string");
       "Device.ManagementServer.PeriodicInformInterval"
         := Param true (Some "10") (Some "xsd:unsignedInt") ]}.

Definition valueStruct (name value type : string) : Xml.element :=
  Xml.Element "ParameterValueStruct" "ParameterValueStruct" "" ""
    [elem "Name" name; Xml.Element "Value" "Value" value type []].

Definition setSerial : Xml.element :=
  request "SetParameterValues"
    [Xml.Element "ParameterList" "ParameterList" "" ""
       [valueStruct "Device.DeviceInfo.SerialNumber" "S2" "xsd:string"]].

Lemma SetParameterValues_updates_witness :
  ∃ d', @SetParameterValues exampleParser readOnlyDevice setSerial
        = (d', Js.Ok setStatusResponse)
    ∧ params d' !! "Device.DeviceInfo.SerialNumber"
      = Some (Param false (Some "S2") (Some "xsd:string")).
Proof.
  destruct (@SetParameterValues_updates exampleParser readOnlyDevice setSerial
              (Xml.Element "ParameterList" "ParameterList" "" ""
                 [valueStruct "Device.DeviceInfo.SerialNumber" "S2" "xsd:string"]) []
              eq_refl) as (d' & Hrun & Hall & _).
  { repeat constructor.
    exists "Device.DeviceInfo.SerialNumber", ("S2", "xsd:string").
    split; [reflexivity|]. vm_compute. eexists. reflexivity. }
  exists d'. split; [exact Hrun|]. rewrite Hall. reflexivity.
Defined.

(** A request that sets the serial number with a Value that has no type. *)
Definition setSerialUntyped : Xml.element :=
  request "SetParameterValues"
    [Xml.Element "ParameterList" "ParameterList" "" ""
       [valueStruct "Device.DeviceInfo.SerialNumber" "S2" ""]].

(** C10 as stated fails on a request that names a parameter of the device
    and gives its Value no type attribute: [find] returns [undefined], the
    read of [.value] throws, and no Status 0 is sent. The value is already
    written by then, and the type is not updated. *)
Lemma SetParameterValues_untyped_no_status :
  params readOnlyDevice !! "Device.DeviceInfo.SerialNumber"
  = Some (Param false (Some "S1") (Some "xsd:string"))
  ∧ (@SetParameterValues exampleParser readOnlyDevice setSerialUntyped).2
    = Js.Throw Js.TypeError
  ∧ (@SetParameterValues exampleParser readOnlyDevice setSerialUntyped).2
    ≠ Js.Ok setStatusResponse
  ∧ params (@SetParameterValues exampleParser readOnlyDevice setSerialUntyped).1
      !! "Device.DeviceInfo.SerialNumber"
    = Some (Param false (Some "S2") (Some "xsd:string")).
Proof. split_and!; [reflexivity|reflexivity|discriminate|by vm_compute]. Qed.

(** ** The cache of sorted paths is kept in order *)

(** The sorted paths depend on the keys of the device only. *)
Lemma sortedPaths_dom (d d' : Device) :
  dom (params d) = dom (params d') → sortedPaths d = sortedPaths d'.
Proof.
  intros Hdom. apply (Sorted_unique String.le); try apply Sorted_sortedPaths.
  apply NoDup_Permutation; try apply NoDup_sortedPaths.
  intros p. rewrite !elem_of_sortedPaths, <-!elem_of_dom. by rewrite Hdom.
Qed.

Lemma setParameterValue_dom `{!Xml.Parser} (d : Device) (p : Xml.element) :
  dom (params (setParameterValue d p).1) = dom (params d)
  ∧ _sortedPaths (setParameterValue d p).1 = _sortedPaths d.
Proof.
  unfold setParameterValue.
  destruct (nameAndValue (Xml.children p) None None) as [nm v].
  unfold lookup_param.
  destruct (params d !! default "undefined" nm) as [par|] eqn:Hpar; [|done].
  destruct v as [v|]; [|done].
  destruct (typeAttr v); simpl; split; try done.
  - rewrite !dom_insert_lookup_L; [done|by eexists|].
    apply lookup_insert_is_Some'. by left.
  - by rewrite dom_insert_lookup_L by (by eexists).
Qed.

Lemma setParameterValues_dom `{!Xml.Parser} (l : list Xml.element) (d : Device) :
  dom (params (setParameterValues d l).1) = dom (params d)
  ∧ _sortedPaths (setParameterValues d l).1 = _sortedPaths d.
Proof.
  revert d. induction l as [|p l IH]; intros d; simpl; [done|].
  pose proof (setParameterValue_dom d p) as [Hdom Hcache].
  destruct (setParameterValue d p) as [d' [[]|e]]; simpl in *.
  - destruct (IH d') as [Hdom' Hcache']. split; congruence.
  - done.
Qed.

(** The key a [ParameterValueStruct] writes under: its last [Name], or
    "undefined". *)
Definition assignedKey (p : Xml.element) : string :=
  default "undefined" (nameAndValue (Xml.children p) None None).1.

(** [request.children[0].children], the structs of a SetParameterValues
    request. *)
Definition parameterValues (request : Xml.element) : list Xml.element :=
  match Xml.children request with
  | c :: _ => Xml.children c
  | [] => []
  end.

(** X1: GetParameterNames, GetParameterValues, AddObject and DeleteObject
    leave the cache of sorted paths in order when they find it so, and so
    does SetParameterValues on a request none of whose structs writes under
    a reserved key (a private field such as [_sortedPaths], or a property
    inherited from [Object.prototype]). *)
Lemma cache_ok_handlers `{!Js.Builtins, !Xml.Parser} (d : Device) (request : Xml.element) :
  cache_ok d →
  cache_ok (GetParameterNames d request).1
  ∧ cache_ok (GetParameterValues d request).1
  ∧ (Forall (λ p, assignedKey p ∉ reserved) (parameterValues request) →
     cache_ok (SetParameterValues d request).1)
  ∧ cache_ok (AddObject d request).1
  ∧ cache_ok (DeleteObject d request).1.
Proof.
  intros Hcache. split_and!.
  - unfold GetParameterNames. rewrite (getSortedPaths_cached d Hcache). by simpl.
  - done.
  - intros _.
    unfold SetParameterValues. destruct (Xml.children request) as [|c cs]; [done|].
    pose proof (setParameterValues_dom (Xml.children c) d) as [Hdom Hsame].
    destruct (setParameterValues d (Xml.children c)) as [d' [[]|e]]; simpl in *;
      unfold cache_ok in *; rewrite Hsame;
      destruct (_sortedPaths d); try done; subst; by apply sortedPaths_dom.
  - destruct (Xml.children request) as [|c cs] eqn:Hchildren.
    + unfold AddObject. by rewrite Hchildren.
    + destruct (AddObject_run d request c cs Hcache Hchildren) as (m & -> & _). done.
  - unfold DeleteObject. by destruct (Xml.children request).
Qed.

(** * Properties of the authentication helpers *)

(** ** The nonce count in a Digest header *)

(** The nonce count in the words of the specification: its hexadecimal
    numeral, padded with zeros to eight digits. *)
Definition hex8 (n : N) : string :=
  Js.padStart (NilZero.string_of_uint (N.to_hex_uint n)) 8 "0"%char.

Lemma length_repeat (c : ascii) (n : nat) : String.length (Js.repeat c n) = n.
Proof. induction n as [|n IH]; simpl; [done|]. by rewrite IH. Qed.

Lemma all_append (f : ascii → bool) (a b : string) :
  all f (a +:+ b) = all f a && all f b.
Proof.
  induction a as [|x a IH]; [done|]. rewrite append_cons. simpl.
  by rewrite IH, andb_assoc.
Qed.

Lemma all_repeat (f : ascii → bool) (c : ascii) (n : nat) :
  f c = true → all f (Js.repeat c n) = true.
Proof. intros Hc. induction n as [|n IH]; simpl; [done|]. by rewrite Hc, IH. Qed.

Lemma digits_pretty_N_go (x : N) :
  (0 < x)%N →
  ∃ k : nat, ∀ acc s,
    Js.digits acc (pretty_N_go x s)
    = Js.digits (Some (default 0 acc * 10 ^ Z.of_nat k + Z.of_N x)) s.
Proof.
  induction (N.lt_wf_0 x) as [x _ IH]. intros Hx.
  assert (Hdm : Z.of_N x = 10 * Z.of_N (x `div` 10) + Z.of_N (x `mod` 10)).
  { rewrite (N.div_mod x 10) at 1 by done. lia. }
  destruct (decide (x `div` 10 = 0)%N) as [Hsmall|Hbig].
  - exists 1%nat. intros acc s. rewrite pretty_N_go_step, Hsmall, pretty_N_go_0 by done.
    simpl. rewrite digit_pretty_N_char by (apply N.mod_lt; lia).
    f_equal. f_equal. rewrite Hdm, Hsmall. change (10 ^ Z.of_nat 1) with 10.
    generalize (Z.of_N (x `mod` 10)), (default 0 acc). intros; lia.
  - destruct (IH (x `div` 10)%N) as [k Hk];
      [apply N.div_lt; lia|by apply N.neq_0_lt_0|].
    exists (S k). intros acc s. rewrite pretty_N_go_step, Hk by done. simpl.
    rewrite digit_pretty_N_char by (apply N.mod_lt; lia). simpl.
    f_equal. f_equal. rewrite Hdm.
    rewrite Nat2Z.inj_succ, Z.pow_succ_r by lia.
    generalize (Z.of_N (x `mod` 10)), (Z.of_N (x `div` 10)), (default 0 acc),
      (10 ^ Z.of_nat k). intros; lia.
Qed.

Lemma digits_ofN (acc : option Z) (n : N) :
  default 0 acc = 0 → Js.digits acc (Js.ofN n) = Some (Z.of_N n).
Proof.
  intros Hacc. unfold Js.ofN, pretty, pretty_N. case_decide as Hn.
  - subst n. simpl. by rewrite Hacc.
  - destruct (digits_pretty_N_go n) as [k Hk]; [lia|].
    rewrite Hk, Hacc. simpl. f_equal; lia.
Qed.

Lemma digits_zeros (k : nat) (s : string) (acc : option Z) :
  default 0 acc = 0 → k ≠ 0%nat →
  Js.digits acc (Js.repeat "0"%char k +:+ s) = Js.digits (Some 0) s.
Proof.
  revert acc. induction k as [|k IH]; intros acc Hacc Hk; [done|].
  change (Js.repeat "0"%char (S k) +:+ s)
    with (String "0"%char (Js.repeat "0"%char k +:+ s)).
  simpl. rewrite Hacc.
  destruct k as [|k]; [done|]. by apply IH.
Qed.

Lemma length_pretty_N_go (k : nat) (x : N) (s : string) :
  (x < 10 ^ N.of_nat k)%N →
  (String.length (pretty_N_go x s) ≤ String.length s + k)%nat.
Proof.
  revert x s. induction k as [|k IH]; intros x s Hx.
  - assert (x = 0%N) as -> by (simpl in Hx; lia). rewrite pretty_N_go_0. lia.
  - destruct (decide (x = 0)%N) as [->|]; [rewrite pretty_N_go_0; lia|].
    rewrite pretty_N_go_step by lia.
    etrans; [apply IH|simpl; lia].
    rewrite Nat2N.inj_succ, N.pow_succ_r' in Hx.
    apply N.Div0.div_lt_upper_bound. lia.
Qed.

Lemma length_ofN (k : nat) (n : N) :
  (n < 10 ^ N.of_nat k)%N → (0 < k)%nat → (String.length (Js.ofN n) ≤ k)%nat.
Proof.
  intros Hn Hk. unfold Js.ofN, pretty, pretty_N. case_decide; [simpl; lia|].
  by apply (length_pretty_N_go k n "").
Qed.

(** The nonce count the header carries is the decimal numeral of the
    count, padded with zeros to eight characters or more: it is made of
    decimal digits and reads back, in base ten, as the count. *)
Lemma ncStr_decimal (n : N) :
  all isDigit (Auth.ncStr (Some n)) = true
  ∧ Js.parseInt (Some (Auth.ncStr (Some n))) = Js.Num (Z.of_N n)
  ∧ (8 ≤ String.length (Auth.ncStr (Some n)))%nat
  ∧ ((n < 10 ^ 8)%N → String.length (Auth.ncStr (Some n)) = 8%nat).
Proof.
  unfold Auth.ncStr, Js.padStart.
  set (k := (8 - String.length (Js.ofN n))%nat).
  assert (Hall : all isDigit (Js.repeat "0"%char k +:+ Js.ofN n) = true).
  { by rewrite all_append, all_repeat, all_digits_ofN. }
  split_and!.
  - done.
  - unfold Js.parseInt.
    assert (Hdigits : Js.digits None (Js.repeat "0"%char k +:+ Js.ofN n)
                      = Some (Z.of_N n)).
    { destruct (decide (k = 0%nat)) as [->|Hk].
      - rewrite append_nil_l. by apply digits_ofN.
      - rewrite digits_zeros by done. by apply digits_ofN. }
    destruct (Js.repeat "0"%char k +:+ Js.ofN n) as [|a s] eqn:Hs; [done|].
    simpl in Hall. apply andb_prop in Hall as [Ha _].
    assert (Js.isSpace a = false ∧ Ascii.eqb a "-"%char = false
            ∧ Ascii.eqb a "+"%char = false) as (Hspace & Hminus & Hplus).
    { unfold isDigit, Js.digit in Ha.
      destruct a as [[] [] [] [] [] [] [] []]; by vm_compute in Ha |- *. }
    simpl. rewrite Hspace, Hminus, Hplus, Hdigits. f_equal. lia.
  - rewrite length_append, length_repeat. lia.
  - intros Hn. rewrite length_append, length_repeat.
    pose proof (length_ofN 8 n Hn). lia.
Qed.

Lemma ncStr_small (n : N) : (n < 10)%N → Auth.ncStr (Some n) = hex8 n.
Proof.
  intros Hn.
  assert (n = 0 ∨ n = 1 ∨ n = 2 ∨ n = 3 ∨ n = 4 ∨ n = 5 ∨ n = 6 ∨ n = 7
          ∨ n = 8 ∨ n = 9)%N as Hcases by lia.
  by destruct_or!; subst.
Qed.

(** ** The decimal numeral is not the hexadecimal one *)

(** The digits of a numeral read in a base, after the value [acc]. *)
Fixpoint readIn (base acc : Z) (h : Hexadecimal.uint) : Z :=
  match h with
  | Hexadecimal.Nil => acc
  | Hexadecimal.D0 l => readIn base (base * acc + 0) l
  | Hexadecimal.D1 l => readIn base (base * acc + 1) l
  | Hexadecimal.D2 l => readIn base (base * acc + 2) l
  | Hexadecimal.D3 l => readIn base (base * acc + 3) l
  | Hexadecimal.D4 l => readIn base (base * acc + 4) l
  | Hexadecimal.D5 l => readIn base (base * acc + 5) l
  | Hexadecimal.D6 l => readIn base (base * acc + 6) l
  | Hexadecimal.D7 l => readIn base (base * acc + 7) l
  | Hexadecimal.D8 l => readIn base (base * acc + 8) l
  | Hexadecimal.D9 l => readIn base (base * acc + 9) l
  | Hexadecimal.Da l => readIn base (base * acc + 10) l
  | Hexadecimal.Db l => readIn base (base * acc + 11) l
  | Hexadecimal.Dc l => readIn base (base * acc + 12) l
  | Hexadecimal.Dd l => readIn base (base * acc + 13) l
  | Hexadecimal.De l => readIn base (base * acc + 14) l
  | Hexadecimal.Df l => readIn base (base * acc + 15) l
  end.

Lemma of_hex_uint_acc_readIn (h : Hexadecimal.uint) (acc : positive) :
  Z.pos (Pos.of_hex_uint_acc h acc) = readIn 16 (Z.pos acc) h.
Proof.
  revert acc. induction h; intros acc; cbn [Pos.of_hex_uint_acc readIn];
    [reflexivity | rewrite IHh; f_equal; lia ..].
Qed.

Lemma of_hex_uint_readIn (h : Hexadecimal.uint) :
  Z.of_N (N.of_hex_uint h) = readIn 16 0 h.
Proof.
  unfold N.of_hex_uint.
  induction h; cbn [Pos.of_hex_uint readIn];
    [reflexivity | exact IHh | cbn [Z.of_N]; by rewrite of_hex_uint_acc_readIn ..].
Qed.

Lemma digits_Some_readIn (h : Hexadecimal.uint) (a : Z) :
  all isDigit (NilEmpty.string_of_uint h) = true →
  Js.digits (Some a) (NilEmpty.string_of_uint h) = Some (readIn 10 a h).
Proof.
  revert a. induction h; intros a Hall; [done | ..];
    cbn [NilEmpty.string_of_uint] in Hall |- *; try discriminate Hall;
    cbn [all] in Hall; apply andb_prop in Hall as [_ Hall];
    cbn [Js.digits readIn]; cbn [default from_option id];
    match goal with
    | |- context [Js.digit ?c] =>
        let v := eval vm_compute in (Js.digit c) in change (Js.digit c) with v
    end; cbv beta iota;
    by rewrite (IHh _ Hall).
Qed.

Lemma digits_readIn (h : Hexadecimal.uint) (acc : option Z) :
  all isDigit (NilEmpty.string_of_uint h) = true →
  h ≠ Hexadecimal.Nil →
  Js.digits acc (NilEmpty.string_of_uint h) = Some (readIn 10 (default 0 acc) h).
Proof.
  intros Hall Hh. destruct h; [done | ..];
    cbn [NilEmpty.string_of_uint] in Hall |- *; try discriminate Hall;
    cbn [all] in Hall; apply andb_prop in Hall as [_ Hall];
    cbn [Js.digits readIn];
    match goal with
    | |- context [Js.digit ?c] =>
        let v := eval vm_compute in (Js.digit c) in change (Js.digit c) with v
    end; cbv beta iota;
    by rewrite (digits_Some_readIn _ _ Hall).
Qed.

Lemma readIn_lt (h : Hexadecimal.uint) (a b : Z) :
  all isDigit (NilEmpty.string_of_uint h) = true → 0 ≤ a < b → readIn 10 a h < readIn 16 b h.
Proof.
  revert a b. induction h; intros a b Hall Hab; [cbn; lia | ..];
    cbn [NilEmpty.string_of_uint] in Hall; try discriminate Hall;
    cbn [all] in Hall; apply andb_prop in Hall as [_ Hall];
    cbn [readIn]; (apply IHh; [done | lia]).
Qed.

Lemma readIn_eq (h : Hexadecimal.uint) :
  all isDigit (NilEmpty.string_of_uint h) = true →
  readIn 10 0 h = readIn 16 0 h → readIn 16 0 h < 10.
Proof.
  induction h; intros Hall Heq; [cbn; lia | ..];
    cbn [NilEmpty.string_of_uint] in Hall; try discriminate Hall;
    cbn [all] in Hall; apply andb_prop in Hall as [_ Hall];
    cbn [readIn] in Heq |- *;
    try (apply IHh; [done | exact Heq]);
    (destruct h; [cbn; lia | ..];
     exfalso;
     cbn [NilEmpty.string_of_uint] in Hall; try discriminate Hall;
     cbn [all] in Hall; apply andb_prop in Hall as [_ Hall];
     cbn [readIn] in Heq;
     match type of Heq with
     | readIn 10 ?a _ = readIn 16 ?b _ =>
         pose proof (readIn_lt _ a b Hall ltac:(lia)); lia
     end).
Qed.

Lemma digits_ncStr (n : N) : Js.digits None (Auth.ncStr (Some n)) = Some (Z.of_N n).
Proof.
  unfold Auth.ncStr, Js.padStart.
  destruct (decide ((8 - String.length (Js.ofN n))%nat = 0%nat)) as [->|Hk].
  - rewrite append_nil_l. by apply digits_ofN.
  - rewrite digits_zeros by done. by apply digits_ofN.
Qed.

(** The decimal numeral padded to eight characters is the hexadecimal one
    only for a count below ten. *)
Lemma ncStr_hex8 (n : N) : Auth.ncStr (Some n) = hex8 n ↔ (n < 10)%N.
Proof.
  split; [|apply ncStr_small].
  intros Heq.
  pose proof (digits_ncStr n) as Hdec. rewrite Heq in Hdec.
  pose proof (ncStr_decimal n) as [Hall _]. rewrite Heq in Hall.
  unfold hex8, Js.padStart in Hdec, Hall.
  rewrite all_append in Hall. apply andb_prop in Hall as [_ Hall].
  pose proof (Unsigned.of_to n) as Hn.
  pose proof (of_hex_uint_readIn (N.to_hex_uint n)) as Hhex. rewrite Hn in Hhex.
  destruct (N.to_hex_uint n) as [|h|h|h|h|h|h|h|h|h|h|h|h|h|h|h|h] eqn:Hh.
  { cbn in Hhex. lia. }
  all: change (NilZero.string_of_uint ?x) with (NilEmpty.string_of_uint x) in Hdec, Hall.
  all: match type of Hdec with
       | Js.digits None (Js.repeat _ ?k +:+ _) = _ =>
           destruct (decide (k = 0%nat)) as [Hk|Hk];
           [rewrite Hk, append_nil_l in Hdec | rewrite digits_zeros in Hdec by done]
       end.
  all: rewrite digits_readIn in Hdec by done.
  all: injection Hdec as Hdec; cbn [default from_option id] in Hdec.
  all: rewrite Hhex in Hdec.
  all: pose proof (readIn_eq _ Hall Hdec); lia.
Qed.

Section NonceCount.
Context `{!Js.Builtins}.

(** C5 on the code: when the challenge names a quality of protection, the
    header ends with the nonce count and the client nonce, and the nonce
    count, for a count below 2^53, is its decimal numeral padded with zeros
    to eight characters: decimal digits that read back as nonceCount, at
    least eight of them and exactly eight below 10^8. It is the eight-digit
    hexadecimal numeral when nonceCount is below ten, and only then. *)
Theorem generateDigestAuth_nc (username password method uri cnonce : string)
    (digestParams : gmap string string) (nonceCount : N) :
  Js.truthy (Js.or_else (digestParams !! "qop") "") = true →
  (nonceCount < 2 ^ 53)%N →
  (∃ pre,
     Auth.generateDigestAuth username password method uri digestParams
       (Some nonceCount) cnonce
     = pre +:+ ", nc=" +:+ Auth.ncStr (Some nonceCount)
       +:+ ", cnonce=" +:+ Js.q cnonce)
  ∧ Auth.ncStr (Some nonceCount) = Js.padStart (Js.ofN nonceCount) 8 "0"%char
  ∧ all isDigit (Auth.ncStr (Some nonceCount)) = true
  ∧ Js.parseInt (Some (Auth.ncStr (Some nonceCount))) = Js.Num (Z.of_N nonceCount)
  ∧ (8 ≤ String.length (Auth.ncStr (Some nonceCount)))%nat
  ∧ ((nonceCount < 10 ^ 8)%N → String.length (Auth.ncStr (Some nonceCount)) = 8%nat)
  ∧ (Auth.ncStr (Some nonceCount) = hex8 nonceCount ↔ (nonceCount < 10)%N).
Proof.
  intros Hqop _.
  destruct (ncStr_decimal nonceCount) as (Hall & Hread & Hmin & Hlen).
  split_and!; try done.
  - unfold Auth.generateDigestAuth. rewrite Hqop.
    eexists. rewrite <-(append_assoc _ ", qop=" _), <-(append_assoc _ (Js.or_else _ _) _).
    reflexivity.
  - apply ncStr_hex8.
Qed.

End NonceCount.

Definition authChallenge : gmap string string :=
  {[ "realm" := "r"; "nonce" := "n"; "qop" := "auth" ]}.

Lemma generateDigestAuth_nc_witness :
  (∃ pre,
     @Auth.generateDigestAuth exampleBuiltins "usertest" "passtest" "POST" "/acs"
       authChallenge (Some 10%N) "c"
     = pre +:+ ", nc=" +:+ "00000010" +:+ ", cnonce=" +:+ Js.q "c")
  ∧ Auth.ncStr (Some 10%N) ≠ hex8 10.
Proof.
  destruct (@generateDigestAuth_nc exampleBuiltins "usertest" "passtest" "POST" "/acs"
              "c" authChallenge 10%N)
    as (Hheader & _ & _ & _ & _ & _ & Hhex); [reflexivity | reflexivity |].
  split; [exact Hheader|].
  intros Heq. apply Hhex in Heq. discriminate Heq.
Defined.

(** [s.endsWith(t)] *)
Definition endsWith (s t : string) : bool :=
  bool_decide (Js.drop (String.length s - String.length t) s = t).

(** The tenth request after a challenge: the header carries [00000010],
    and the eight-digit hexadecimal numeral of ten is [0000000a]. *)
Lemma generateDigestAuth_nc_is_decimal :
  endsWith
    (@Auth.generateDigestAuth exampleBuiltins "usertest" "passtest" "POST" "/acs"
       authChallenge (Some 10%N) "c")
    (", nc=00000010, cnonce=" +:+ Js.q "c") = true
  ∧ hex8 10 = "0000000a"
  ∧ Auth.ncStr (Some 10%N) ≠ hex8 10.
Proof. by vm_compute. Qed.

(** * Properties of the download worker *)

Definition examplePrinter : Xml.Printer := {| Xml.render _ := "" |}.

(** A simulator that is idle, with a periodic inform scheduled. *)
Definition idleWorld (d : Device) : World :=
  mkWorld d [] (Some (StartSession None, Js.Num 10000)) false true 10000 "/acs".

Definition exampleInputs : inputs := mkInputs "2024-01-01T00:00:00.000Z" "k3x9q2aa" "c".

(** A callback that drops the body. *)
Definition silent : responder := λ w _, (w, []).

Definition firmware : string := "1 Firmware Upgrade Image".

Definition noDwInfo : DwInfo := mkDwInfo 0 None None None None None None None.

Section Worker.
Context `{!Js.Builtins, !Xml.Parser}.

(** C9: a Download request whose file type is the firmware image and that
    has no URL element, received while no firmware download is in progress,
    makes the handler throw a TypeError. The callback is not called, nothing
    is sent or scheduled, no transfer is queued, and downloadInProgress is
    left set. *)
Theorem Download_without_URL (w : World) (request : Xml.element) (now : string)
    (callback : responder) :
  fileType (downloadArguments (Xml.children request) noDwInfo) = Some firmware →
  url (downloadArguments (Xml.children request) noDwInfo) = None →
  _downloadInProgress (device w) = false →
  Download w request now callback
  = (on_device (set_downloadInProgress true) w, [], Js.Throw Js.TypeError)
  ∧ _downloadInProgress (device (Download w request now callback).1.1) = true
  ∧ pendingTransfers (Download w request now callback).1.1 = pendingTransfers w.
Proof.
  intros Hft Hurl Hidle.
  assert (Hrun : Download w request now callback
                 = (on_device (set_downloadInProgress true) w, [], Js.Throw Js.TypeError)).
  { unfold Download. fold noDwInfo. rewrite Hft, Hurl, Hidle. reflexivity. }
  rewrite Hrun. done.
Qed.

(** The four outcomes of a request of the worker that end the download
    with a transfer record and a TransferComplete session 500 ms later. *)
Definition settled (w : World) (dl : download) (code message : string)
    (s : step) : Prop :=
  pendingTransfers s.1.1
  = pendingTransfers w ++ [Transfer (dl_commandKey dl) (dl_startTime dl) code message]
  ∧ SetTimeout (StartSession (Some "7 TRANSFER COMPLETE")) (Js.Num 500) ∈ s.1.2
  ∧ s.2 = Js.Ok ().

Lemma pendingTransfers_on_device (f : Device → Device) (w : World) :
  pendingTransfers (on_device f w) = pendingTransfers w.
Proof. done. Qed.

Lemma download_success (w : World) (dl : download) (res : getResponse) (cnonce : string) :
  res_statusCode res = 200 →
  settled w dl "0" "" (downloadResponse w dl res cnonce).
Proof.
  intros Hs. unfold downloadResponse, settled. rewrite Hs. simpl.
  destruct (isFirmware _); simpl; split_and!; try done; apply list_elem_of_here.
Qed.

Lemma download_error (w : World) (dl : download) (message : string) :
  settled w dl "9010" message (downloadError w dl message).
Proof.
  unfold downloadError, settled, queueTransferComplete. simpl.
  destruct (isFirmware _); simpl; split_and!; try done; apply list_elem_of_here.
Qed.

Lemma download_timeout (w : World) (dl : download) :
  settled w dl "9010" "Download timeout" (downloadTimeout w dl).
Proof.
  unfold downloadTimeout, settled. simpl.
  destruct (isFirmware _); simpl; split_and!; try done;
    apply list_elem_of_further, list_elem_of_here.
Qed.

Lemma download_bad_status (w : World) (dl : download) (res : getResponse)
    (cnonce : string) :
  res_statusCode res ≠ 200 → res_statusCode res ≠ 401 →
  settled w dl "9010" ("Server returned code " +:+ Js.ofZ (res_statusCode res))
    (downloadResponse w dl res cnonce).
Proof.
  intros H200 H401. unfold downloadResponse, settled.
  destruct (Z.eqb_spec (res_statusCode res) 401); [done|].
  destruct (Z.eqb_spec (res_statusCode res) 200); [done|]. simpl.
  split_and!; try done. apply list_elem_of_here.
Qed.

(** A challenge the worker cannot answer counts as a bad status. *)
Lemma download_unknown_challenge (w : World) (dl : download) (res : getResponse)
    (cnonce h : string) :
  res_statusCode res = 401 →
  res_wwwAuthenticate res = Some h →
  Js.matchSchemeI "Start" h = false →
  Js.matchSchemeI "Basic" h = false →
  Js.matchSchemeI "Digest" h = false →
  settled w dl "9010" ("Server returned code " +:+ Js.ofZ 401)
    (downloadResponse w dl res cnonce).
Proof.
  intros Hstatus Hheader Hstart Hbasic Hdigest. unfold downloadResponse, settled.
  rewrite Hstatus, Hheader, Hstart, Hbasic, Hdigest. simpl.
  destruct (Js.truthy h); simpl; split_and!; try done; apply list_elem_of_here.
Qed.

Lemma matchSchemeI_truthy (word h : string) :
  Js.matchSchemeI word h = true → Js.truthy h = true.
Proof.
  destruct h; [|done]. unfold Js.matchSchemeI, Js.afterSchemeI.
  destruct (Js.startsWith _ _); [|done]. by destruct word.
Qed.

(** C1 at the retry cap: the sixth challenge in a row ends the download.
    The record [9010 Too many attempts] is queued, but no session is
    scheduled and the device, with its downloadInProgress flag, is left as
    it was. *)
Theorem download_retry_cap (w : World) (dl : download) (res : getResponse)
    (cnonce h : string) :
  attempts (dl_info dl) = 5 →
  res_statusCode res = 401 →
  res_wwwAuthenticate res = Some h →
  Js.matchSchemeI "Basic" h = true →
  downloadResponse w dl res cnonce
  = (queueTransferComplete (dl_commandKey dl) (dl_startTime dl) "9010"
       "Too many attempts" w,
     [RequestDestroy], Js.Ok ())
  ∧ pendingTransfers (downloadResponse w dl res cnonce).1.1
    = pendingTransfers w
      ++ [Transfer (dl_commandKey dl) (dl_startTime dl) "9010" "Too many attempts"]
  ∧ (∀ cb delay, SetTimeout cb delay ∉ (downloadResponse w dl res cnonce).1.2)
  ∧ device (downloadResponse w dl res cnonce).1.1 = device w.
Proof.
  intros Hattempts Hstatus Hauth Hbasic.
  assert (Hrun : downloadResponse w dl res cnonce
                 = (queueTransferComplete (dl_commandKey dl) (dl_startTime dl) "9010"
                      "Too many attempts" w, [RequestDestroy], Js.Ok ())).
  { unfold downloadResponse. rewrite Hstatus, Hauth. simpl.
    rewrite (matchSchemeI_truthy _ _ Hbasic), Hbasic, orb_true_r. simpl.
    unfold retry, downloadFile. simpl. rewrite Hattempts. reflexivity. }
  rewrite Hrun. split_and!; try done.
  intros cb delay Hin. simpl in Hin. apply list_elem_of_singleton in Hin. discriminate.
Qed.

End Worker.

Definition firmwareDownload (n : Z) : download :=
  mkDownload (Some "ck") "2024-01-01T00:00:00.000Z" false
    (mkDwInfo n (Some "ck") (Some "http://files/fw.bin") (Some firmware)
       (Some "u") (Some "p") None None).

Definition basicChallenge : getResponse :=
  GetResponse 401 (Some "Basic realm=files") None.

Lemma download_retry_cap_witness :
  @downloadResponse exampleBuiltins (idleWorld (exampleDevice ∅)) (firmwareDownload 5)
    basicChallenge "c"
  = (queueTransferComplete (Some "ck") "2024-01-01T00:00:00.000Z" "9010"
       "Too many attempts" (idleWorld (exampleDevice ∅)),
     [RequestDestroy], Js.Ok ()).
Proof.
  apply (@download_retry_cap exampleBuiltins (idleWorld (exampleDevice ∅))
           (firmwareDownload 5) basicChallenge "c" "Basic realm=files");
    reflexivity.
Defined.

Definition downloadFirmware : Xml.element :=
  request "Download"
    [Xml.Element "CommandKey" "CommandKey" "ck" "" [];
     Xml.Element "FileType" "FileType" firmware "" [];
     Xml.Element "URL" "URL" "http://files/fw.bin" "" [];
     Xml.Element "Username" "Username" "u" "" [];
     Xml.Element "Password" "Password" "p" "" []].

Definition downloadNoURL : Xml.element :=
  request "Download" [Xml.Element "FileType" "FileType" firmware "" []].

Lemma Download_without_URL_witness :
  @Download exampleBuiltins exampleParser (idleWorld (exampleDevice ∅)) downloadNoURL
    "2024-01-01T00:00:00.000Z" silent
  = (on_device (set_downloadInProgress true) (idleWorld (exampleDevice ∅)), [],
     Js.Throw Js.TypeError).
Proof.
  apply (@Download_without_URL exampleBuiltins exampleParser
           (idleWorld (exampleDevice ∅)) downloadNoURL
           "2024-01-01T00:00:00.000Z" silent); reflexivity.
Defined.

Definition isSetTimeout (e : effect) : bool :=
  match e with SetTimeout _ _ => true | _ => false end.

(** The whole run that reaches the cap: a firmware download whose server
    answers every request with a Basic challenge. After the sixth answer the
    record is queued, no timer was ever set, and the device still says that
    a firmware download is in progress. *)
Lemma download_challenged_six_times :
  let started :=
    @Download exampleBuiltins exampleParser (idleWorld (exampleDevice ∅))
      downloadFirmware "2024-01-01T00:00:00.000Z" silent in
  let finished :=
    @Simulator.runDownload exampleBuiltins started.1.1 (firmwareDownload 0)
      (replicate 6 (Simulator.Responded basicChallenge)) "c" in
  Simulator.inFlight started.1.2 = Some (firmwareDownload 0)
  ∧ pendingTransfers finished.1
    = [Transfer (Some "ck") "2024-01-01T00:00:00.000Z" "9010" "Too many attempts"]
  ∧ List.filter isSetTimeout (started.1.2 ++ finished.2) = []
  ∧ _downloadInProgress (device finished.1) = true.
Proof. by vm_compute. Qed.

(** * Properties of the session engine *)

(** The child of a node with a given tag. *)
Definition child (tag : string) (x : Xml.xml) : option Xml.xml :=
  match x with
  | Xml.Node _ _ content =>
      List.find (λ c, match c with
                      | Xml.Node t _ _ => bool_decide (t = tag)
                      | Xml.Text _ => false
                      end) content
  | Xml.Text _ => None
  end.

(** The text of a node that holds a single text. *)
Definition textOf (x : Xml.xml) : option string :=
  match x with
  | Xml.Node _ _ [Xml.Text s] => Some s
  | _ => None
  end.

(** The body of an envelope. *)
Definition bodyOf (envelope : Xml.xml) : option Xml.xml :=
  match child "soap-env:Body" envelope with
  | Some (Xml.Node _ _ [body]) => Some body
  | _ => None
  end.

(** The event codes of the Inform an envelope carries. *)
Definition informEventCodes (envelope : Xml.xml) : option (list string) :=
  inform ← bodyOf envelope;
  event ← child "Event" inform;
  match event with
  | Xml.Node _ _ structs => Some (omap (λ s, child "EventCode" s ≫= textOf) structs)
  | Xml.Text _ => None
  end.

(** A request from the ACS with a header that carries the id [77]. *)
Definition fromAcs (rpc : Xml.element) : Xml.element :=
  Xml.Element "" "" "" ""
    [Xml.Element "soap-env:Envelope" "Envelope" "" ""
       [Xml.Element "soap-env:Header" "Header" "" ""
          [Xml.Element "cwmp:ID" "ID" "77" "" []];
        Xml.Element "soap-env:Body" "Body" "" "" [rpc]]].

Definition failedTransfer : transfer :=
  Transfer (Some "ck") "2024-01-01T00:00:00.000Z" "9010" "Download timeout".

Definition notReady : string := "Device not ready to accept requests".

Section Engine.
Context `{!Js.Builtins, !Xml.Parser, !Xml.Printer}.

Lemma sendRequest_posts (w : World) (xml : option Xml.xml) (k : continuation)
    (cnonce : string) :
  ∃ w' r, Simulator.sendRequest w xml k cnonce = (w', [HttpPost r])
          ∧ post_xml r = xml ∧ post_callback r = k
          ∧ post_contentLength r = Js.length (Simulator.documentText xml)
          ∧ post_authorization r
            = (Auth.getAuthorizationHeader (device w) "POST" (path w) cnonce).2
          ∧ device w' = (Auth.getAuthorizationHeader (device w) "POST" (path w) cnonce).1
          ∧ pendingTransfers w' = pendingTransfers w
          ∧ acceptConnections w' = acceptConnections w.
Proof.
  unfold Simulator.sendRequest.
  destruct (Auth.getAuthorizationHeader _ _ _ _) as [d a].
  eexists _, _. split; [done|]. by split_and!.
Qed.

(** C2, as amended: while acceptConnections is false, a non-empty envelope
    with a header is answered with one POST. When no transfer is pending it
    is the envelope, with the id of the request, of the SOAP fault with
    faultcode Client, faultstring CWMP fault and the CWMP fault 9002 in its
    detail, and the answer to that POST destroys the keep-alive agent. When
    a transfer is pending, the TransferComplete of the first pending
    transfer is posted instead, and the answer is handled as in any
    session. *)
Theorem cpeRequest_not_accepting (w : World) (xml : Xml.element) (i : inputs)
    (id : option string) (bodyElement : option Xml.element) :
  acceptConnections w = false →
  Simulator.getRequestIdAndBody xml = Js.Ok (id, bodyElement) →
  ∃ w' r,
    Simulator.cpeRequest w (Some xml) i = (w', [HttpPost r], Js.Ok ())
    ∧ match pendingTransfers w with
      | [] =>
          post_xml r
          = Some (Simulator.createSoapDocument id
                    (Xml.node "soap-env:Fault" []
                       [Xml.node "faultcode" [] [Xml.Text "Client"];
                        Xml.node "faultstring" [] [Xml.Text "CWMP fault"];
                        Xml.node "detail" []
                          [Xml.node "cwmp:Fault" []
                             [Xml.node "FaultCode" [] [Xml.Text "9002"];
                              Xml.node "FaultString" []
                                [Xml.Text (Xml.encodeEntities (Some notReady))]]]]))
          ∧ post_callback r = ToDestroyAgent
          ∧ (∀ w2 answer i2,
               Simulator.continue (post_callback r) w2 answer i2
               = (w2, [AgentDestroy], Js.Ok ()))
          ∧ pendingTransfers w' = []
      | t :: rest =>
          post_xml r
          = Some (Simulator.createSoapDocument id (transferComplete t (now i)))
          ∧ post_callback r = ToHandleMethod
          ∧ pendingTransfers w' = rest
      end.
Proof.
  intros Haccept Hid. unfold Simulator.cpeRequest. rewrite Hid.
  unfold getPendingTransfers.
  destruct (pendingTransfers w) as [|t rest] eqn:Hpending.
  - rewrite Haccept. simpl.
    destruct (sendRequest_posts w
                (Some (Simulator.createSoapDocument id
                         (Simulator.createFaultResponse "9002" notReady)))
                ToDestroyAgent (cnonce i))
      as (w' & r & Hsend & Hxml & Hk & _ & _ & _ & Hqueue & _).
    unfold notReady in Hsend. rewrite Hsend. exists w', r.
    split; [done|]. rewrite Hxml, Hk, Hqueue. by split_and!.
  - destruct (sendRequest_posts
                (on_device (set_transferCompleteSession true) (set_pendingTransfers rest w))
                (Some (Simulator.createSoapDocument id (transferComplete t (now i))))
                ToHandleMethod (cnonce i))
      as (w' & r & Hsend & Hxml & Hk & _ & _ & _ & Hqueue & _).
    rewrite Hsend. exists w', r. split; [done|]. rewrite Hxml, Hk, Hqueue. by split_and!.
Qed.

End Engine.

(** A device that is rebooting, asked for something by the ACS. *)
Definition rebooting (queue : list transfer) : World :=
  mkWorld (exampleDevice ∅) queue None false false 10000 "/acs".

Lemma cpeRequest_not_accepting_witness :
  ∃ w' r,
    @Simulator.cpeRequest exampleBuiltins exampleParser examplePrinter
      (rebooting []) (Some (fromAcs (request "GetParameterNames" []))) exampleInputs
    = (w', [HttpPost r], Js.Ok ())
    ∧ bodyOf <$> post_xml r
      = Some (Some (@Simulator.createFaultResponse exampleParser "9002" notReady))
    ∧ post_callback r = ToDestroyAgent.
Proof.
  destruct (@cpeRequest_not_accepting exampleBuiltins exampleParser examplePrinter
              (rebooting []) (fromAcs (request "GetParameterNames" [])) exampleInputs
              (Some "77") (Some (Xml.Element "soap-env:Body" "Body" "" ""
                                   [request "GetParameterNames" []]))
              eq_refl eq_refl) as (w' & r & Hrun & Hxml & Hk & _).
  exists w', r. split; [exact Hrun|]. split; [|exact Hk].
  rewrite Hxml. reflexivity.
Defined.

(** C2, as stated, fails: with a transfer pending, the envelope received
    while acceptConnections is false is answered with the TransferComplete
    of that transfer, not with the fault 9002, and the answer to it does not
    destroy the agent but is dispatched. *)
Lemma cpeRequest_sends_transfer_first :
  ∃ w' r,
    @Simulator.cpeRequest exampleBuiltins exampleParser examplePrinter
      (rebooting [failedTransfer]) (Some (fromAcs (request "GetParameterNames" [])))
      exampleInputs
    = (w', [HttpPost r], Js.Ok ())
    ∧ bodyOf <$> post_xml r
      = Some (Some (@transferComplete exampleParser failedTransfer (now exampleInputs)))
    ∧ bodyOf <$> post_xml r
      ≠ Some (Some (@Simulator.createFaultResponse exampleParser "9002" notReady))
    ∧ post_callback r = ToHandleMethod.
Proof. eexists _, _. by vm_compute. Qed.

Section Sessions.
Context `{!Js.Builtins, !Xml.Parser, !Xml.Printer}.

Lemma inform_shape (w : World) (event : option string) (now : string)
    (callback : responder) :
  ∃ w' identity rest,
    inform w event now callback
    = callback w'
        (Xml.Node "cwmp:Inform" []
           (Xml.Node "DeviceId" [] identity
            :: Xml.Node "Event" [("soap-enc:arrayType", Some "cwmp:EventStruct[1]")]
                 (eventStruct <$> splitEvents event)
            :: rest)).
Proof.
  unfold inform. destruct (getPendingTransfers w) as [w1 [t|]];
    eexists _, _, _; reflexivity.
Qed.

Lemma informEventCodes_inform (id : option string) (identity rest : list Xml.xml)
    (attributes : list (string * option string)) (events : list (option string)) :
  informEventCodes
    (Simulator.createSoapDocument id
       (Xml.Node "cwmp:Inform" []
          (Xml.Node "DeviceId" [] identity
           :: Xml.Node "Event" attributes (eventStruct <$> events) :: rest)))
  = Some (eventCode <$> events).
Proof.
  change (Some (omap (λ s, child "EventCode" s ≫= textOf) (eventStruct <$> events))
          = Some (eventCode <$> events)).
  f_equal. induction events as [|ev l IH]; [done|].
  change (eventCode ev :: omap (λ s, child "EventCode" s ≫= textOf) (eventStruct <$> l)
          = eventCode ev :: (eventCode <$> l)).
  by rewrite IH.
Qed.

(** The Inform a new session posts carries one event code for each part of
    the event text, and [2 PERIODIC] when there is no event. *)
Lemma startSession_events (w : World) (event : option string) (i : inputs) :
  ∃ w' r envelope,
    Simulator.startSession w event i = (w', [HttpPost r])
    ∧ post_xml r = Some envelope
    ∧ post_callback r = ToCpeRequest
    ∧ informEventCodes envelope = Some (eventCode <$> splitEvents event).
Proof.
  unfold Simulator.startSession.
  destruct (inform_shape (set_pendingInform false (set_nextInformTimeout None w))
              event (now i)
              (Simulator.reply (Some (requestId i)) ToCpeRequest (cnonce i)))
    as (w1 & identity & rest & Hinform).
  rewrite Hinform. unfold Simulator.reply.
  match goal with
  | |- context [Simulator.sendRequest ?w0 ?x ?k ?c] =>
      destruct (sendRequest_posts w0 x k c) as (w' & r & Hsend & Hxml & Hk & _)
  end.
  rewrite Hsend. eexists w', r, _. split; [done|]. split; [exact Hxml|].
  split; [exact Hk|]. apply informEventCodes_inform.
Qed.

(** C3 on the code: when a session closes with pendingInform set and no
    reboot pending, the next session is scheduled with no delay, but the
    timer starts it without an event, so the Inform of that session carries
    the single event code [2 PERIODIC] and not [6 CONNECTION REQUEST]. *)
Theorem closeSession_pendingInform (w : World) (i : inputs) :
  pendingInform w = true →
  _pendingReboot (device w) = false →
  (∃ w', Simulator.handleMethod w None i
         = (w', [AgentDestroy; SetTimeout (StartSession None) (Js.Num 0)], Js.Ok ())
         ∧ nextInformTimeout w' = Some (StartSession None, Js.Num 0))
  ∧ ∀ w2 i2, ∃ w3 r envelope,
      Simulator.fire w2 (StartSession None) i2 = (w3, [HttpPost r])
      ∧ post_xml r = Some envelope
      ∧ informEventCodes envelope = Some ["2 PERIODIC"].
Proof.
  intros Hpending Hreboot. split.
  - unfold Simulator.handleMethod, Simulator.closeSession.
    rewrite Hreboot. simpl. rewrite Hpending. eexists. split; done.
  - intros w2 i2. simpl.
    destruct (startSession_events w2 None i2) as (w3 & r & envelope & Hrun & Hxml & _ & He).
    by exists w3, r, envelope.
Qed.

(** The other way a connection request starts a session: when it arrives
    while the simulator is idle, the listener starts the session itself, and
    its Inform carries [6 CONNECTION REQUEST]. When it arrives during a
    session it only sets pendingInform. *)
Lemma connectionRequest_when_idle (w : World) (cb : callback) (delay : Js.number) :
  acceptConnections w = true →
  nextInformTimeout w = Some (cb, delay) →
  (Simulator.connectionRequest w).2
  = [ResponseEnd; ClearTimeout cb delay;
     SetTimeout (StartSession (Some "6 CONNECTION REQUEST")) (Js.Num 0)]
  ∧ ∀ w2 i2, ∃ w3 r envelope,
      Simulator.fire w2 (StartSession (Some "6 CONNECTION REQUEST")) i2
      = (w3, [HttpPost r])
      ∧ post_xml r = Some envelope
      ∧ informEventCodes envelope = Some ["6 CONNECTION REQUEST"].
Proof.
  intros Haccept Htimer. split.
  - unfold Simulator.connectionRequest. by rewrite Haccept, Htimer.
  - intros w2 i2. simpl.
    destruct (startSession_events w2 (Some "6 CONNECTION REQUEST") i2)
      as (w3 & r & envelope & Hrun & Hxml & _ & He).
    by exists w3, r, envelope.
Qed.

Lemma connectionRequest_during_session (w : World) :
  acceptConnections w = true →
  nextInformTimeout w = None →
  Simulator.connectionRequest w = (set_pendingInform true w, [ResponseEnd]).
Proof.
  intros Haccept Htimer. unfold Simulator.connectionRequest.
  by rewrite Haccept, Htimer.
Qed.

End Sessions.

(** A session in progress that a connection request has marked. *)
Definition poked : World :=
  mkWorld (exampleDevice ∅) [] None true true 10000 "/acs".

Lemma closeSession_pendingInform_witness :
  ∃ w', @Simulator.handleMethod exampleBuiltins exampleParser examplePrinter
          poked None exampleInputs
        = (w', [AgentDestroy; SetTimeout (StartSession None) (Js.Num 0)], Js.Ok ())
        ∧ nextInformTimeout w' = Some (StartSession None, Js.Num 0).
Proof.
  apply (@closeSession_pendingInform exampleBuiltins exampleParser examplePrinter
           poked exampleInputs); reflexivity.
Defined.

(** ** The answer 401 to a POST *)

(** The user name and password [getAuthorizationHeader] works with, when
    both are there and neither is empty. *)
Definition credentials (d : Device) : option (string * string) :=
  match _username d, _password d with
  | Some u, Some p => if Js.truthy u && Js.truthy p then Some (u, p) else None
  | _, _ => None
  end.

Lemma isDigestChallenge_Digest (rest : string) :
  Simulator.isDigestChallenge (Some ("Digest" +:+ rest)) = true.
Proof. reflexivity. Qed.

Section Unauthorized.
Context `{!Js.Builtins, !Xml.Parser, !Xml.Printer}.

(** C6, as amended: a response 401 whose WWW-Authenticate header starts
    with Digest, in any case of the letters, makes the transport store the
    parsed challenge, and post the same document again, for the same
    callback. When the device has a user name and a password, neither of
    them empty, the nonce count, reset to 0, is 1 once the header of that
    POST is built, and the header is the Digest header for nonce count 1.
    Otherwise the nonce count stays 0 and the Authorization header of the
    POST is empty. A response 401 with any other challenge, or none, throws
    an error. *)
Theorem sendRequestEnd_unauthorized (w : World) (request : post)
    (res : Simulator.response) (i : inputs) :
  Simulator.statusCode res = 401 →
  (∀ h, Simulator.wwwAuthenticate res = Some h →
        Simulator.isDigestChallenge (Some h) = true →
        ∃ w' r,
          Simulator.sendRequestEnd w request res i = (w', [HttpPost r], Js.Ok ())
          ∧ post_xml r = post_xml request
          ∧ post_contentLength r = Js.length (Simulator.documentText (post_xml request))
          ∧ post_callback r = post_callback request
          ∧ _digestParams (device w') = Some (Auth.parseDigestHeader h)
          ∧ match credentials (device w) with
            | Some (u, p) =>
                _nonceCount (device w') = Some 1%N
                ∧ post_authorization r
                  = Auth.generateDigestAuth u p "POST"
                      (if Js.truthy (path w) then path w else "/")
                      (Auth.parseDigestHeader h) (Some 1%N) (cnonce i)
            | None =>
                _nonceCount (device w') = Some 0%N ∧ post_authorization r = ""
            end)
  ∧ (Simulator.isDigestChallenge (Simulator.wwwAuthenticate res) = false →
     Simulator.sendRequestEnd w request res i
     = (w, [],
        Js.Throw (Js.Error ("Authentication failed with status " +:+ Js.ofZ 401
                            +:+ ": " +:+ Simulator.body res)))).
Proof.
  intros Hstatus. split.
  - intros h Hheader Hdigest. unfold Simulator.sendRequestEnd.
    rewrite Hstatus, Z.eqb_refl, Hheader, Hdigest.
    match goal with
    | |- context [Simulator.sendRequest ?w0 ?x ?k ?c] =>
        destruct (sendRequest_posts w0 x k c)
          as (w' & r & Hsend & Hxml & Hk & Hlen & Hauth & Hdevice & _)
    end.
    rewrite Hsend. exists w', r. split; [done|]. split; [done|]. split; [done|].
    split; [done|]. rewrite Hauth, Hdevice. clear.
    unfold Auth.getAuthorizationHeader, credentials. simpl.
    destruct (_username (device w)) as [u|]; [|done].
    destruct (_password (device w)) as [p|]; [|done].
    destruct (Js.truthy u && Js.truthy p); done.
  - intros Hother. unfold Simulator.sendRequestEnd.
    by rewrite Hstatus, Z.eqb_refl, Hother.
Qed.

End Unauthorized.

Definition digestChallenge : Simulator.response :=
  Simulator.Response 401 (Some "Digest realm=r, nonce=n, qop=auth") None None "".

Definition informPost : post :=
  mkPost (Some (Xml.Text "inform")) 45 "Basic base64(usertest:passtest)" None 40000
    ToCpeRequest.

Lemma sendRequestEnd_unauthorized_witness :
  ∃ w' r,
    @Simulator.sendRequestEnd exampleBuiltins exampleParser examplePrinter
      poked informPost digestChallenge exampleInputs
    = (w', [HttpPost r], Js.Ok ())
    ∧ post_xml r = post_xml informPost
    ∧ _nonceCount (device w') = Some 1%N
    ∧ endsWith (post_authorization r) (", nc=00000001, cnonce=" +:+ Js.q "c") = true.
Proof.
  destruct (@sendRequestEnd_unauthorized exampleBuiltins exampleParser examplePrinter
              poked informPost digestChallenge exampleInputs eq_refl)
    as [Hdigest _].
  destruct (Hdigest "Digest realm=r, nonce=n, qop=auth" eq_refl eq_refl)
    as (w' & r & Hrun & Hxml & _ & _ & _ & Hcount & Hauth).
  exists w', r. split; [exact Hrun|]. split; [exact Hxml|]. split; [exact Hcount|].
  rewrite Hauth. reflexivity.
Defined.

(** A simulator whose data model gives it an empty user name and password. *)
Definition anonymous : World :=
  mkWorld (mkDevice ∅ None false false false false None None (Some 0%N) None
             (Some "") (Some ""))
    [] None false true 10000 "/acs".

(** C6, as stated, fails: a device with an empty user name answers the
    Digest challenge with a POST whose Authorization header is empty, and
    its nonce count stays 0. *)
Lemma sendRequestEnd_without_credentials :
  ∃ w' r,
    @Simulator.sendRequestEnd exampleBuiltins exampleParser examplePrinter
      anonymous informPost digestChallenge exampleInputs
    = (w', [HttpPost r], Js.Ok ())
    ∧ post_xml r = post_xml informPost
    ∧ post_authorization r = ""
    ∧ _nonceCount (device w') = Some 0%N.
Proof. eexists _, _. by vm_compute. Qed.

(** * Further properties of the handlers, the helpers and the session engine *)

(** ** AddObject keeps what the device had *)

(** X2: On a device whose cache of sorted paths is absent or up to date,
    AddObject leaves every parameter the device had as it was, adds keys
    only under the object name it was given, and touches no other field of
    the device than the cache of sorted paths, which it drops. *)
Theorem AddObject_keeps_parameters (d : Device) (request c : Xml.element)
    (cs : list Xml.element) :
  cache_ok d → Xml.children request = c :: cs →
  ∃ d' r,
    AddObject d request = (d', Js.Ok r)
    ∧ (∀ k v, params d !! k = Some v → params d' !! k = Some v)
    ∧ (∀ k, params d !! k = None → is_Some (params d' !! k) →
            Js.startsWith k (Xml.text c) = true)
    ∧ set_params (params d) d' = set_sortedPaths None d.
Proof.
  intros Hcache Hchildren.
  destruct (AddObject_run d request c cs Hcache Hchildren) as (m & Hadd & Hm).
  destruct (nextInstance_spec d (Xml.text c)) as (_ & Hfree & _).
  cbv zeta in Hadd, Hm, Hfree.
  eexists _, _. split; [exact Hadd|]. split_and!.
  - intros k v Hk. cbn. rewrite Hm. destruct (decide _) as [->|]; [congruence|].
    by rewrite Hk.
  - intros k Hk [v Hv]. cbn in Hv. rewrite Hm in Hv.
    destruct (decide _) as [->|]; [apply startsWith_instanceKey|].
    rewrite Hk in Hv.
    destruct (List.find _ _) as [q|] eqn:Hfind; [|done].
    apply List.find_some in Hfind as [_ Hsel]. unfold selects in Hsel.
    apply andb_prop in Hsel as [_ Hsel]. apply bool_decide_eq_true in Hsel.
    rewrite <-Hsel. apply startsWith_instancePath.
  - by destruct d.
Qed.

Lemma AddObject_keeps_parameters_witness :
  ∃ d' r,
    AddObject oneInstance addA = (d', Js.Ok r)
    ∧ (∀ k v, params oneInstance !! k = Some v → params d' !! k = Some v)
    ∧ (∀ k, params oneInstance !! k = None → is_Some (params d' !! k) →
            Js.startsWith k "A." = true)
    ∧ set_params (params oneInstance) d' = set_sortedPaths None oneInstance.
Proof.
  apply (AddObject_keeps_parameters oneInstance addA (elem "ObjectName" "A.") []);
    [exact I | reflexivity].
Defined.

(** X3: On a device whose cache of sorted paths is absent or up to date, two
    AddObject calls for the same object name answer with two instance
    numbers, the second greater than the first, and both instances are on
    the device afterwards. *)
Theorem AddObject_numbers_increase (d : Device) (request c : Xml.element)
    (cs : list Xml.element) :
  cache_ok d → Xml.children request = c :: cs →
  ∃ d1 d2 i1 i2,
    AddObject d request = (d1, Js.Ok (addObjectResponse i1))
    ∧ AddObject d1 request = (d2, Js.Ok (addObjectResponse i2))
    ∧ (1 ≤ i1 < i2)%N
    ∧ params d2 !! instanceKey (Xml.text c) i1 = Some (Param true None None)
    ∧ params d2 !! instanceKey (Xml.text c) i2 = Some (Param true None None).
Proof.
  intros Hcache Hchildren.
  destruct (AddObject_run d request c cs Hcache Hchildren) as (m1 & Hadd1 & Hm1).
  destruct (nextInstance_spec d (Xml.text c)) as (Hpos1 & Hfree1 & Htaken1).
  cbv zeta in Hadd1, Hm1, Hpos1, Hfree1, Htaken1.
  remember (Xml.text c) as o eqn:Ho.
  remember (instanceNumberOf d o) as i1 eqn:Hi1.
  remember (set_sortedPaths None (set_params m1 d)) as d1 eqn:Hd1.
  assert (Hparams : params d1 = m1) by by subst d1.
  destruct (AddObject_run d1 request c cs) as (m2 & Hadd2 & Hm2);
    [by subst d1 | done |].
  destruct (nextInstance_spec d1 (Xml.text c)) as (Hpos2 & Hfree2 & _).
  cbv zeta in Hadd2, Hm2, Hpos2, Hfree2. rewrite <-Ho in Hadd2, Hm2, Hpos2, Hfree2.
  remember (instanceNumberOf d1 o) as i2 eqn:Hi2.
  assert (Hkept : ∀ j, (1 ≤ j ≤ i1)%N → is_Some (params d1 !! instanceKey o j)).
  { intros j Hj. rewrite Hparams, Hm1. destruct (decide _); [done|].
    destruct (decide (j = i1)) as [->|]; [done|].
    destruct (Htaken1 j) as [v Hv]; [lia|]. by rewrite Hv. }
  assert (Hlt : (i1 < i2)%N).
  { apply N.nle_gt. intros Hle.
    destruct (Hkept i2) as [v Hv]; [lia|]. congruence. }
  exists d1, (set_sortedPaths None (set_params m2 d1)), i1, i2.
  split; [exact Hadd1|]. split; [exact Hadd2|]. split; [lia|]. split.
  - cbn. rewrite Hm2. destruct (decide _) as [Heq|].
    { apply instanceKey_inj in Heq. lia. }
    rewrite Hparams, Hm1. by rewrite decide_True.
  - cbn. rewrite Hm2. by rewrite decide_True.
Qed.

Lemma AddObject_numbers_increase_witness :
  ∃ d1 d2 i1 i2,
    AddObject oneInstance addA = (d1, Js.Ok (addObjectResponse i1))
    ∧ AddObject d1 addA = (d2, Js.Ok (addObjectResponse i2))
    ∧ (1 ≤ i1 < i2)%N
    ∧ params d2 !! instanceKey "A." i1 = Some (Param true None None)
    ∧ params d2 !! instanceKey "A." i2 = Some (Param true None None).
Proof.
  apply (AddObject_numbers_increase oneInstance addA (elem "ObjectName" "A.") []);
    [exact I | reflexivity].
Defined.

(** ** DeleteObject *)

Lemma lookup_deleteKeys (o : string) (d : Device) (k : string) :
  params (deleteKeys o d) !! k = if Js.startsWith k o then None else params d !! k.
Proof.
  cbn. destruct (Js.startsWith k o) eqn:Hk.
  - apply map_lookup_filter_None. right. intros v _. cbn. congruence.
  - destruct (params d !! k) as [v|] eqn:Hv.
    + by apply map_lookup_filter_Some.
    + apply map_lookup_filter_None. by left.
Qed.

Section AfterDelete.
Context `{!Js.Builtins}.

(** X4: After DeleteObject, GetParameterNames lists a path exactly when the path
    did not start with the deleted object name, was a parameter of the
    device, is not private or ignored, and passes the test of the request.
    This holds whatever the cache of sorted paths held before the deletion,
    since DeleteObject drops it. *)
Theorem DeleteObject_then_GetParameterNames (d : Device)
    (deletion c : Xml.element) (cs : list Xml.element) (names : Xml.element)
    (path : string) (nextLevel : bool) :
  Xml.children deletion = c :: cs →
  namesArguments (Xml.children names) None false = Js.Ok (Some path, nextLevel) →
  ∃ d1 r1 d2 r2,
    DeleteObject d deletion = (d1, Js.Ok r1)
    ∧ GetParameterNames d1 names = (d2, Js.Ok r2)
    ∧ (∀ k, params d2 !! k
            = if Js.startsWith k (Xml.text c) then None else params d !! k)
    ∧ ∀ p, p ∈ responseNames r2
           ↔ Js.startsWith p (Xml.text c) = false
             ∧ is_Some (params d !! p)
             ∧ visible p = true
             ∧ listed nextLevel path p = true.
Proof.
  intros Hchildren Hargs. unfold DeleteObject. rewrite Hchildren.
  set (d1 := deleteKeys (Xml.text c) d).
  assert (Hcache : cache_ok d1) by exact I.
  assert (Hsel : selectNames (Some path) nextLevel (sortedPaths d1)
                 = Js.Ok (List.filter (listed nextLevel path) (sortedPaths d1))).
  { unfold selectNames, listed. by destruct nextLevel. }
  destruct (infoStructs_names
              (set_sortedPaths (Some (sortedPaths d1)) d1)
              (List.filter (listed nextLevel path) (sortedPaths d1)))
    as (ps & Hps & Hnames).
  { intros p [Hp%list_elem_of_In _]%list_elem_of_In%filter_In.
    by apply elem_of_sortedPaths in Hp as [_ Hp]. }
  eexists d1, _, _, _. split; [reflexivity|]. split.
  { unfold GetParameterNames. rewrite (getSortedPaths_cached d1 Hcache), Hargs.
    rewrite bind_Ok. cbv beta. cbn [fst snd]. rewrite Hsel, bind_Ok.
    rewrite Hps, bind_Ok. reflexivity. }
  split.
  { intros k. apply (lookup_deleteKeys (Xml.text c) d k). }
  intros p.
  match goal with |- _ ↔ ?R => change (p ∈ omap structName ps ↔ R) end.
  rewrite Hnames.
  rewrite list_elem_of_In, filter_In, <-list_elem_of_In, elem_of_sortedPaths.
  unfold d1. rewrite lookup_deleteKeys.
  destruct (Js.startsWith p (Xml.text c)).
  - split; [intros [[_ [v Hv]] _]; done | intros [? _]; done].
  - tauto.
Qed.

End AfterDelete.

Lemma DeleteObject_then_GetParameterNames_witness :
  ∃ d1 r1 d2 r2,
    DeleteObject oneInstance (request "DeleteObject" [elem "ObjectName" "A.1.N"])
    = (d1, Js.Ok r1)
    ∧ @GetParameterNames exampleBuiltins d1
        (request "GetParameterNames" [elem "ParameterPath" "A."]) = (d2, Js.Ok r2)
    ∧ (∀ k, params d2 !! k
            = if Js.startsWith k "A.1.N" then None else params oneInstance !! k)
    ∧ ∀ p, p ∈ responseNames r2
           ↔ Js.startsWith p "A.1.N" = false
             ∧ is_Some (params oneInstance !! p)
             ∧ visible p = true
             ∧ listed false "A." p = true.
Proof.
  apply (@DeleteObject_then_GetParameterNames exampleBuiltins oneInstance
           (request "DeleteObject" [elem "ObjectName" "A.1.N"])
           (elem "ObjectName" "A.1.N") []
           (request "GetParameterNames" [elem "ParameterPath" "A."]) "A." false);
    reflexivity.
Defined.

(** ** GetParameterValues *)

(** The name, the type and the text of a ParameterValueStruct. *)
Definition valueOf (x : Xml.xml) : option (string * option string * string) :=
  match x with
  | Xml.Node _ _ [Xml.Node _ _ [Xml.Text n]; Xml.Node _ [(_, t)] [Xml.Text v]] =>
      Some (n, t, v)
  | _ => None
  end.

(** The ParameterValueStruct elements of a GetParameterValuesResponse. *)
Definition responseValues (r : Xml.xml) : list Xml.xml :=
  match r with
  | Xml.Node _ _ [Xml.Node _ _ structs] => structs
  | _ => []
  end.

Section Reading.
Context `{!Xml.Parser}.

Lemma valueStructs_run (d : Device) (l : list Xml.element) :
  (Forall (λ p, is_Some (params d !! Xml.text p)) l →
   ∃ structs,
     valueStructs d l = Js.Ok structs
     ∧ Forall2 (λ p s, ∃ par, params d !! Xml.text p = Some par
                  ∧ valueOf s = Some (Xml.text p, xsdType par,
                                      Xml.encodeEntities (value par)))
         l structs)
  ∧ (Exists (λ p, params d !! Xml.text p = None) l →
     valueStructs d l = Js.Throw Js.TypeError).
Proof.
  induction l as [|p l [IHok IHbad]]; split.
  - intros _. exists []. by split.
  - intros Hex. inversion Hex.
  - intros Hall. apply Forall_cons in Hall as [[par Hpar] Hall].
    destruct (IHok Hall) as (structs & Hrun & Hall2).
    simpl. unfold lookup_param. rewrite Hpar, Hrun, bind_Ok.
    eexists. split; [reflexivity|]. constructor; [|done]. by exists par.
  - intros Hex. simpl. unfold lookup_param.
    destruct (params d !! Xml.text p) as [par|] eqn:Hpar; [|done].
    apply Exists_cons in Hex as [Hp|Hex]; [congruence|].
    by rewrite (IHbad Hex).
Qed.

(** X5: GetParameterValues answers a request whose names are all parameters
    of the device with one struct for each name, in the order of the
    request, holding the name, the stored type and the stored value. When
    no requested name is reserved (a private field or a property inherited
    from [Object.prototype]) and the device has no parameter for one of
    them, the handler throws a TypeError instead of answering. The device is
    never changed. *)
Theorem GetParameterValues_values (d : Device) (request c : Xml.element)
    (cs : list Xml.element) :
  Xml.children request = c :: cs →
  (GetParameterValues d request).1 = d
  ∧ (Forall (λ p, is_Some (params d !! Xml.text p)) (Xml.children c) →
     ∃ r,
       (GetParameterValues d request).2 = Js.Ok r
       ∧ Forall2 (λ p s, ∃ par, params d !! Xml.text p = Some par
                    ∧ valueOf s = Some (Xml.text p, xsdType par,
                                        Xml.encodeEntities (value par)))
           (Xml.children c) (responseValues r))
  ∧ (Forall (λ p, Xml.text p ∉ reserved) (Xml.children c) →
     Exists (λ p, params d !! Xml.text p = None) (Xml.children c) →
     (GetParameterValues d request).2 = Js.Throw Js.TypeError).
Proof.
  intros Hchildren. unfold GetParameterValues. rewrite Hchildren. cbn [fst snd].
  destruct (valueStructs_run d (Xml.children c)) as [Hok Hbad].
  split; [done|]. split.
  - intros Hall. destruct (Hok Hall) as (structs & Hrun & Hall2).
    rewrite Hrun, bind_Ok. eexists. split; [reflexivity|]. exact Hall2.
  - intros _ Hex. by rewrite (Hbad Hex).
Qed.

End Reading.

(** A request for the serial number, and one for a name the device does
    not have. *)
Definition getNames (names : list string) : Xml.element :=
  request "GetParameterValues"
    [Xml.Element "ParameterNames" "ParameterNames" "" "" (elem "string" <$> names)].

Lemma GetParameterValues_values_witness :
  (@GetParameterValues exampleParser readOnlyDevice
     (getNames ["Device.DeviceInfo.SerialNumber"; "Device.Missing"])).1
  = readOnlyDevice
  ∧ (@GetParameterValues exampleParser readOnlyDevice
       (getNames ["Device.DeviceInfo.SerialNumber"; "Device.Missing"])).2
    = Js.Throw Js.TypeError.
Proof.
  destruct (@GetParameterValues_values exampleParser readOnlyDevice
              (getNames ["Device.DeviceInfo.SerialNumber"; "Device.Missing"])
              (Xml.Element "ParameterNames" "ParameterNames" "" ""
                 (elem "string" <$> ["Device.DeviceInfo.SerialNumber"; "Device.Missing"]))
              [] eq_refl) as (Hsame & _ & Hthrow).
  split; [exact Hsame|]. apply Hthrow.
  - repeat constructor; apply (bool_decide_unpack _); reflexivity.
  - apply Exists_cons_tl, Exists_cons_hd. reflexivity.
Defined.

(** ** DeleteObject and the private fields *)

Section Private.
Context `{!Js.Builtins}.

(** X6: DeleteObject deletes every key of the device object that starts with
    the object name, the private fields included: with an object name that
    is a prefix of [_username], the empty name for one, the user name is
    gone, and every request after that carries an empty Authorization
    header. With the empty object name no parameter is left. *)
Theorem DeleteObject_private_fields (d : Device) (request c : Xml.element)
    (cs : list Xml.element) :
  Xml.children request = c :: cs →
  Js.startsWith "_username" (Xml.text c) = true →
  ∃ d' r,
    DeleteObject d request = (d', Js.Ok r)
    ∧ _username d' = None
    ∧ (∀ method uri cnonce,
         Auth.getAuthorizationHeader d' method uri cnonce = (d', ""))
    ∧ (Xml.text c = "" → params d' = ∅).
Proof.
  intros Hchildren Hprefix. unfold DeleteObject. rewrite Hchildren.
  eexists _, _. split; [reflexivity|].
  assert (Huser : _username (deleteKeys (Xml.text c) d) = None).
  { cbn. unfold unless_deleted. by rewrite Hprefix. }
  split; [exact Huser|]. split.
  - intros method uri cnonce. unfold Auth.getAuthorizationHeader. by rewrite Huser.
  - intros ->. apply map_eq. intros k. rewrite lookup_empty.
    apply map_lookup_filter_None. right. by intros v _.
Qed.

End Private.

(** ** SetParameterValues stops at the first struct it cannot apply *)

Section Writing.
Context `{!Xml.Parser}.

Lemma setParameterValues_app (good rest : list Xml.element) (d d1 : Device) :
  setParameterValues d good = (d1, Js.Ok ()) →
  setParameterValues d (good ++ rest) = setParameterValues d1 rest.
Proof.
  revert d. induction good as [|p good IH]; intros d Hrun; simpl in *.
  - by injection Hrun as ->.
  - destruct (setParameterValue d p) as [d' [[]|e]]; [by apply IH | done].
Qed.

(** X7: SetParameterValues is not atomic: when a struct names a parameter the
    device does not have, under a name that is not reserved (neither a
    private field nor a property inherited from [Object.prototype]), the
    handler throws a TypeError and sends no answer, and the structs before
    it, each naming a parameter of the device with a typed value, stay
    applied. *)
Theorem SetParameterValues_not_atomic (d : Device) (request c : Xml.element)
    (cs good : list Xml.element) (bad : Xml.element) (rest : list Xml.element) :
  Xml.children request = c :: cs →
  Xml.children c = good ++ bad :: rest →
  Forall (assigns d) good →
  assignedKey bad ∉ reserved →
  params d !! assignedKey bad = None →
  ∃ d', SetParameterValues d request = (d', Js.Throw Js.TypeError)
        ∧ ∀ k, params d' !! k = updated k good <$> params d !! k.
Proof.
  unfold assignedKey. intros Hchildren Hlist Hgood _ Hbad.
  destruct (setParameterValues_run good d Hgood) as (m & Hrun & Hm).
  exists (set_params m d). split; [|exact Hm].
  unfold SetParameterValues. rewrite Hchildren, Hlist.
  rewrite (setParameterValues_app good (bad :: rest) d _ Hrun).
  cbn [setParameterValues]. unfold setParameterValue.
  destruct (nameAndValue (Xml.children bad) None None) as [nm v].
  cbn [fst] in Hbad. unfold lookup_param. cbn [params set_params].
  by rewrite Hm, Hbad.
Qed.

(** X8: A struct whose Value carries no type attribute has its value written
    before the handler throws: the parameter keeps its type and gets the
    new value, and no answer is sent. *)
Theorem SetParameterValues_untyped_value (d : Device) (request c : Xml.element)
    (cs good : list Xml.element) (bad : Xml.element) (rest : list Xml.element)
    (nm : string) (v : Xml.element) (par : param) :
  Xml.children request = c :: cs →
  Xml.children c = good ++ bad :: rest →
  Forall (assigns d) good →
  nameAndValue (Xml.children bad) None None = (Some nm, Some v) →
  typeAttr v = None →
  params d !! nm = Some par →
  ∃ d', SetParameterValues d request = (d', Js.Throw Js.TypeError)
        ∧ params d' !! nm
          = Some (Param (writable par) (Some (Xml.decodeEntities (Xml.text v)))
                    (xsdType (updated nm good par)))
        ∧ ∀ k, k ≠ nm → params d' !! k = updated k good <$> params d !! k.
Proof.
  intros Hchildren Hlist Hgood Hbad Htype Hpar.
  destruct (setParameterValues_run good d Hgood) as (m & Hrun & Hm).
  assert (Hw : writable (updated nm good par) = writable par).
  { unfold updated. by destruct (lastAssigned nm good) as [[? ?]|]. }
  eexists. split.
  { unfold SetParameterValues. rewrite Hchildren, Hlist.
    rewrite (setParameterValues_app good (bad :: rest) d _ Hrun).
    cbn [setParameterValues]. unfold setParameterValue. rewrite Hbad.
    unfold lookup_param. change (default "undefined" (Some nm)) with nm.
    cbn [params set_params].
    rewrite Hm, Hpar. cbn [fmap option_fmap option_map]. rewrite Htype.
    reflexivity. }
  split.
  - cbn. rewrite lookup_insert_eq. by rewrite Hw.
  - intros k Hk. cbn. rewrite lookup_insert_ne by done. apply Hm.
Qed.

End Writing.

(** A request that sets the serial number and then a parameter the device
    does not have. *)
Definition setSerialAndUnknown : Xml.element :=
  request "SetParameterValues"
    [Xml.Element "ParameterList" "ParameterList" "" ""
       [valueStruct "Device.DeviceInfo.SerialNumber" "S2" "xsd:string";
        valueStruct "Device.Unknown" "1" "xsd:string"]].

Lemma SetParameterValues_not_atomic_witness :
  ∃ d', @SetParameterValues exampleParser readOnlyDevice setSerialAndUnknown
        = (d', Js.Throw Js.TypeError)
        ∧ ∀ k, params d' !! k
               = @updated exampleParser k
                   [valueStruct "Device.DeviceInfo.SerialNumber" "S2" "xsd:string"]
                 <$> params readOnlyDevice !! k.
Proof.
  apply (@SetParameterValues_not_atomic exampleParser readOnlyDevice
           setSerialAndUnknown
           (Xml.Element "ParameterList" "ParameterList" "" ""
              [valueStruct "Device.DeviceInfo.SerialNumber" "S2" "xsd:string";
               valueStruct "Device.Unknown" "1" "xsd:string"]) []
           [valueStruct "Device.DeviceInfo.SerialNumber" "S2" "xsd:string"]
           (valueStruct "Device.Unknown" "1" "xsd:string") []);
    [reflexivity | reflexivity | | apply (bool_decide_unpack _); reflexivity
    | reflexivity].
  constructor; [|constructor].
  exists "Device.DeviceInfo.SerialNumber", ("S2", "xsd:string"). split; [reflexivity|].
  by eexists.
Defined.

Lemma SetParameterValues_untyped_value_witness :
  ∃ d', @SetParameterValues exampleParser readOnlyDevice setSerialUntyped
        = (d', Js.Throw Js.TypeError)
        ∧ params d' !! "Device.DeviceInfo.SerialNumber"
          = Some (Param false (Some "S2") (Some "xsd:string")).
Proof.
  destruct (@SetParameterValues_untyped_value exampleParser readOnlyDevice
              setSerialUntyped
              (Xml.Element "ParameterList" "ParameterList" "" ""
                 [valueStruct "Device.DeviceInfo.SerialNumber" "S2" ""]) []
              [] (valueStruct "Device.DeviceInfo.SerialNumber" "S2" "") []
              "Device.DeviceInfo.SerialNumber"
              (Xml.Element "Value" "Value" "S2" "" [])
              (Param false (Some "S1") (Some "xsd:string"))
              eq_refl eq_refl (List.Forall_nil _) eq_refl eq_refl eq_refl)
    as (d' & Hrun & Hvalue & _).
  exists d'. split; [exact Hrun | exact Hvalue].
Defined.

(** ** Reading back what was set *)

Section RoundTrip.
Context `{!Xml.Parser}.

(** X9: What SetParameterValues wrote, GetParameterValues reads: after a
    request whose structs each carry the name of a parameter of the device
    and a typed value, the struct returned for a name that was assigned
    holds the type and the encoded value of the last struct with that name,
    and the struct for any other name what the device held before. *)
Theorem SetParameterValues_then_GetParameterValues (d : Device)
    (setting c : Xml.element) (cs : list Xml.element)
    (getting c' : Xml.element) (cs' : list Xml.element) :
  Xml.children setting = c :: cs →
  Forall (assigns d) (Xml.children c) →
  Xml.children getting = c' :: cs' →
  Forall (λ p, is_Some (params d !! Xml.text p)) (Xml.children c') →
  ∃ d1 r1 r2,
    SetParameterValues d setting = (d1, Js.Ok r1)
    ∧ GetParameterValues d1 getting = (d1, Js.Ok r2)
    ∧ Forall2
        (λ p s, ∃ par,
           params d !! Xml.text p = Some par
           ∧ valueOf s
             = Some (Xml.text p,
                     xsdType (updated (Xml.text p) (Xml.children c) par),
                     Xml.encodeEntities
                       (value (updated (Xml.text p) (Xml.children c) par))))
        (Xml.children c') (responseValues r2).
Proof.
  intros Hsetting Hassigns Hgetting Hnames.
  destruct (setParameterValues_run (Xml.children c) d Hassigns) as (m & Hrun & Hm).
  set (d1 := set_params m d).
  assert (Hnames1 : Forall (λ p, is_Some (params d1 !! Xml.text p)) (Xml.children c')).
  { eapply Forall_impl; [exact Hnames|]. intros p [par Hpar]. cbn.
    rewrite Hm, Hpar. by eexists. }
  destruct (valueStructs_run d1 (Xml.children c')) as [Hok _].
  destruct (Hok Hnames1) as (structs & Hstructs & Hall).
  eexists d1, _, _. split.
  { unfold SetParameterValues. by rewrite Hsetting, Hrun. }
  split.
  { unfold GetParameterValues. by rewrite Hgetting, Hstructs, bind_Ok. }
  cbn [responseValues Xml.node].
  eapply Forall2_impl; [exact Hall|]. cbn beta.
  intros p s (par1 & Hpar1 & Hvalue). cbn in Hpar1. rewrite Hm in Hpar1.
  destruct (params d !! Xml.text p) as [par|] eqn:Hpar; [|done].
  injection Hpar1 as <-. exists par. by split.
Qed.

End RoundTrip.

Definition getSerial : Xml.element :=
  request "GetParameterValues"
    [Xml.Element "ParameterNames" "ParameterNames" "" ""
       [elem "string" "Device.DeviceInfo.SerialNumber"]].

Lemma SetParameterValues_then_GetParameterValues_witness :
  ∃ d1 r1 r2,
    @SetParameterValues exampleParser readOnlyDevice setSerial = (d1, Js.Ok r1)
    ∧ @GetParameterValues exampleParser d1 getSerial = (d1, Js.Ok r2)
    ∧ valueOf <$> responseValues r2
      = [Some ("Device.DeviceInfo.SerialNumber", Some "xsd:string", "S2")].
Proof.
  destruct (@SetParameterValues_then_GetParameterValues exampleParser readOnlyDevice
              setSerial
              (Xml.Element "ParameterList" "ParameterList" "" ""
                 [valueStruct "Device.DeviceInfo.SerialNumber" "S2" "xsd:string"]) []
              getSerial
              (Xml.Element "ParameterNames" "ParameterNames" "" ""
                 [elem "string" "Device.DeviceInfo.SerialNumber"]) [])
    as (d1 & r1 & r2 & Hset & Hget & Hall);
    [reflexivity | | reflexivity | |].
  - constructor; [|constructor].
    exists "Device.DeviceInfo.SerialNumber", ("S2", "xsd:string").
    split; [reflexivity|]. by eexists.
  - constructor; [|constructor]. by eexists.
  - exists d1, r1, r2. split; [exact Hset|]. split; [exact Hget|].
    apply Forall2_cons_inv_l in Hall as (s & rest & (par & Hpar & Hs) & Hrest & ->).
    apply Forall2_nil_inv_l in Hrest as ->. cbn. f_equal. exact Hs.
Defined.

(** * Reading a Digest challenge *)

(** A field of a challenge as a server writes it: the key, an equals sign
    and the value between double quotes. *)
Definition challengeField (kv : string * string) : string :=
  kv.1 +:+ "=" +:+ Js.q kv.2.

(** A key made of word characters and a value without a double quote,
    neither of them empty. *)
Definition quotable (kv : string * string) : Prop :=
  all Js.isWord kv.1 = true ∧ kv.1 ≠ "" ∧ all Auth.notQuote kv.2 = true ∧ kv.2 ≠ "".

Lemma takeWhile_all (f : ascii → bool) (s : string) (c : ascii) (rest : string) :
  all f s = true → f c = false → Js.takeWhile f (s +:+ String c rest) = s.
Proof.
  intros Hs Hc. induction s as [|a s IH].
  - rewrite append_nil_l. cbn. by rewrite Hc.
  - cbn in Hs. apply andb_prop in Hs as [Ha Hs].
    rewrite append_cons. cbn [Js.takeWhile]. by rewrite Ha, IH.
Qed.

Lemma truthy_nonempty (s : string) : s ≠ "" → Js.truthy s = true.
Proof. by destruct s. Qed.

Lemma matchPair_field (k v rest : string) :
  quotable (k, v) →
  Auth.matchPair (challengeField (k, v) +:+ rest)
  = Some (k, v, (String.length k + 3 + String.length v)%nat).
Proof.
  intros (Hk & Hk' & Hv & Hv'). cbn [fst snd] in *.
  unfold Auth.matchPair, challengeField, Js.q, Js.dq. cbn [fst snd].
  rewrite !append_assoc.
  change ("=" +:+ ?x) with (String "="%char x).
  rewrite (takeWhile_all Js.isWord k "="%char _ Hk eq_refl).
  rewrite (truthy_nonempty k Hk').
  change (k +:+ String "="%char ?x) with (k +:+ (String "="%char x)).
  rewrite drop_append. cbn [Ascii.eqb Bool.eqb].
  rewrite append_cons, append_nil_l.
  rewrite (Ascii.eqb_refl (ascii_of_nat 34)).
  change (String (ascii_of_nat 34) "" +:+ rest) with (String (ascii_of_nat 34) rest).
  rewrite (takeWhile_all Auth.notQuote v (ascii_of_nat 34) rest Hv eq_refl).
  rewrite drop_append. by rewrite (truthy_nonempty v Hv').
Qed.

Lemma pairs_skip (x rest : string) :
  Auth.pairs (String.length x) (x +:+ rest) = Auth.pairs 0 rest.
Proof.
  induction x as [|a x IH]; [done|]. exact IH.
Qed.

Lemma pairs_field (k v rest : string) :
  quotable (k, v) →
  Auth.pairs 0 (challengeField (k, v) +:+ rest) = (k, v) :: Auth.pairs 0 rest.
Proof.
  intros Hkv. pose proof (matchPair_field k v rest Hkv) as Hmatch.
  destruct Hkv as (_ & Hk & _). cbn [fst] in Hk.
  destruct (challengeField (k, v) +:+ rest) as [|a s] eqn:Hs.
  { destruct k; [done|discriminate Hs]. }
  cbn [Auth.pairs]. rewrite Hmatch. f_equal.
  assert (Hlen : (String.length k + 3 + String.length v - 1)%nat
                 = String.length (Js.drop 1 (challengeField (k, v)))).
  { rewrite length_drop. unfold challengeField, Js.q, Js.dq. cbn [fst snd].
    rewrite !length_append. cbn. lia. }
  assert (Htail : s = Js.drop 1 (challengeField (k, v)) +:+ rest).
  { unfold challengeField in *. cbn [fst snd] in *.
    destruct k as [|b k]; [done|]. cbn in Hs |- *. by injection Hs as _ <-. }
  rewrite Hlen, Htail. apply pairs_skip.
Qed.

Lemma pairs_separator (rest : string) :
  Auth.pairs 0 (", " +:+ rest) = Auth.pairs 0 rest.
Proof. reflexivity. Qed.

Lemma pairs_fields (fields : list (string * string)) :
  Forall quotable fields →
  Auth.pairs 0 (Js.join ", " (challengeField <$> fields)) = fields.
Proof.
  induction fields as [|[k v] fields IH]; intros Hall; [done|].
  apply Forall_cons in Hall as [Hkv Hall].
  destruct fields as [|kv' fields].
  - cbn [fmap list_fmap Js.join].
    rewrite <-(append_nil_r (challengeField (k, v))). by rewrite pairs_field.
  - change (Js.join ", " (challengeField <$> (k, v) :: kv' :: fields))
      with (challengeField (k, v)
            +:+ ", " +:+ Js.join ", " (challengeField <$> kv' :: fields)).
    rewrite pairs_field, pairs_separator by done. f_equal. by apply IH.
Qed.

(** The fields [parseDigestHeader] stores: all but those with the key
    [__proto__]. *)
Definition stored (fields : list (string * string)) : list (string * string) :=
  filter (λ kv, kv.1 ≠ "__proto__") fields.

Lemma foldl_assign (fields : list (string * string)) (m : gmap string string) :
  foldl Auth.assign m fields = list_to_map (reverse (stored fields)) ∪ m.
Proof.
  revert m. induction fields as [|[k v] fields IH]; intros m.
  - cbn. by rewrite (left_id_L ∅ (∪)).
  - cbn [foldl]. rewrite IH. unfold stored, Auth.assign. cbn [fst snd].
    case_bool_decide as Hk.
    + by rewrite filter_cons_False by (cbn; by intros ?).
    + rewrite filter_cons_True by done.
      rewrite reverse_cons, list_to_map_app. cbn [fst snd list_to_map foldr].
      rewrite <-(assoc_L (∪)). f_equal.
      by rewrite insert_union_singleton_l.
Qed.

Lemma isWord_not_space (a : ascii) : Js.isWord a = true → Js.isSpace a = false.
Proof. destruct a as [[] [] [] [] [] [] [] []]; by vm_compute. Qed.

(** X10: parseDigestHeader reads a challenge back: for the header [Digest]
    followed by fields [key="value"] separated by a comma and a space, it
    returns the map of the keys to their values, in which the last field
    with a given key wins and a field with the key [__proto__] is left
    out. *)
Theorem parseDigestHeader_fields (fields : list (string * string)) :
  Forall quotable fields →
  Auth.parseDigestHeader ("Digest " +:+ Js.join ", " (challengeField <$> fields))
  = list_to_map (reverse (stored fields)).
Proof.
  intros Hall. unfold Auth.parseDigestHeader.
  assert (Hafter : Js.afterSchemeI "Digest"
                     ("Digest " +:+ Js.join ", " (challengeField <$> fields))
                   = Some (Js.join ", " (challengeField <$> fields))).
  { assert (Hspace : Js.dropWhile Js.isSpace (Js.join ", " (challengeField <$> fields))
                     = Js.join ", " (challengeField <$> fields)).
    { destruct fields as [|[k v] fields]; [done|].
      apply Forall_cons in Hall as [(Hk & Hk' & _) _]. cbn [fst] in Hk, Hk'.
      destruct k as [|a k]; [done|]. cbn in Hk. apply andb_prop in Hk as [Ha _].
      assert (Hhead : ∃ s, Js.join ", " (challengeField <$> (String a k, v) :: fields)
                           = String a s).
      { destruct fields; eexists; reflexivity. }
      destruct Hhead as [s ->]. cbn. by rewrite (isWord_not_space a Ha). }
    generalize dependent (Js.join ", " (challengeField <$> fields)).
    intros s Hs. unfold Js.afterSchemeI.
    change ("Digest " +:+ s)
      with (String "D" (String "i" (String "g" (String "e" (String "s"
              (String "t" (String " " s))))))).
    cbn -[Js.dropWhile]. cbn [Js.dropWhile].
    change (Js.isSpace " ") with true. cbn iota. by rewrite Hs. }
  rewrite Hafter. cbn [default from_option id].
  rewrite pairs_fields by done. rewrite foldl_assign.
  by rewrite (right_id_L ∅ (∪)).
Qed.

Lemma parseDigestHeader_fields_witness :
  Auth.parseDigestHeader
    ("Digest " +:+ Js.join ", "
                     (challengeField <$> [("realm", "acs"); ("nonce", "n1");
                                          ("__proto__", "x"); ("qop", "auth");
                                          ("nonce", "n2")]))
  = list_to_map [("nonce", "n2"); ("qop", "auth"); ("nonce", "n1"); ("realm", "acs")].
Proof.
  apply (parseDigestHeader_fields
           [("realm", "acs"); ("nonce", "n1"); ("__proto__", "x"); ("qop", "auth");
            ("nonce", "n2")]).
  repeat constructor; done.
Defined.

(** ** A challenge without a quality of protection the code knows *)

Section Legacy.
Context `{!Js.Builtins}.

(** X11: When the qop of the challenge is neither [auth] nor [auth-int] and the
    algorithm, in upper case, is not MD5-SESS, neither the nonce count nor
    the client nonce enters the response: the header is the same for every
    client nonce and every count below 2^53, up to the fields qop, nc and
    cnonce, which are appended when the qop is not empty. *)
Theorem generateDigestAuth_legacy (username password method uri : string)
    (digestParams : gmap string string) :
  Js.or_else (digestParams !! "qop") "" ≠ "auth" →
  Js.or_else (digestParams !! "qop") "" ≠ "auth-int" →
  Js.toUpperCase (Js.or_else (digestParams !! "algorithm") "MD5") ≠ Some "MD5-SESS" →
  ∃ header,
    ∀ nc cnonce,
      (∀ n, nc = Some n → (n < 2 ^ 53)%N) →
      Auth.generateDigestAuth username password method uri digestParams nc cnonce
      = if Js.truthy (Js.or_else (digestParams !! "qop") "")
        then header +:+ ", qop=" +:+ Js.or_else (digestParams !! "qop") ""
             +:+ ", nc=" +:+ Auth.ncStr nc +:+ ", cnonce=" +:+ Js.q cnonce
        else header.
Proof.
  intros Hauth Hint Hsess. unfold Auth.generateDigestAuth. cbv zeta.
  rewrite (bool_decide_eq_false_2 _ Hauth), (bool_decide_eq_false_2 _ Hint),
    (bool_decide_eq_false_2 _ Hsess). cbn [orb].
  eexists. intros nc cnonce _. reflexivity.
Qed.

End Legacy.

Lemma generateDigestAuth_legacy_witness :
  ∃ header,
    ∀ nc cnonce,
      (∀ n, nc = Some n → (n < 2 ^ 53)%N) →
      @Auth.generateDigestAuth exampleBuiltins "usertest" "passtest" "POST" "/acs"
        {[ "realm" := "r"; "nonce" := "n"; "qop" := "auth,auth-int" ]} nc cnonce
      = header +:+ ", qop=auth,auth-int, nc=" +:+ Auth.ncStr nc
        +:+ ", cnonce=" +:+ Js.q cnonce.
Proof.
  destruct (@generateDigestAuth_legacy exampleBuiltins "usertest" "passtest" "POST"
              "/acs" {[ "realm" := "r"; "nonce" := "n"; "qop" := "auth,auth-int" ]})
    as [header Hheader]; [done | done | done |].
  exists header. intros nc cnonce Hnc. rewrite (Hheader nc cnonce Hnc). reflexivity.
Defined.

(** * Transfers *)

Section Transfers.
Context `{!Xml.Parser}.

(** X12: A record queued by queueTransferComplete is the last of the queue. Its
    TransferComplete element carries a FaultStruct, with the fault code and
    the fault text given, exactly when the fault code given is neither empty
    nor 0; an empty fault code is stored as 0. *)
Theorem queueTransferComplete_fault (w : World) (key : option string)
    (started code message now : string) :
  ∃ t,
    pendingTransfers (queueTransferComplete key started code message w)
    = pendingTransfers w ++ [t]
    ∧ commandKey t = key ∧ startTime t = started ∧ faultString t = message
    ∧ faultCode t = (if Js.truthy code then code else "0")
    ∧ child "FaultStruct" (transferComplete t now)
      = if bool_decide (code = "") || bool_decide (code = "0") then None
        else Some (Xml.node "FaultStruct" []
                     [Xml.node "FaultCode" [] [Xml.Text code];
                      Xml.node "FaultString" []
                        [Xml.Text (Xml.encodeEntities
                                     (Some (Js.or_else (Some message) "")))]]).
Proof.
  eexists. split; [reflexivity|]. cbn [commandKey startTime faultString faultCode].
  split_and!; try done.
  unfold transferComplete. cbn [commandKey startTime faultString faultCode].
  destruct code as [|a code]; [reflexivity|].
  cbn [Js.truthy]. rewrite (bool_decide_eq_false_2 (String a code = "")) by done.
  cbn [orb andb negb].
  destruct (bool_decide (String a code = "0")); reflexivity.
Qed.

End Transfers.

(** * The download worker *)

Section Finishing.
Context `{!Js.Builtins, !Xml.Parser}.

(** The events that end a download: a response 200 read to its end, a
    socket error and the timeout. *)
Definition finishes (ev : Simulator.downloadEvent) : Prop :=
  match ev with
  | Simulator.Responded res => res_statusCode res = 200
  | Simulator.Failed _ | Simulator.TimedOut => True
  end.

(** The record the worker queues for an event that ends the download. *)
Definition outcome (dl : download) (ev : Simulator.downloadEvent) : transfer :=
  match ev with
  | Simulator.Responded _ => Transfer (dl_commandKey dl) (dl_startTime dl) "0" ""
  | Simulator.Failed message =>
      Transfer (dl_commandKey dl) (dl_startTime dl) "9010" message
  | Simulator.TimedOut =>
      Transfer (dl_commandKey dl) (dl_startTime dl) "9010" "Download timeout"
  end.

Definition succeeded (ev : Simulator.downloadEvent) : bool :=
  match ev with Simulator.Responded _ => true | _ => false end.

(** X13: A response 200, a socket error and the timeout end the download the
    same way: one record is queued, the TransferComplete session is
    scheduled 500 ms later, no request is issued, the reference to the
    active request is dropped, and a firmware download releases the
    downloadInProgress flag. Only a firmware image that was downloaded sets
    pendingReboot and firmwareUpgrade. *)
Theorem downloadStep_finishes (w : World) (dl : download)
    (ev : Simulator.downloadEvent) (cnonce : string) :
  finishes ev →
  let firmwareImage := isFirmware (fileType (dl_info dl)) in
  ∃ w' effects,
    Simulator.downloadStep w dl ev cnonce = (w', effects, Js.Ok ())
    ∧ pendingTransfers w' = pendingTransfers w ++ [outcome dl ev]
    ∧ startTransferCompleteSession ∈ effects
    ∧ Simulator.inFlight effects = None
    ∧ _activeDownloadRequest (device w') = None
    ∧ _downloadInProgress (device w')
      = (if firmwareImage then false else _downloadInProgress (device w))
    ∧ _pendingReboot (device w')
      = (if firmwareImage && succeeded ev then true else _pendingReboot (device w))
    ∧ _firmwareUpgrade (device w')
      = (if firmwareImage && succeeded ev then true else _firmwareUpgrade (device w)).
Proof.
  intros Hev firmwareImage. subst firmwareImage.
  destruct ev as [res|message|]; cbn [Simulator.downloadStep].
  - cbn in Hev. unfold downloadResponse. rewrite Hev. cbn.
    destruct (isFirmware _); cbn; eexists _, _; (split; [reflexivity|]);
      split_and!; try done; apply list_elem_of_here.
  - unfold downloadError.
    destruct (isFirmware _); cbn; eexists _, _; (split; [reflexivity|]);
      split_and!; try done; apply list_elem_of_here.
  - unfold downloadTimeout.
    destruct (isFirmware _); cbn; eexists _, _; (split; [reflexivity|]);
      split_and!; try done; apply list_elem_of_further, list_elem_of_here.
Qed.

(** X14: A response whose status is neither 200 nor 401 queues its record and
    schedules the session, but leaves the device as it was: the reference
    to the active request and, for a firmware image, the downloadInProgress
    flag stay. A firmware Download that comes later is refused with the
    fault 9010. *)
Theorem download_bad_status_keeps_lock (w : World) (dl : download)
    (res : getResponse) (cnonce : string) (request : Xml.element) (now : string)
    (callback : responder) :
  res_statusCode res ≠ 200 → res_statusCode res ≠ 401 →
  _downloadInProgress (device w) = true →
  fileType (downloadArguments (Xml.children request) noDwInfo) = Some firmware →
  ∃ w',
    downloadResponse w dl res cnonce
    = (w', [startTransferCompleteSession], Js.Ok ())
    ∧ pendingTransfers w'
      = pendingTransfers w
        ++ [Transfer (dl_commandKey dl) (dl_startTime dl) "9010"
              ("Server returned code " +:+ Js.ofZ (res_statusCode res))]
    ∧ device w' = device w
    ∧ Download w' request now callback
      = respond callback w' (createCwmpFault "9010" "File transfer already in progress").
Proof.
  intros H200 H401 Hlock Hft. eexists. split.
  { unfold downloadResponse.
    destruct (Z.eqb_spec (res_statusCode res) 401); [done|].
    destruct (Z.eqb_spec (res_statusCode res) 200); [done|]. reflexivity. }
  split; [done|]. split; [done|].
  unfold Download. fold noDwInfo. rewrite Hft. cbn [device queueTransferComplete
    set_pendingTransfers]. rewrite Hlock. reflexivity.
Qed.

End Finishing.

Lemma downloadStep_finishes_witness :
  ∃ w' effects,
    @Simulator.downloadStep exampleBuiltins (idleWorld (exampleDevice ∅))
      (firmwareDownload 0) (Simulator.Responded (GetResponse 200 None None)) "c"
    = (w', effects, Js.Ok ())
    ∧ pendingTransfers w'
      = [Transfer (Some "ck") "2024-01-01T00:00:00.000Z" "0" ""]
    ∧ _pendingReboot (device w') = true
    ∧ _firmwareUpgrade (device w') = true.
Proof.
  destruct (@downloadStep_finishes exampleBuiltins (idleWorld (exampleDevice ∅))
              (firmwareDownload 0) (Simulator.Responded (GetResponse 200 None None))
              "c" eq_refl)
    as (w' & effects & Hrun & Hqueue & _ & _ & _ & _ & Hreboot & Hupgrade).
  exists w', effects. split; [exact Hrun|]. split; [exact Hqueue|].
  split; [exact Hreboot | exact Hupgrade].
Defined.

(** A firmware download in progress. *)
Definition downloading : World :=
  mkWorld (mkDevice ∅ None false false false true (Some 0) None (Some 0%N) None
             (Some "usertest") (Some "passtest"))
    [] None false true 10000 "/acs".

Lemma download_bad_status_keeps_lock_witness :
  ∃ w',
    @downloadResponse exampleBuiltins downloading (firmwareDownload 0)
      (GetResponse 404 None None) "c"
    = (w', [startTransferCompleteSession], Js.Ok ())
    ∧ pendingTransfers w'
      = [Transfer (Some "ck") "2024-01-01T00:00:00.000Z" "9010"
           "Server returned code 404"]
    ∧ device w' = device downloading
    ∧ @Download exampleBuiltins exampleParser w' downloadFirmware
        "2024-01-01T00:00:00.000Z" silent
      = respond silent w' (@createCwmpFault exampleParser "9010"
                             "File transfer already in progress").
Proof.
  apply (@download_bad_status_keeps_lock exampleBuiltins exampleParser downloading
           (firmwareDownload 0) (GetResponse 404 None None) "c" downloadFirmware
           "2024-01-01T00:00:00.000Z" silent); done.
Defined.

(** ** How many requests a download makes *)

Definition isHttpGet (e : effect) : bool :=
  match e with HttpGet _ => true | _ => false end.

(** The number of GET requests among the effects of a step. *)
Definition requests (effects : list effect) : nat :=
  List.length (List.filter isHttpGet effects).

Section Bound.
Context `{!Js.Builtins}.

Lemma downloadFile_requests (w : World) (dl : download) :
  let s := downloadFile w dl in
  (requests s.1.2 = 0%nat ∧ Simulator.inFlight s.1.2 = None)
  ∨ (attempts (dl_info dl) ≤ 5 ∧ requests s.1.2 = 1%nat
     ∧ Simulator.inFlight s.1.2 = Some dl).
Proof.
  unfold downloadFile. destruct (Z.gtb_spec (attempts (dl_info dl)) 5); cbn.
  - by left.
  - destruct (url (dl_info dl) ≫= Js.urlPathSearch); cbn; [right | left]; done.
Qed.

Lemma retry_requests (w : World) (dl : download) (dw : DwInfo) (header : string) :
  let s := retry w dl dw header in
  (requests s.1.2 = 0%nat ∧ Simulator.inFlight s.1.2 = None)
  ∨ ∃ dl', attempts dw + 1 ≤ 5 ∧ attempts (dl_info dl') = attempts dw + 1
           ∧ requests s.1.2 = 1%nat ∧ Simulator.inFlight s.1.2 = Some dl'.
Proof.
  unfold retry.
  match goal with |- context [downloadFile w ?x] =>
    destruct (downloadFile_requests w x) as [Hfile|Hfile]; revert Hfile;
    destruct (downloadFile w x) as [[w' effects] r]
  end; cbn.
  - by left.
  - intros (? & ? & ?). right. eexists. split; [done|]. split; [|done]. done.
Qed.

Lemma downloadStep_requests (w : World) (dl : download)
    (ev : Simulator.downloadEvent) (cnonce : string) :
  let s := Simulator.downloadStep w dl ev cnonce in
  (requests s.1.2 = 0%nat ∧ Simulator.inFlight s.1.2 = None)
  ∨ ∃ dl', attempts (dl_info dl) + 1 ≤ 5
           ∧ attempts (dl_info dl') = attempts (dl_info dl) + 1
           ∧ requests s.1.2 = 1%nat ∧ Simulator.inFlight s.1.2 = Some dl'.
Proof.
  destruct ev as [res|message|]; cbn [Simulator.downloadStep].
  - unfold downloadResponse. cbv zeta.
    assert (Hsettle :
      ∀ s : step,
        s = (if negb (res_statusCode res =? 200)
             then (queueTransferComplete (dl_commandKey dl) (dl_startTime dl) "9010"
                     ("Server returned code " +:+ Js.ofZ (res_statusCode res)) w,
                   [startTransferCompleteSession], Js.Ok ())
             else
               if isFirmware (fileType (dl_info dl))
               then (on_device (set_firmwareUpgrade true)
                       (on_device (set_pendingReboot true)
                          (queueTransferComplete (dl_commandKey dl) (dl_startTime dl)
                             "0" ""
                             (on_device (set_activeDownloadRequest None)
                                (if isFirmware (fileType (dl_info dl))
                                 then on_device (set_downloadInProgress false) w
                                 else w)))),
                     [startTransferCompleteSession], Js.Ok ())
               else (queueTransferComplete (dl_commandKey dl) (dl_startTime dl) "0" ""
                       (on_device (set_activeDownloadRequest None)
                          (if isFirmware (fileType (dl_info dl))
                           then on_device (set_downloadInProgress false) w
                           else w)),
                     [startTransferCompleteSession], Js.Ok ())) →
        requests s.1.2 = 0%nat ∧ Simulator.inFlight s.1.2 = None).
    { intros s ->. destruct (negb _); [done|]. by destruct (isFirmware _). }
    destruct (res_statusCode res =? 401); [|left; by apply Hsettle].
    destruct (res_wwwAuthenticate res) as [h|]; [|left; by apply Hsettle].
    destruct (negb (Js.truthy h)); [left; by apply Hsettle|].
    assert (Hretry : ∀ dw header,
              attempts dw = attempts (dl_info dl) →
              (requests (retry w dl dw header).1.2 = 0%nat
               ∧ Simulator.inFlight (retry w dl dw header).1.2 = None)
              ∨ ∃ dl', attempts (dl_info dl) + 1 ≤ 5
                       ∧ attempts (dl_info dl') = attempts (dl_info dl) + 1
                       ∧ requests (retry w dl dw header).1.2 = 1%nat
                       ∧ Simulator.inFlight (retry w dl dw header).1.2 = Some dl').
    { intros dw header Hdw. rewrite <-Hdw. apply retry_requests. }
    destruct (_ || _); [by apply Hretry|].
    destruct (Js.matchSchemeI "Digest" h); [by apply Hretry|].
    left; by apply Hsettle.
  - left. unfold downloadError. by destruct (isFirmware _).
  - left. unfold downloadTimeout. by destruct (isFirmware _).
Qed.

Lemma requests_app (a b : list effect) : requests (a ++ b) = (requests a + requests b)%nat.
Proof. unfold requests. by rewrite List.filter_app, length_app. Qed.

(** X15: Whatever the file server answers, a download that has made its
    [attempts + 1]-th request makes at most [5 - attempts] more: six
    requests at most for a Download. *)
Theorem runDownload_requests (events : list Simulator.downloadEvent) (w : World)
    (dl : download) (cnonce : string) :
  Z.of_nat (requests (Simulator.runDownload w dl events cnonce).2)
  ≤ Z.max 0 (5 - attempts (dl_info dl)).
Proof.
  revert w dl. induction events as [|ev events IH]; intros w dl;
    cbn [Simulator.runDownload].
  - cbn. lia.
  - pose proof (downloadStep_requests w dl ev cnonce) as Hstep. cbv zeta in Hstep.
    destruct (Simulator.downloadStep w dl ev cnonce) as [[w1 effects] r].
    cbn [fst snd] in Hstep.
    destruct Hstep as [[Hn Hflight]|(dl' & Hle & Hattempts & Hn & Hflight)];
      rewrite Hflight; cbn [default from_option id].
    + specialize (IH w1 dl).
      destruct (Simulator.runDownload w1 dl events cnonce) as [w2 effects'].
      cbn [snd] in *. rewrite requests_app, Hn. lia.
    + specialize (IH w1 dl').
      destruct (Simulator.runDownload w1 dl' events cnonce) as [w2 effects'].
      cbn [snd] in *. rewrite requests_app, Hn, Hattempts in *. lia.
Qed.

(** X16: A Basic challenge below the retry cap makes the worker drop the request
    and issue it again with the Basic credentials of the Download request
    and the cookies of this challenge only; nothing is queued. *)
Theorem downloadResponse_basic_retry (w : World) (dl : download) (res : getResponse)
    (cnonce h target : string) :
  res_statusCode res = 401 →
  res_wwwAuthenticate res = Some h →
  Js.matchSchemeI "Basic" h = true →
  attempts (dl_info dl) < 5 →
  url (dl_info dl) ≫= Js.urlPathSearch = Some target →
  ∃ g,
    downloadResponse w dl res cnonce
    = (on_device (set_activeDownloadRequest (Some (attempts (dl_info dl) + 1))) w,
       [RequestDestroy; HttpGet g], Js.Ok ())
    ∧ get_authorization g
      = Some ("Basic " +:+ Js.base64 (Js.template (username (dl_info dl)) +:+ ":"
                                      +:+ Js.template (password (dl_info dl))))
    ∧ get_cookie g
      = match res_setCookie res with
        | Some (c :: cs) => Some (Js.join "; " (c :: cs))
        | _ => None
        end
    ∧ attempts (dl_info (get_download g)) = attempts (dl_info dl) + 1
    ∧ url (dl_info (get_download g)) = url (dl_info dl)
    ∧ dl_commandKey (get_download g) = dl_commandKey dl
    ∧ dl_startTime (get_download g) = dl_startTime dl.
Proof.
  intros Hstatus Hheader Hbasic Hattempts Hurl.
  unfold downloadResponse. rewrite Hstatus, Hheader. cbn [Z.eqb Pos.eqb].
  rewrite (matchSchemeI_truthy _ _ Hbasic), Hbasic, orb_true_r. cbn [negb].
  unfold retry, downloadFile. cbn [dl_info set_info attempts url authHeader cookies].
  destruct (Z.gtb_spec (attempts (dl_info dl) + 1) 5); [lia|]. rewrite Hurl.
  eexists. split; [reflexivity|]. cbn. split_and!; try done.
  by destruct (res_setCookie res) as [[|c cs]|].
Qed.

End Bound.

Lemma downloadResponse_basic_retry_witness :
  ∃ g,
    @downloadResponse exampleBuiltins (idleWorld (exampleDevice ∅)) (firmwareDownload 0)
      (GetResponse 401 (Some "Basic realm=files") (Some ["a=1"; "b=2"])) "c"
    = (on_device (set_activeDownloadRequest (Some 1)) (idleWorld (exampleDevice ∅)),
       [RequestDestroy; HttpGet g], Js.Ok ())
    ∧ get_authorization g = Some "Basic base64(u:p)"
    ∧ get_cookie g = Some "a=1; b=2".
Proof.
  destruct (@downloadResponse_basic_retry exampleBuiltins
              (idleWorld (exampleDevice ∅)) (firmwareDownload 0)
              (GetResponse 401 (Some "Basic realm=files") (Some ["a=1"; "b=2"])) "c"
              "Basic realm=files" "/file" eq_refl eq_refl eq_refl eq_refl eq_refl)
    as (g & Hrun & Hauth & Hcookie & _).
  exists g. split; [exact Hrun|]. split; [exact Hauth | exact Hcookie].
Defined.

(** ** What Download refuses *)

Definition downloadResponseBody : Xml.xml :=
  Xml.node "cwmp:DownloadResponse" []
    [Xml.node "Status" [] [Xml.Text "1"];
     Xml.node "StartTime" [] [Xml.Text "0001-01-01T00:00:00Z"];
     Xml.node "CompleteTime" [] [Xml.Text "0001-01-01T00:00:00Z"]].

Section Refusals.
Context `{!Js.Builtins, !Xml.Parser}.

(** X17: A Download whose FileType is missing, empty or not one of the five file
    types is answered with the fault 9003 and nothing else happens: the
    callback gets the state as it was, no request is made and no transfer
    is queued. *)
Theorem Download_rejects_file_type (w : World) (request : Xml.element)
    (now : string) (callback : responder) :
  (∀ ft, fileType (downloadArguments (Xml.children request) noDwInfo) = Some ft →
         ft ∉ validFileTypes) →
  ∃ message,
    Download w request now callback
    = respond callback w (createCwmpFault "9003" message).
Proof.
  intros Hft. unfold Download. fold noDwInfo.
  destruct (fileType (downloadArguments (Xml.children request) noDwInfo))
    as [ft|]; [|by eexists].
  destruct (negb (Js.truthy ft)); [by eexists|].
  rewrite bool_decide_eq_false_2 by by apply Hft. by eexists.
Qed.

(** X18: A Download with a valid file type whose URL starts with neither
    http:// nor https://, received while no firmware download is in progress
    when its file type is the firmware image, makes no request: the record
    9016 is queued, the TransferComplete session is scheduled 500 ms later,
    the device is left as it was, and the answer is still the
    DownloadResponse with status 1. *)
Theorem Download_invalid_scheme (w : World) (request : Xml.element)
    (now : string) (callback : responder) (ft u : string) :
  fileType (downloadArguments (Xml.children request) noDwInfo) = Some ft →
  ft ∈ validFileTypes →
  url (downloadArguments (Xml.children request) noDwInfo) = Some u →
  Js.startsWith u "http://" = false →
  Js.startsWith u "https://" = false →
  (ft = firmware → _downloadInProgress (device w) = false) →
  let queued :=
    set_pendingTransfers
      (pendingTransfers w
       ++ [Transfer (dw_commandKey (downloadArguments (Xml.children request) noDwInfo))
             now "9016" "Invalid URL scheme"]) w in
  Download w request now callback
  = ((callback queued downloadResponseBody).1,
     startTransferCompleteSession :: (callback queued downloadResponseBody).2,
     Js.Ok ()).
Proof.
  intros Hft Hvalid Hurl Hhttp Hhttps Hlock queued. subst queued.
  unfold Download. fold noDwInfo. rewrite Hft, Hurl, Hhttp, Hhttps.
  rewrite (bool_decide_eq_true_2 _ Hvalid). cbn [negb].
  assert (Htruthy : Js.truthy ft = true).
  { repeat (apply elem_of_cons in Hvalid as [->|Hvalid]; [done|]).
    by apply elem_of_nil in Hvalid. }
  rewrite Htruthy. cbn [negb]. unfold isFirmware.
  destruct (decide (ft = firmware)) as [->|Hother].
  - rewrite bool_decide_eq_true_2 by done. rewrite (Hlock eq_refl). cbn [andb].
    assert (Hsame : on_device (set_downloadInProgress false)
                      (on_device (set_downloadInProgress true) w) = w).
    { specialize (Hlock eq_refl). destruct w as [d ? ? ? ? ? ?]. destruct d.
      cbn in *. by subst. }
    rewrite Hsame. unfold respond, queueTransferComplete. cbn [Js.truthy].
    fold downloadResponseBody. by destruct (callback _ _).
  - rewrite bool_decide_eq_false_2 by (unfold firmware in Hother; congruence).
    cbn [andb]. unfold respond, queueTransferComplete. cbn [Js.truthy].
    fold downloadResponseBody. by destruct (callback _ _).
Qed.

End Refusals.

Lemma Download_rejects_file_type_witness :
  ∃ message,
    @Download exampleBuiltins exampleParser (idleWorld (exampleDevice ∅))
      (request "Download" [Xml.Element "FileType" "FileType" "9 Other" "" []])
      "2024-01-01T00:00:00.000Z" silent
    = respond silent (idleWorld (exampleDevice ∅))
        (@createCwmpFault exampleParser "9003" message).
Proof.
  apply (@Download_rejects_file_type exampleBuiltins exampleParser
           (idleWorld (exampleDevice ∅))
           (request "Download" [Xml.Element "FileType" "FileType" "9 Other" "" []])
           "2024-01-01T00:00:00.000Z" silent).
  intros ft [= <-]. apply (bool_decide_unpack _). reflexivity.
Defined.

Definition downloadFromFtp : Xml.element :=
  request "Download"
    [Xml.Element "CommandKey" "CommandKey" "ck" "" [];
     Xml.Element "FileType" "FileType" firmware "" [];
     Xml.Element "URL" "URL" "ftp://files/fw.bin" "" []].

Lemma Download_invalid_scheme_witness :
  @Download exampleBuiltins exampleParser (idleWorld (exampleDevice ∅)) downloadFromFtp
    "2024-01-01T00:00:00.000Z" silent
  = (set_pendingTransfers
       [Transfer (Some "ck") "2024-01-01T00:00:00.000Z" "9016" "Invalid URL scheme"]
       (idleWorld (exampleDevice ∅)),
     [startTransferCompleteSession], Js.Ok ()).
Proof.
  apply (@Download_invalid_scheme exampleBuiltins exampleParser
           (idleWorld (exampleDevice ∅)) downloadFromFtp "2024-01-01T00:00:00.000Z"
           silent firmware "ftp://files/fw.bin");
    [reflexivity | apply list_elem_of_here | reflexivity | reflexivity | reflexivity
    | reflexivity].
Defined.

(** * What a request leaves of the state *)

Section Frames.
Context `{!Js.Builtins, !Xml.Parser, !Xml.Printer}.

Lemma set_nonceCount_id (d : Device) : set_nonceCount (_nonceCount d) d = d.
Proof. by destruct d. Qed.

Lemma getAuthorizationHeader_device (d : Device) (method uri cnonce : string) :
  ∃ n, (Auth.getAuthorizationHeader d method uri cnonce).1 = set_nonceCount n d.
Proof.
  unfold Auth.getAuthorizationHeader.
  destruct (_username d), (_password d);
    try (exists (_nonceCount d); by rewrite set_nonceCount_id).
  destruct (_ && _); [|exists (_nonceCount d); by rewrite set_nonceCount_id].
  destruct (_digestParams d); [by eexists|].
  exists (_nonceCount d); by rewrite set_nonceCount_id.
Qed.

Lemma sendRequest_frame (w : World) (xml : option Xml.xml) (k : continuation)
    (cnonce : string) :
  ∃ n r, Simulator.sendRequest w xml k cnonce
         = (on_device (set_nonceCount n) w, [HttpPost r])
         ∧ post_xml r = xml ∧ post_callback r = k
         ∧ post_cookie r = _cookie (device w).
Proof.
  unfold Simulator.sendRequest.
  destruct (getAuthorizationHeader_device (device w) "POST" (path w) cnonce) as [n Hn].
  destruct (Auth.getAuthorizationHeader _ _ _ _) as [d a]. cbn [fst] in Hn. subst d.
  by eexists n, _.
Qed.

(** The state [inform] hands to its callback. *)
Definition informed (w : World) : World :=
  match pendingTransfers w with
  | [] => w
  | _ :: rest => on_device (set_transferCompleteSession true) (set_pendingTransfers rest w)
  end.

Lemma startSession_frame (w : World) (event : option string) (i : inputs) :
  ∃ n r inform,
    Simulator.startSession w event i
    = (on_device (set_nonceCount n)
         (informed (set_pendingInform false (set_nextInformTimeout None w))),
       [HttpPost r])
    ∧ post_xml r = Some (Simulator.createSoapDocument (Some (requestId i)) inform)
    ∧ child "cwmp:TransferComplete" inform
      = (λ t, transferComplete t (now i)) <$> head (pendingTransfers w).
Proof.
  unfold Simulator.startSession, inform, getPendingTransfers, informed,
    Simulator.reply.
  cbn [pendingTransfers set_pendingInform set_nextInformTimeout].
  destruct (pendingTransfers w) as [|t rest];
    match goal with
    | |- context [Simulator.sendRequest ?w0 ?x ?k ?c] =>
        destruct (sendRequest_frame w0 x k c) as (n & r & Hsend & Hxml & _)
    end; rewrite Hsend; eexists n, r, _; (split; [reflexivity|]);
    (split; [exact Hxml|]); reflexivity.
Qed.

Lemma cpeRequest_frame (w : World) (xml : Xml.element) (i : inputs)
    (id : option string) (bodyElement : option Xml.element) :
  Simulator.getRequestIdAndBody xml = Js.Ok (id, bodyElement) →
  ∃ n r, Simulator.cpeRequest w (Some xml) i
         = (on_device (set_nonceCount n) (informed w), [HttpPost r], Js.Ok ())
         ∧ post_cookie r = _cookie (device w).
Proof.
  intros Hid. unfold Simulator.cpeRequest, getPendingTransfers, informed.
  rewrite Hid. destruct (pendingTransfers w) as [|t rest].
  - destruct (negb (acceptConnections w));
      match goal with
      | |- context [Simulator.sendRequest ?w0 ?x ?k ?c] =>
          destruct (sendRequest_frame w0 x k c) as (n & r & Hsend & _ & _ & Hcookie)
      end; rewrite Hsend; by eexists n, r.
  - match goal with
    | |- context [Simulator.sendRequest ?w0 ?x ?k ?c] =>
        destruct (sendRequest_frame w0 x k c) as (n & r & Hsend & _ & _ & Hcookie)
    end. rewrite Hsend. by eexists n, r.
Qed.

(** ** A session delivers the first pending transfer *)

(** X19: Starting a session clears the timer of the next inform and the
    pendingInform flag and posts one Inform. When transfers are pending, the
    Inform carries the TransferComplete of the first of them, which leaves
    the queue, and transferCompleteSession is set; when none is pending the
    Inform carries no TransferComplete and the flag is left as it was. *)
Theorem startSession_delivers_transfer (w : World) (event : option string)
    (i : inputs) :
  ∃ w' r inform,
    Simulator.startSession w event i = (w', [HttpPost r])
    ∧ post_xml r = Some (Simulator.createSoapDocument (Some (requestId i)) inform)
    ∧ nextInformTimeout w' = None ∧ pendingInform w' = false
    ∧ params (device w') = params (device w)
    ∧ match pendingTransfers w with
      | [] =>
          child "cwmp:TransferComplete" inform = None
          ∧ pendingTransfers w' = []
          ∧ _transferCompleteSession (device w')
            = _transferCompleteSession (device w)
      | t :: rest =>
          child "cwmp:TransferComplete" inform = Some (transferComplete t (now i))
          ∧ pendingTransfers w' = rest
          ∧ _transferCompleteSession (device w') = true
      end.
Proof.
  destruct (startSession_frame w event i) as (n & r & inform & Hrun & Hxml & Hchild).
  eexists _, r, inform. split; [exact Hrun|]. split; [exact Hxml|].
  unfold informed. cbn [pendingTransfers set_pendingInform set_nextInformTimeout].
  destruct (pendingTransfers w) as [|t rest] eqn:Hqueue; cbn; by rewrite ?Hqueue.
Qed.

(** ** The Authorization header of a request *)


End Frames.



Section Rebooting.
Context `{!Js.Builtins, !Xml.Parser, !Xml.Printer}.

(** ** Reboot *)


(** ** The reboot after a firmware download *)






End Rebooting.

(** ** The identity in an Inform *)

(** The parameter an identity field of the Inform is read from: the first
    of the keys the device has. *)
Definition firstPresent (d : Device) (keys : list string) : option param :=
  head (omap (λ k, params d !! k) keys).

(** The fields of DeviceId and the keys each is read from, in order. *)
Definition identityFields : list (string * list string) :=
  [("Manufacturer", ["DeviceID.Manufacturer"; "Device.DeviceInfo.Manufacturer";
                     "InternetGatewayDevice.DeviceInfo.Manufacturer"]);
   ("OUI", ["DeviceID.OUI"; "Device.DeviceInfo.ManufacturerOUI";
            "InternetGatewayDevice.DeviceInfo.ManufacturerOUI"]);
   ("ProductClass", ["DeviceID.ProductClass"; "Device.DeviceInfo.ProductClass";
                     "InternetGatewayDevice.DeviceInfo.ProductClass"]);
   ("SerialNumber", ["DeviceID.SerialNumber"; "Device.DeviceInfo.SerialNumber";
                     "InternetGatewayDevice.DeviceInfo.SerialNumber"])].

Section Identity.
Context `{!Js.Builtins, !Xml.Parser, !Xml.Printer}.

Lemma identityField_firstPresent (d : Device) (tag : string) (keys : list string) :
  identityField d tag keys
  = match firstPresent d keys with
    | Some par => Xml.Node tag [] [Xml.Text (Xml.encodeEntities (value par))]
    | None => Xml.Text ""
    end.
Proof.
  unfold firstPresent. induction keys as [|k keys IH]; [done|].
  cbn. unfold lookup_param. by destruct (params d !! k).
Qed.

(** X23: Each field of the DeviceId of an Inform holds the encoded value of the
    first parameter the device has among [DeviceID.x], [Device.DeviceInfo.x]
    and [InternetGatewayDevice.DeviceInfo.x]; a field none of whose
    parameters exists is left out. *)
Theorem startSession_identity (w : World) (event : option string) (i : inputs) :
  ∃ w' r inform,
    Simulator.startSession w event i = (w', [HttpPost r])
    ∧ post_xml r = Some (Simulator.createSoapDocument (Some (requestId i)) inform)
    ∧ ∀ tag keys, (tag, keys) ∈ identityFields →
        (child "DeviceId" inform ≫= child tag) ≫= textOf
        = (λ par, Xml.encodeEntities (value par)) <$> firstPresent (device w) keys.
Proof.
  unfold Simulator.startSession, inform, Simulator.reply.
  rewrite !identityField_firstPresent.
  cbn [device set_pendingInform set_nextInformTimeout].
  assert (Hfields : ∀ extra tag keys, (tag, keys) ∈ identityFields →
    (child "DeviceId"
       (Xml.node "cwmp:Inform" []
          (Xml.node "DeviceId" []
             [match firstPresent (device w) ["DeviceID.Manufacturer";
                "Device.DeviceInfo.Manufacturer";
                "InternetGatewayDevice.DeviceInfo.Manufacturer"] with
              | Some par => Xml.Node "Manufacturer" [] [Xml.Text (Xml.encodeEntities (value par))]
              | None => Xml.Text ""
              end;
              match firstPresent (device w) ["DeviceID.OUI";
                "Device.DeviceInfo.ManufacturerOUI";
                "InternetGatewayDevice.DeviceInfo.ManufacturerOUI"] with
              | Some par => Xml.Node "OUI" [] [Xml.Text (Xml.encodeEntities (value par))]
              | None => Xml.Text ""
              end;
              match firstPresent (device w) ["DeviceID.ProductClass";
                "Device.DeviceInfo.ProductClass";
                "InternetGatewayDevice.DeviceInfo.ProductClass"] with
              | Some par => Xml.Node "ProductClass" [] [Xml.Text (Xml.encodeEntities (value par))]
              | None => Xml.Text ""
              end;
              match firstPresent (device w) ["DeviceID.SerialNumber";
                "Device.DeviceInfo.SerialNumber";
                "InternetGatewayDevice.DeviceInfo.SerialNumber"] with
              | Some par => Xml.Node "SerialNumber" [] [Xml.Text (Xml.encodeEntities (value par))]
              | None => Xml.Text ""
              end] :: extra)) ≫= child tag) ≫= textOf
    = (λ par, Xml.encodeEntities (value par)) <$> firstPresent (device w) keys).
  { intros extra tag keys Hin.
    repeat (apply elem_of_cons in Hin as [[= -> ->]|Hin];
            [repeat destruct (firstPresent _ _); reflexivity|]).
    by apply elem_of_nil in Hin. }
  destruct (getPendingTransfers _) as [w1 [t|]];
    match goal with
    | |- context [Simulator.sendRequest ?w0 ?x ?k ?c] =>
        destruct (sendRequest_frame w0 x k c) as (n & r & Hsend & Hxml & _)
    end; rewrite Hsend; eexists _, r, _; (split; [reflexivity|]);
    (split; [exact Hxml|]); apply Hfields.
Qed.

(** ** The first session *)

(** X24: Once the listener is up, the connection request URL is written to the
    InternetGatewayDevice parameter when the device has it, to the Device
    parameter otherwise, and the first session starts: its Inform carries
    the single event code [1 BOOT]. *)
Theorem listening_boot (w : World) (connectionRequestUrl : string) (i : inputs) :
  ∃ w' r envelope,
    Simulator.listening w connectionRequestUrl i = (w', [HttpPost r])
    ∧ post_xml r = Some envelope
    ∧ informEventCodes envelope = Some ["1 BOOT"]
    ∧ match params (device w)
              !! "InternetGatewayDevice.ManagementServer.ConnectionRequestURL" with
      | Some par =>
          params (device w')
          = <["InternetGatewayDevice.ManagementServer.ConnectionRequestURL"
              := Param (writable par) (Some connectionRequestUrl) (xsdType par)]>
              (params (device w))
      | None =>
          match params (device w) !! "Device.ManagementServer.ConnectionRequestURL" with
          | Some par =>
              params (device w')
              = <["Device.ManagementServer.ConnectionRequestURL"
                  := Param (writable par) (Some connectionRequestUrl) (xsdType par)]>
                  (params (device w))
          | None => params (device w') = params (device w)
          end
      end.
Proof.
  unfold Simulator.listening.
  match goal with
  | |- context [Simulator.startSession ?w0 ?e ?i] =>
      destruct (startSession_events w0 e i) as (w' & r & envelope & Hrun & Hxml & _ & He);
      destruct (startSession_frame w0 e i) as (n & r' & inform & Hrun' & _)
  end.
  exists w', r, envelope. split; [exact Hrun|]. split; [exact Hxml|].
  split; [exact He|].
  rewrite Hrun in Hrun'. injection Hrun' as -> _. unfold informed.
  cbn [pendingTransfers set_pendingInform set_nextInformTimeout set_device].
  unfold Simulator.setValue, lookup_param.
  destruct (params (device w) !! "InternetGatewayDevice.ManagementServer.ConnectionRequestURL")
    as [par|]; [by destruct (pendingTransfers w)|].
  destruct (params (device w) !! "Device.ManagementServer.ConnectionRequestURL")
    as [par|]; by destruct (pendingTransfers w).
Qed.

(** ** FactoryReset *)

(** X25: The FactoryReset RPC, as the session dispatches it, posts the
    FactoryResetResponse and schedules the end of the process 500 ms later;
    it resets nothing: apart from the nonce count the state, the parameters
    included, is what it was. *)
Theorem handleMethod_FactoryReset (w : World) (xml : Xml.element) (i : inputs)
    (id : option string) (bodyElement rpc : Xml.element) :
  Simulator.getRequestIdAndBody xml = Js.Ok (id, Some bodyElement) →
  List.find (λ c, Js.startsWith (Xml.name c) "cwmp:") (Xml.children bodyElement)
  = Some rpc →
  Xml.localName rpc = "FactoryReset" →
  ∃ n r,
    Simulator.handleMethod w (Some xml) i
    = (on_device (set_nonceCount n) w,
       [HttpPost r; SetTimeout Kill (Js.Num 500)], Js.Ok ())
    ∧ post_xml r
      = Some (Simulator.createSoapDocument id
                (Xml.node "cwmp:FactoryResetResponse" [] [Xml.Text ""]))
    ∧ post_callback r = ToHandleMethod
    ∧ ∀ w2 i2, Simulator.fire w2 Kill i2 = (w2, [ProcessKill]).
Proof.
  intros Hid Hfind Hname.
  unfold Simulator.handleMethod. rewrite Hid, Hfind, Hname.
  change (Simulator.method "FactoryReset")
    with (Some (λ (w : World) (r : Xml.element) (_ : inputs) (cb : responder),
                  FactoryReset w r cb)).
  cbv beta. unfold FactoryReset, Simulator.reply.
  match goal with
  | |- context [Simulator.sendRequest ?w0 ?x ?k ?c] =>
      destruct (sendRequest_frame w0 x k c) as (n & r & Hsend & Hxml & Hk & _)
  end. rewrite Hsend. by exists n, r.
Qed.

End Identity.

Lemma handleMethod_FactoryReset_witness :
  ∃ n r,
    @Simulator.handleMethod exampleBuiltins exampleParser examplePrinter
      (idleWorld oneInstance) (Some (fromAcs (request "FactoryReset" [])))
      exampleInputs
    = (on_device (set_nonceCount n) (idleWorld oneInstance),
       [HttpPost r; SetTimeout Kill (Js.Num 500)], Js.Ok ())
    ∧ post_callback r = ToHandleMethod.
Proof.
  destruct (@handleMethod_FactoryReset exampleBuiltins exampleParser examplePrinter
              (idleWorld oneInstance) (fromAcs (request "FactoryReset" []))
              exampleInputs (Some "77")
              (Xml.Element "soap-env:Body" "Body" "" "" [request "FactoryReset" []])
              (request "FactoryReset" []) eq_refl eq_refl eq_refl)
    as (n & r & Hrun & _ & Hk & _).
  exists n, r. split; [exact Hrun | exact Hk].
Defined.

(** ** Connection requests *)

(** X26: A second connection request changes nothing of the state the first one
    left: while the device refuses connections both are dropped, during a
    session pendingInform stays set, and an idle device has one session
    timer, the one for [6 CONNECTION REQUEST] without delay; the timer it
    replaces is cleared before. *)
Theorem connectionRequest_twice (w : World) :
  (Simulator.connectionRequest (Simulator.connectionRequest w).1).1
  = (Simulator.connectionRequest w).1
  ∧ (acceptConnections w = false →
     Simulator.connectionRequest w = (w, [SocketDestroy]))
  ∧ (acceptConnections w = true →
     ∀ cb delay, SetTimeout cb delay ∈ (Simulator.connectionRequest w).2 →
       cb = StartSession (Some "6 CONNECTION REQUEST") ∧ delay = Js.Num 0
       ∧ nextInformTimeout (Simulator.connectionRequest w).1 = Some (cb, delay)
       ∧ ∃ old, nextInformTimeout w = Some old
                ∧ (Simulator.connectionRequest w).2
                  = [ResponseEnd; ClearTimeout old.1 old.2; SetTimeout cb delay]).
Proof.
  unfold Simulator.connectionRequest.
  destruct (acceptConnections w) eqn:Haccept; cbn [negb].
  - destruct (nextInformTimeout w) as [[cb0 delay0]|] eqn:Htimer; cbn.
    + rewrite Haccept. cbn. split; [done|]. split; [done|].
      intros _ cb delay Hin.
      apply elem_of_cons in Hin as [?|Hin]; [done|].
      apply elem_of_cons in Hin as [?|Hin]; [done|].
      apply list_elem_of_singleton in Hin as [= -> ->].
      split; [done|]. split; [done|]. split; [done|]. by exists (cb0, delay0).
    + rewrite Haccept, Htimer. cbn. split; [done|]. split; [done|].
      intros _ cb delay Hin. by apply list_elem_of_singleton in Hin.
  - cbn. rewrite Haccept. cbn. by split_and!.
Qed.

(** ** The delay of the periodic inform *)

Lemma parseInt_ofN (n : N) : Js.parseInt (Some (Js.ofN n)) = Js.Num (Z.of_N n).
Proof.
  unfold Js.parseInt.
  pose proof (digits_ofN None n eq_refl) as Hdigits.
  pose proof (all_digits_ofN n) as Hall.
  destruct (Js.ofN n) as [|a s]; [done|].
  cbn in Hall. apply andb_prop in Hall as [Ha _].
  assert (Js.isSpace a = false ∧ Ascii.eqb a "-"%char = false
          ∧ Ascii.eqb a "+"%char = false) as (Hspace & Hminus & Hplus).
  { unfold isDigit, Js.digit in Ha.
    destruct a as [[] [] [] [] [] [] [] []]; by vm_compute in Ha |- *. }
  cbn [Js.dropWhile]. rewrite Hspace, Hminus, Hplus, Hdigits. f_equal. lia.
Qed.

Section Periodic.
Context `{!Js.Builtins, !Xml.Parser, !Xml.Printer}.

(** X27: When a session closes with no reboot pending and no connection request
    waiting, the next session is a periodic one: [setTimeout] is called with
    1000 times the decimal numeral n that [Device.ManagementServer.
    PeriodicInformInterval] holds, whatever the InternetGatewayDevice
    parameter holds, and the timer is kept in nextInformTimeout. The
    statement is for n from 1 to 2147483, where the product is exact and
    within the delays a timer takes as they are. *)
Theorem closeSession_periodic (w : World) (i : inputs) (par : param) (seconds : N) :
  _pendingReboot (device w) = false →
  pendingInform w = false →
  params (device w) !! "Device.ManagementServer.PeriodicInformInterval" = Some par →
  value par = Some (Js.ofN seconds) →
  (1 ≤ seconds ≤ 2147483)%N →
  let timer := (StartSession None, Js.Num (1000 * Z.of_N seconds)) in
  ∃ w',
    Simulator.handleMethod w None i
    = (w', [AgentDestroy; SetTimeout timer.1 timer.2], Js.Ok ())
    ∧ nextInformTimeout w' = Some timer
    ∧ acceptConnections w' = acceptConnections w
    ∧ _transferCompleteSession (device w') = false
    ∧ ∀ w2 i2, ∃ w3 r envelope,
        Simulator.fire w2 timer.1 i2 = (w3, [HttpPost r])
        ∧ post_xml r = Some envelope
        ∧ informEventCodes envelope = Some ["2 PERIODIC"].
Proof.
  intros Hreboot Hpending Hpar Hvalue _ timer. subst timer.
  unfold Simulator.handleMethod, Simulator.closeSession.
  rewrite Hreboot. cbn [andb]. cbn [pendingInform on_device set_device].
  rewrite Hpending. unfold Simulator.informInterval, lookup_param.
  rewrite Hpar, Hvalue, parseInt_ofN. cbn [Js.times].
  eexists. split; [reflexivity|]. split_and!; try done.
  intros w2 i2. cbn [fst Simulator.fire].
  destruct (startSession_events w2 None i2) as (w3 & r & envelope & Hrun & Hxml & _ & He).
  by exists w3, r, envelope.
Qed.

(** ** Cookies *)

(** X28: A response 2xx to a request whose callback is [cpeRequest], as the
    Inform is, that carries a body with an envelope and its header is
    answered by one request of the session. The cookies of the response,
    when it has any, replace those of the device, and that next request
    carries the cookies the device then has. *)
Theorem sendRequestEnd_cookie (w : World) (request : post) (res : Simulator.response)
    (i : inputs) (id : option string) (bodyElement : option Xml.element) :
  Simulator.statusCode res / 100 = 2 →
  post_callback request = ToCpeRequest →
  0 < Js.length (Simulator.body res) →
  Simulator.getRequestIdAndBody (Xml.parseXml (Simulator.body res))
  = Js.Ok (id, bodyElement) →
  ∃ w' r,
    Simulator.sendRequestEnd w request res i = (w', [HttpPost r], Js.Ok ())
    ∧ _cookie (device w')
      = match Simulator.setCookie res with
        | Some jar => Some jar
        | None => _cookie (device w)
        end
    ∧ post_cookie r = _cookie (device w').
Proof.
  intros Hstatus Hk Hbody Hid. unfold Simulator.sendRequestEnd.
  destruct (Z.eqb_spec (Simulator.statusCode res) 401) as [H401|_].
  { rewrite H401 in Hstatus. done. }
  rewrite Hstatus, Hk. cbn [Z.eqb Pos.eqb negb Simulator.continue].
  assert (Hlen : (Js.length (Simulator.body res) >? 0) = true) by by apply Z.gtb_lt.
  rewrite Hlen, orb_true_r.
  match goal with
  | |- context [Simulator.cpeRequest ?w0 _ _] =>
      destruct (cpeRequest_frame w0 _ i id bodyElement Hid) as (n & r & Hrun & Hcookie)
  end.
  rewrite Hrun. eexists _, r. split; [reflexivity|].
  unfold informed. destruct (Simulator.setCookie res) as [jar|];
    split; try (rewrite Hcookie); by destruct (pendingTransfers _).
Qed.

(** ** A method the simulator does not have *)

(** The exports of methods.js; [methods[name]] finds these names and the
    [inherited] ones. *)
Definition exported : list string :=
  ["inform"; "getPendingTransfers"; "GetParameterNames"; "GetParameterValues";
   "SetParameterValues"; "AddObject"; "DeleteObject"; "Download"; "Reboot";
   "FactoryReset"].

(** X29: A request whose name is not one the method table finds is answered
    with the SOAP fault that carries the CWMP fault 9000, under the id of
    the request, and the session goes on: the answer is dispatched like any
    other, and nothing but the nonce count changes. *)
Theorem handleMethod_unknown_method (w : World) (xml : Xml.element) (i : inputs)
    (id : option string) (bodyElement rpc : Xml.element) :
  Simulator.getRequestIdAndBody xml = Js.Ok (id, Some bodyElement) →
  List.find (λ c, Js.startsWith (Xml.name c) "cwmp:") (Xml.children bodyElement)
  = Some rpc →
  Xml.localName rpc ∉ exported ++ inherited →
  ∃ n r,
    Simulator.handleMethod w (Some xml) i
    = (on_device (set_nonceCount n) w, [HttpPost r], Js.Ok ())
    ∧ post_xml r
      = Some (Simulator.createSoapDocument id
                (Simulator.createFaultResponse "9000" "Method not supported"))
    ∧ post_callback r = ToHandleMethod.
Proof.
  intros Hid Hfind Hname. unfold Simulator.handleMethod. rewrite Hid, Hfind.
  assert (Hnone : Simulator.method (Xml.localName rpc) = None).
  { assert (Hown : Xml.localName rpc ∉ inherited).
    { intros Hin. apply Hname, elem_of_app. by right. }
    unfold Simulator.method.
    do 10 (case_bool_decide as Heq;
           [exfalso; apply Hname; rewrite Heq; apply (bool_decide_unpack _);
            reflexivity|]; clear Heq).
    case_bool_decide as Hin.
    { exfalso. apply Hown.
      repeat (apply elem_of_cons in Hin as [->|Hin];
              [apply (bool_decide_unpack _); reflexivity|]).
      by apply elem_of_nil in Hin. }
    by case_bool_decide. }
  rewrite Hnone.
  match goal with
  | |- context [Simulator.sendRequest ?w0 ?x ?k ?c] =>
      destruct (sendRequest_frame w0 x k c) as (n & r & Hsend & Hxml & Hk & _)
  end. rewrite Hsend. by exists n, r.
Qed.

End Periodic.

(** ** The state the simulator starts with *)

Lemma lookup_setValue (key : string) (v : option string) (d : Device) (k : string) :
  params (Simulator.setValue key v d) !! k
  = if decide (k = key)
    then (λ par, Param (writable par) v (xsdType par)) <$> params d !! k
    else params d !! k.
Proof.
  unfold Simulator.setValue, lookup_param.
  destruct (decide (k = key)) as [->|Hk].
  - destruct (params d !! key) as [par|] eqn:Hpar; cbn.
    + by rewrite lookup_insert_eq.
    + by rewrite Hpar.
  - destruct (params d !! key) as [par|] eqn:Hpar; cbn; [|done].
    by rewrite lookup_insert_ne.
Qed.

(** The keys [start] writes the serial number to. *)
Definition serialNumberKeys : list string :=
  ["DeviceID.SerialNumber"; "Device.DeviceInfo.SerialNumber";
   "InternetGatewayDevice.DeviceInfo.SerialNumber"].

(** The keys [start] writes the MAC address to. *)
Definition macAddressKeys : list string :=
  ["InternetGatewayDevice.WANDevice.1.WANConnectionDevice.1.WANIPConnection.1.MACAddress";
   "Device.WANDevice.1.WANConnectionDevice.1.WANIPConnection.1.MACAddress"].

Section Starting.
Context `{!Js.Builtins, !Xml.Parser, !Xml.Printer}.

(** X30: A data model without a ManagementServer.Username starts with the
    credentials usertest and passtest, whatever flags an earlier run left on
    it cleared, no challenge, a nonce count of 0, no timer and connections
    accepted. The serial number is written to the serial number parameters
    the model has, and a request sent in this state carries the Basic
    header of the default credentials. *)
Theorem start_defaults (dataModel : Device) (serialNumber macAddress acsUrl : string)
    (defaultTimeout : Z) (target : string) :
  Js.urlPathSearch acsUrl = Some target →
  params dataModel !! "Device.ManagementServer.Username" = None →
  params dataModel !! "InternetGatewayDevice.ManagementServer.Username" = None →
  ∃ w,
    Simulator.start dataModel serialNumber macAddress acsUrl defaultTimeout = Js.Ok w
    ∧ credentials (device w) = Some ("usertest", "passtest")
    ∧ (_pendingReboot (device w), _firmwareUpgrade (device w),
       _transferCompleteSession (device w), _downloadInProgress (device w))
      = (false, false, false, false)
    ∧ (_activeDownloadRequest (device w), _digestParams (device w),
       _nonceCount (device w), _cookie (device w)) = (None, None, Some 0%N, None)
    ∧ (pendingTransfers w, nextInformTimeout w, acceptConnections w, timeout w, path w)
      = ([], None, true, defaultTimeout, target)
    ∧ (∀ k par, k ∈ serialNumberKeys → params dataModel !! k = Some par →
                params (device w) !! k
                = Some (Param (writable par) (Some serialNumber) (xsdType par)))
    ∧ (∀ k, is_Some (params (device w) !! k) ↔ is_Some (params dataModel !! k))
    ∧ ∀ xml k cnonce, ∃ r,
        Simulator.sendRequest w xml k cnonce = (w, [HttpPost r])
        ∧ post_authorization r = Auth.basicAuth "usertest" "passtest".
Proof.
  intros Hurl Hdevice Higd. unfold Simulator.start.
  set (d := Simulator.setValue _ _ (Simulator.setValue _ _ (Simulator.setValue _ _
              (Simulator.setValue _ _ (Simulator.setValue _ _ dataModel))))).
  assert (Hlookup : ∀ k,
            params d !! k
            = if bool_decide (k ∈ serialNumberKeys)
              then (λ par, Param (writable par) (Some serialNumber) (xsdType par))
                   <$> params dataModel !! k
              else if bool_decide
                        (k ∈ macAddressKeys)
              then (λ par, Param (writable par) (Some macAddress) (xsdType par))
                   <$> params dataModel !! k
              else params dataModel !! k).
  { intros k. subst d. rewrite !lookup_setValue.
    repeat (destruct (decide (k = _)) as [->|?]; [reflexivity|]).
    rewrite !bool_decide_eq_false_2; [done| |].
    - intros Hin. repeat (apply elem_of_cons in Hin as [?|Hin]; [done|]).
      by apply elem_of_nil in Hin.
    - intros Hin. repeat (apply elem_of_cons in Hin as [?|Hin]; [done|]).
      by apply elem_of_nil in Hin. }
  assert (Hcred : Simulator.startCredentials d = Js.Ok (Some "usertest", Some "passtest")).
  { unfold Simulator.startCredentials, lookup_param. rewrite !Hlookup.
    cbn. by rewrite Hdevice, Higd. }
  rewrite Hcred, bind_Ok, Hurl. eexists. split; [reflexivity|].
  cbn [device]. split; [reflexivity|]. split; [reflexivity|]. split; [reflexivity|].
  split; [reflexivity|]. split_and!.
  - intros k par Hk Hpar. cbn [params]. rewrite Hlookup.
    by rewrite (bool_decide_eq_true_2 _ Hk), Hpar.
  - intros k. cbn [params]. rewrite Hlookup.
    repeat case_bool_decide; by rewrite ?fmap_is_Some.
  - intros xml k cnonce. eexists. split; reflexivity.
Qed.

End Starting.

Lemma start_defaults_witness :
  ∃ w,
    @Simulator.start exampleBuiltins
      (mkDevice
         {[ "Device.DeviceInfo.SerialNumber" := Param false (Some "S1") (Some "xsd:string") ]}
         None true true true true (Some 3) (Some authChallenge) (Some 7%N) (Some ["a=1"])
         None None)
      "S9" "02:00:00:00:00:01" "http://acs:7547/acs" 10000
    = Js.Ok w
    ∧ credentials (device w) = Some ("usertest", "passtest")
    ∧ _downloadInProgress (device w) = false
    ∧ params (device w) !! "Device.DeviceInfo.SerialNumber"
      = Some (Param false (Some "S9") (Some "xsd:string")).
Proof.
  destruct (@start_defaults exampleBuiltins examplePrinter
              (mkDevice
                 {[ "Device.DeviceInfo.SerialNumber"
                      := Param false (Some "S1") (Some "xsd:string") ]}
                 None true true true true (Some 3) (Some authChallenge) (Some 7%N)
                 (Some ["a=1"]) None None)
              "S9" "02:00:00:00:00:01" "http://acs:7547/acs" 10000 "/file")
    as (w & Hrun & Hcred & Hflags & _ & _ & Hserial & _);
    [reflexivity | by vm_compute | by vm_compute |].
  exists w. split; [exact Hrun|]. split; [exact Hcred|]. split.
  - by injection Hflags.
  - apply (Hserial "Device.DeviceInfo.SerialNumber"
             (Param false (Some "S1") (Some "xsd:string"))); [|reflexivity].
    apply list_elem_of_further, list_elem_of_here.
Defined.

(** ** The theorems of this part on examples *)

Lemma cache_ok_handlers_witness :
  cache_ok (@GetParameterNames exampleBuiltins readOnlyDevice setSerial).1
  ∧ cache_ok (@GetParameterValues exampleParser readOnlyDevice setSerial).1
  ∧ cache_ok (@SetParameterValues exampleParser readOnlyDevice setSerial).1
  ∧ cache_ok (AddObject readOnlyDevice setSerial).1
  ∧ cache_ok (DeleteObject readOnlyDevice setSerial).1.
Proof.
  destruct (@cache_ok_handlers exampleBuiltins exampleParser readOnlyDevice setSerial I)
    as (Hnames & Hvalues & Hset & Hadd & Hdelete).
  split_and!; [exact Hnames|exact Hvalues| |exact Hadd|exact Hdelete].
  apply Hset. repeat constructor. apply (bool_decide_unpack _). reflexivity.
Defined.

Lemma DeleteObject_private_fields_witness :
  ∃ d' r,
    DeleteObject oneInstance (request "DeleteObject" [elem "ObjectName" ""])
    = (d', Js.Ok r)
    ∧ _username d' = None
    ∧ (∀ method uri cnonce,
         @Auth.getAuthorizationHeader exampleBuiltins d' method uri cnonce = (d', ""))
    ∧ ("" = "" → params d' = ∅).
Proof.
  apply (@DeleteObject_private_fields exampleBuiltins oneInstance
           (request "DeleteObject" [elem "ObjectName" ""]) (elem "ObjectName" "") []);
    reflexivity.
Defined.


(** A parser that reads every answer as an InformResponse. *)
Definition informResponseParser : Xml.Parser := {|
  Xml.encodeEntities o := default "undefined" o;
  Xml.decodeEntities s := s;
  Xml.parseAttrs _ := [];
  Xml.parseXml _ := fromAcs (request "InformResponse" [])
|}.


Lemma closeSession_periodic_witness :
  ∃ w',
    @Simulator.handleMethod exampleBuiltins exampleParser examplePrinter
      (idleWorld readOnlyDevice) None exampleInputs
    = (w', [AgentDestroy; SetTimeout (StartSession None) (Js.Num 10000)], Js.Ok ())
    ∧ nextInformTimeout w' = Some (StartSession None, Js.Num 10000).
Proof.
  destruct (@closeSession_periodic exampleBuiltins exampleParser examplePrinter
              (idleWorld readOnlyDevice) exampleInputs
              (Param true (Some "10") (Some "xsd:unsignedInt")) 10%N
              eq_refl eq_refl eq_refl eq_refl ltac:(lia))
    as (w' & Hrun & Htimer & _).
  exists w'. split; [exact Hrun | exact Htimer].
Defined.

Lemma sendRequestEnd_cookie_witness :
  ∃ w' r,
    @Simulator.sendRequestEnd exampleBuiltins informResponseParser examplePrinter
      poked informPost
      (Simulator.Response 200 None None (Some ["session=1"]) "<soap-env:Envelope/>")
      exampleInputs
    = (w', [HttpPost r], Js.Ok ())
    ∧ _cookie (device w') = Some ["session=1"]
    ∧ post_cookie r = _cookie (device w').
Proof.
  apply (@sendRequestEnd_cookie exampleBuiltins informResponseParser examplePrinter
           poked informPost
           (Simulator.Response 200 None None (Some ["session=1"])
              "<soap-env:Envelope/>")
           exampleInputs (Some "77")
           (Some (Xml.Element "soap-env:Body" "Body" "" ""
                    [request "InformResponse" []])));
    reflexivity.
Defined.

Lemma handleMethod_unknown_method_witness :
  ∃ n r,
    @Simulator.handleMethod exampleBuiltins exampleParser examplePrinter
      (idleWorld (exampleDevice ∅)) (Some (fromAcs (request "GetRPCMethods" [])))
      exampleInputs
    = (on_device (set_nonceCount n) (idleWorld (exampleDevice ∅)), [HttpPost r],
       Js.Ok ())
    ∧ post_xml r
      = Some (@Simulator.createSoapDocument exampleParser (Some "77")
                (@Simulator.createFaultResponse exampleParser "9000"
                   "Method not supported"))
    ∧ post_callback r = ToHandleMethod.
Proof.
  apply (@handleMethod_unknown_method exampleBuiltins exampleParser examplePrinter
           (idleWorld (exampleDevice ∅)) (fromAcs (request "GetRPCMethods" []))
           exampleInputs (Some "77")
           (Xml.Element "soap-env:Body" "Body" "" "" [request "GetRPCMethods" []])
           (request "GetRPCMethods" [])); [reflexivity | reflexivity |].
  apply (bool_decide_unpack _). reflexivity.
Defined.
